(** * BTCagent: the tool-invocation envelope of the sub-agents

    A shallow embedding of the tool functions of
    [multi_tool_agent/sub_agents/crypto_market_agent.py],
    [multi_tool_agent/sub_agents/crypto_trade_agent.py] and
    [multi_tool_agent/sub_agents/market_news_agent.py].

    Conventions of the embedding:
    - a Python [str] is a [string] holding its UTF-8 bytes; [strip] removes
      the characters [str.isspace] accepts (0x09-0x0D and 0x1C-0x20 in ASCII,
      and U+0085, U+00A0, U+1680, U+2000-U+200A, U+2028, U+2029, U+202F,
      U+205F and U+3000 beyond it); [upper] and [lower] map the ASCII letters
      and keep every other byte: the case of letters outside ASCII, which
      follows the Unicode tables of the interpreter, is not modelled;
    - [print] is not modelled: a statement about what a tool returns or
      performs is about a call whose log lines could be written;
    - a Python [float] or [int] is an exact rational [Q]: IEEE rounding is
      outside the model;
    - a Python [dict] literal is an association list in source order;
    - an exception is a value of [exn]; a computation returns [Ret v] or
      [Exc e] and threads the chronological list of external operations it
      performed; the exchanges, the HTTP endpoints, the clock and the process
      environment are given by a [World]. *)

From Stdlib Require Import String Ascii List Permutation ZArith QArith Qround Lia Bool
  DecimalString.
Import ListNotations.
Local Open Scope string_scope.

(* ================================================================== *)
(** ** Python strings *)

Module PyStr.

(** [str.isspace] on one ASCII character. *)
Definition is_space (c : ascii) : bool :=
  let n := nat_of_ascii c in
  ((9 <=? n) && (n <=? 13) || (28 <=? n) && (n <=? 32))%nat.

Definition upper_char (c : ascii) : ascii :=
  let n := nat_of_ascii c in
  if ((97 <=? n) && (n <=? 122))%nat then ascii_of_nat (n - 32) else c.

Definition lower_char (c : ascii) : ascii :=
  let n := nat_of_ascii c in
  if ((65 <=? n) && (n <=? 90))%nat then ascii_of_nat (n + 32) else c.

(** [s.upper()] and [s.lower()]. *)
Fixpoint upper (s : string) : string :=
  match s with
  | EmptyString => EmptyString
  | String c s' => String (upper_char c) (upper s')
  end.

Fixpoint lower (s : string) : string :=
  match s with
  | EmptyString => EmptyString
  | String c s' => String (lower_char c) (lower s')
  end.

(** The whitespace characters of two and of three bytes: U+0085 and
    U+00A0; U+1680, U+2000-U+200A, U+2028, U+2029, U+202F, U+205F and
    U+3000. *)
Definition is_space2 (a b : ascii) : bool :=
  let x := nat_of_ascii a in
  let y := nat_of_ascii b in
  ((x =? 194) && ((y =? 133) || (y =? 160)))%nat.

Definition is_space3 (a b c : ascii) : bool :=
  let x := nat_of_ascii a in
  let y := nat_of_ascii b in
  let z := nat_of_ascii c in
  ((x =? 225) && ((y =? 154) && (z =? 128))
   || (x =? 226)
      && ((y =? 128) && ((128 <=? z) && (z <=? 138)
                         || (z =? 168) || (z =? 169) || (z =? 175))
          || (y =? 129) && (z =? 159))
   || (x =? 227) && ((y =? 128) && (z =? 128)))%nat.

(** What follows the whitespace character [s] starts with, if it starts
    with one. *)
Definition head_space (s : string) : option string :=
  match s with
  | EmptyString => None
  | String a s1 =>
      if is_space a then Some s1
      else match s1 with
           | EmptyString => None
           | String b s2 =>
               if is_space2 a b then Some s2
               else match s2 with
                    | EmptyString => None
                    | String c s3 => if is_space3 a b c then Some s3 else None
                    end
           end
  end.

(** Every character of [s] is whitespace. *)
Fixpoint all_space (s : string) : bool :=
  match s with
  | EmptyString => true
  | String a s1 =>
      if is_space a then all_space s1
      else match s1 with
           | EmptyString => false
           | String b s2 =>
               if is_space2 a b then all_space s2
               else match s2 with
                    | EmptyString => false
                    | String c s3 => if is_space3 a b c then all_space s3 else false
                    end
           end
  end.

(** [s.lstrip()], [s.rstrip()] and [s.strip()] with no argument. *)
Fixpoint lstrip (s : string) : string :=
  match s with
  | EmptyString => EmptyString
  | String a s1 =>
      if is_space a then lstrip s1
      else match s1 with
           | EmptyString => s
           | String b s2 =>
               if is_space2 a b then lstrip s2
               else match s2 with
                    | EmptyString => s
                    | String c s3 => if is_space3 a b c then lstrip s3 else s
                    end
           end
  end.

Fixpoint rstrip (s : string) : string :=
  match s with
  | EmptyString => EmptyString
  | String a s1 => if all_space s then EmptyString else String a (rstrip s1)
  end.

Definition strip (s : string) : string := rstrip (lstrip s).

(** Truthiness of a [str]: [not s] is [is_empty s]. *)
Definition is_empty (s : string) : bool :=
  match s with EmptyString => true | _ => false end.

(** The guard [not s or not s.strip()] of the input validators. *)
Definition blank (s : string) : bool := is_empty s || is_empty (strip s).

(** The characters [str.isspace] accepts, each as its UTF-8 bytes:
    U+0009-U+000D, U+001C-U+0020, U+0085, U+00A0, U+1680, U+2000-U+200A,
    U+2028, U+2029, U+202F, U+205F and U+3000. *)
Definition char1 (a : nat) : string := String (ascii_of_nat a) EmptyString.
Definition char2 (a b : nat) : string := String (ascii_of_nat a) (char1 b).
Definition char3 (a b c : nat) : string := String (ascii_of_nat a) (char2 b c).

Definition whitespace : list string :=
  (map char1 [9; 10; 11; 12; 13; 28; 29; 30; 31; 32]
   ++ [char2 194 133; char2 194 160; char3 225 154 128]
   ++ map (char3 226 128) [128; 129; 130; 131; 132; 133; 134; 135; 136; 137; 138]
   ++ [char3 226 128 168; char3 226 128 169; char3 226 128 175;
       char3 226 129 159; char3 227 128 128])%nat%list.

(** No byte of [s] is beyond ASCII. *)
Fixpoint is_ascii (s : string) : bool :=
  match s with
  | EmptyString => true
  | String c s' => (nat_of_ascii c <? 128)%nat && is_ascii s'
  end.

(** [c in s] for a one-character needle. *)
Fixpoint has_char (c : ascii) (s : string) : bool :=
  match s with
  | EmptyString => false
  | String x s' => Ascii.eqb x c || has_char c s'
  end.

(** [s.split(c)] for a one-character separator: never empty. *)
Fixpoint split (c : ascii) (s : string) : list string :=
  match s with
  | EmptyString => [EmptyString]
  | String x s' =>
      if Ascii.eqb x c then EmptyString :: split c s'
      else match split c s' with
           | p :: ps => String x p :: ps
           | [] => [String x EmptyString]
           end
  end.

(** [x in l] for a list of strings. *)
Definition mem (x : string) (l : list string) : bool :=
  existsb (String.eqb x) l.

(** The normalisation of a trading-pair symbol, [s.strip().upper()], and
    of an exchange, side, timeframe or asset name, [s.strip().lower()]. *)
Definition normalize_symbol (s : string) : string := upper (strip s).
Definition normalize_name (s : string) : string := lower (strip s).

End PyStr.

Import PyStr.


(* ================================================================== *)
(** ** Python values, exceptions and the builtins the tools use *)

Module Py.

(** The exceptions the tool functions tell apart, each with its [str(e)].
    [OtherException] stands for every other subclass of [Exception]
    (the exchange adapter's own errors among them). *)
Inductive exn : Type :=
| ValueError (msg : string)
| TypeError (msg : string)
| KeyError (msg : string)
| IndexError (msg : string)
| AttributeError (msg : string)
| ZeroDivisionError (msg : string)
| RequestTimeout (msg : string)
| RequestConnectionError (msg : string)
| OtherException (msg : string).

Definition exn_str (e : exn) : string :=
  match e with
  | ValueError m | TypeError m | KeyError m | IndexError m
  | AttributeError m | ZeroDivisionError m | RequestTimeout m
  | RequestConnectionError m | OtherException m => m
  end.

Definition is_zero_division (e : exn) : bool :=
  match e with ZeroDivisionError _ => true | _ => false end.

Inductive res (A : Type) : Type :=
| Ret (a : A)
| Exc (e : exn).
Arguments Ret {A} a.
Arguments Exc {A} e.

Definition rbind {A B} (r : res A) (k : A -> res B) : res B :=
  match r with Ret a => k a | Exc e => Exc e end.

Fixpoint rmap {A B} (f : A -> res B) (l : list A) : res (list B) :=
  match l with
  | [] => Ret []
  | x :: l' => rbind (f x) (fun y => rbind (rmap f l') (fun ys => Ret (y :: ys)))
  end.

(** JSON-like values: what the adapters return and what the tools build. *)
#[local] Unset Elimination Schemes.
Inductive pyval : Type :=
| PNone
| PBool (b : bool)
| PNum (q : Q)
| PStr (s : string)
| PList (l : list pyval)
| PDict (d : list (string * pyval)).
#[local] Set Elimination Schemes.

Definition dict := list (string * pyval).

Fixpoint lookup (k : string) (d : dict) : option pyval :=
  match d with
  | [] => None
  | (k', v) :: d' => if String.eqb k' k then Some v else lookup k d'
  end.

Definition has_key (k : string) (d : dict) : bool :=
  match lookup k d with Some _ => true | None => false end.

(** A number, [bool] being a subclass of [int]. *)
Definition as_num (v : pyval) : option Q :=
  match v with
  | PNum q => Some q
  | PBool b => Some (if b then 1 else 0)
  | _ => None
  end.

(** [bool(v)]. *)
Definition truthy (v : pyval) : bool :=
  match v with
  | PNone => false
  | PBool b => b
  | PNum q => negb (Qeq_bool q 0)
  | PStr s => negb (is_empty s)
  | PList l => match l with [] => false | _ => true end
  | PDict d => match d with [] => false | _ => true end
  end.

Definition is_none (v : pyval) : bool :=
  match v with PNone => true | _ => false end.

(** [v != 0] and [v == s] for a string literal [s]. *)
Definition ne_zero (v : pyval) : bool :=
  match as_num v with
  | Some q => negb (Qeq_bool q 0)
  | None => true
  end.

Definition eq_str (v : pyval) (s : string) : bool :=
  match v with PStr t => String.eqb t s | _ => false end.

Definition type_name (v : pyval) : string :=
  match v with
  | PNone => "NoneType" | PBool _ => "bool" | PNum _ => "float"
  | PStr _ => "str" | PList _ => "list" | PDict _ => "dict"
  end.

Definition not_subscriptable (v : pyval) : exn :=
  TypeError ("'" ++ type_name v ++ "' object is not subscriptable").

(** [v[k]] for a string key. *)
Definition getitem (v : pyval) (k : string) : res pyval :=
  match v with
  | PDict d => match lookup k d with
               | Some x => Ret x
               | None => Exc (KeyError ("'" ++ k ++ "'"))
               end
  | PList _ => Exc (TypeError "list indices must be integers or slices, not str")
  | PStr _ => Exc (TypeError "string indices must be integers, not 'str'")
  | _ => Exc (not_subscriptable v)
  end.

(** [v[i]] for a literal index [i >= 0]. *)
Definition getidx (v : pyval) (i : nat) : res pyval :=
  match v with
  | PList l => match nth_error l i with
               | Some x => Ret x
               | None => Exc (IndexError "list index out of range")
               end
  | PStr s => match String.get i s with
              | Some c => Ret (PStr (String c EmptyString))
              | None => Exc (IndexError "string index out of range")
              end
  | PDict _ => Exc (KeyError (NilEmpty.string_of_uint (Nat.to_uint i)))
  | _ => Exc (not_subscriptable v)
  end.

(** [v.get(k, default)]. *)
Definition get_default (v : pyval) (k : string) (default : pyval) : res pyval :=
  match v with
  | PDict d => Ret (match lookup k d with Some x => x | None => default end)
  | _ => Exc (AttributeError ("'" ++ type_name v ++ "' object has no attribute 'get'"))
  end.

(** The elements a [for] loop or a generator expression visits. *)
Fixpoint chars (s : string) : list pyval :=
  match s with
  | EmptyString => []
  | String c s' => PStr (String c EmptyString) :: chars s'
  end.

Definition iter (v : pyval) : res (list pyval) :=
  match v with
  | PList l => Ret l
  | PStr s => Ret (chars s)
  | PDict d => Ret (map (fun kv => PStr (fst kv)) d)
  | _ => Exc (TypeError ("'" ++ type_name v ++ "' object is not iterable"))
  end.

(** [len(v)]. *)
Definition len (v : pyval) : res nat :=
  match v with
  | PList l => Ret (List.length l)
  | PStr s => Ret (String.length s)
  | PDict d => Ret (List.length d)
  | _ => Exc (TypeError ("object of type '" ++ type_name v ++ "' has no len()"))
  end.

(** [v[:n]] for [n >= 0]. *)
Definition slice_to (v : pyval) (n : nat) : res pyval :=
  match v with
  | PList l => Ret (PList (firstn n l))
  | PStr s => Ret (PStr (String.substring 0 n s))
  | _ => Exc (TypeError ("'" ++ type_name v ++ "' object is not subscriptable"))
  end.

Definition unsupported (op : string) (a b : pyval) : exn :=
  TypeError ("unsupported operand type(s) for " ++ op ++ ": '"
             ++ type_name a ++ "' and '" ++ type_name b ++ "'").

(** [a - b], [a + b] and [a / b] as the result shapers use them: on
    numbers; [/] raises [ZeroDivisionError] on a zero divisor. *)
Definition sub (a b : pyval) : res pyval :=
  match as_num a, as_num b with
  | Some x, Some y => Ret (PNum (x - y))
  | _, _ => Exc (unsupported "-" a b)
  end.

Definition add (a b : pyval) : res pyval :=
  match as_num a, as_num b with
  | Some x, Some y => Ret (PNum (x + y))
  | _, _ => Exc (unsupported "+" a b)
  end.

Definition mul_num (a : pyval) (k : Q) : res pyval :=
  match as_num a with
  | Some x => Ret (PNum (x * k))
  | None => Exc (unsupported "*" a (PNum k))
  end.

(** [a * n] for a literal [n >= 0]: a product of numbers, or the
    repetition of a string or a list. *)
Definition mul_nat (a : pyval) (n : nat) : res pyval :=
  match a with
  | PStr s => Ret (PStr (String.concat EmptyString (repeat s n)))
  | PList l => Ret (PList (List.concat (repeat l n)))
  | _ => match as_num a with
         | Some x => Ret (PNum (x * inject_Z (Z.of_nat n)))
         | None => Exc (unsupported "*" a (PNum (inject_Z (Z.of_nat n))))
         end
  end.

Definition num_div (a b : pyval) : res Q :=
  match as_num a, as_num b with
  | Some x, Some y =>
      if Qeq_bool y 0 then Exc (ZeroDivisionError "division by zero")
      else Ret (x / y)
  | _, _ => Exc (unsupported "/" a b)
  end.

Definition div (a b : pyval) : res pyval :=
  rbind (num_div a b) (fun q => Ret (PNum q)).

(** [sum(l)]: the left fold of [+] from [0]. *)
Fixpoint sum_from (acc : pyval) (l : list pyval) : res pyval :=
  match l with
  | [] => Ret acc
  | x :: l' => rbind (add acc x) (fun acc' => sum_from acc' l')
  end.

Definition sum (l : list pyval) : res pyval := sum_from (PNum 0) l.

(** [sum(f(x) for x in l)]: each term is computed when it is added. *)
Fixpoint sum_map_from (f : pyval -> res pyval) (acc : pyval) (l : list pyval)
  : res pyval :=
  match l with
  | [] => Ret acc
  | x :: l' => rbind (f x) (fun v => rbind (add acc v) (fun acc' => sum_map_from f acc' l'))
  end.

Definition sum_map (f : pyval -> res pyval) (l : list pyval) : res pyval :=
  sum_map_from f (PNum 0) l.

(** [a < b] on two numbers or two strings; any other pair raises
    (the ordering of two lists is not modelled). *)
Fixpoint str_ltb (s t : string) : bool :=
  match s, t with
  | _, EmptyString => false
  | EmptyString, String _ _ => true
  | String a s', String b t' =>
      ((nat_of_ascii a <? nat_of_ascii b)%nat
       || (Ascii.eqb a b && str_ltb s' t'))
  end.

Definition lt (a b : pyval) : res bool :=
  match a, b with
  | PStr s, PStr t => Ret (str_ltb s t)
  | _, _ =>
      match as_num a, as_num b with
      | Some x, Some y => Ret (negb (Qle_bool y x))
      | _, _ => Exc (TypeError ("'<' not supported between instances of '"
                                ++ type_name a ++ "' and '" ++ type_name b ++ "'"))
      end
  end.

(** [max(l)] and [min(l)]: the first extremal element; [ValueError] on
    an empty sequence. *)
Fixpoint max_from (best : pyval) (l : list pyval) : res pyval :=
  match l with
  | [] => Ret best
  | x :: l' => rbind (lt best x)
                 (fun b => max_from (if b then x else best) l')
  end.

Fixpoint min_from (best : pyval) (l : list pyval) : res pyval :=
  match l with
  | [] => Ret best
  | x :: l' => rbind (lt x best)
                 (fun b => min_from (if b then x else best) l')
  end.

Definition max (l : list pyval) : res pyval :=
  match l with
  | [] => Exc (ValueError "max() arg is an empty sequence")
  | x :: l' => max_from x l'
  end.

Definition min (l : list pyval) : res pyval :=
  match l with
  | [] => Exc (ValueError "min() arg is an empty sequence")
  | x :: l' => min_from x l'
  end.

Definition of_nat (n : nat) : pyval := PNum (inject_Z (Z.of_nat n)).
Definition of_Z (z : Z) : pyval := PNum (inject_Z z).

(** [round(q, 2)]: to the nearest hundredth, ties to the even one. *)
Definition round_half_even (q : Q) : Z :=
  let f := Qfloor q in
  let r := q - inject_Z f in
  match Qcompare r (1 # 2) with
  | Lt => f
  | Gt => (f + 1)%Z
  | Eq => if Z.even f then f else (f + 1)%Z
  end.

Definition round2 (q : Q) : Q := inject_Z (round_half_even (q * 100)) / 100.

Definition is_list (v : pyval) : bool :=
  match v with PList _ => true | _ => false end.

Definition is_dict (v : pyval) : bool :=
  match v with PDict _ => true | _ => false end.

(** [math.floor(q)] as a number. *)
Definition floor (q : Q) : Q := inject_Z (Qfloor q).

(** [10 ** d]. *)
Definition pow10 (d : nat) : Q := inject_Z (10 ^ Z.of_nat d).

End Py.

Import Py.

(* ================================================================== *)
(** ** The external world and the effect monad *)

Module Env.

(** An exchange object: the adapter class chosen by [ex_id], the
    configuration it was built from and its loaded [markets] table. *)
Record exchange : Type := {
  ex_id : string;
  ex_config : dict;
  ex_markets : pyval
}.

(** The external operations: methods of the exchange adapter, HTTP
    requests and [time.sleep]. *)
Inductive call : Type :=
| LoadMarkets (ex : exchange)
| FetchTicker (ex : exchange) (symbol : string)
| FetchOrderBook (ex : exchange) (symbol : string) (limit : Z)
| FetchTrades (ex : exchange) (symbol : string) (limit : Z)
| FetchOHLCV (ex : exchange) (symbol timeframe : string) (limit : Z)
| FetchOpenInterestHistory (ex : exchange) (symbol timeframe : string) (limit : Z)
| FetchOpenOrders (ex : exchange) (symbol : option string) (params : dict)
| CreateLimitOrder (ex : exchange) (symbol side : string) (amount price : Q)
                   (params : dict)
| CreateMarketOrder (ex : exchange) (symbol side : string) (amount : Q)
                    (params : dict)
| HttpPost (url : string) (json : dict) (timeout : Z)
| HttpGet (url : string) (params : dict) (timeout : Z)
| Sleep (seconds : Q).

(** Does the operation reach an exchange or an HTTP endpoint? *)
Definition is_external (c : call) : bool :=
  match c with Sleep _ => false | _ => true end.

Definition trace := list call.

(** An HTTP response: its status code and what [response.json()] gives. *)
Record response : Type := {
  status_code : Z;
  json_body : res pyval
}.

(** Everything outside the process. Each answer may depend on the
    operations performed so far. *)
Record World : Type := {
  exchange_answer : trace -> call -> res pyval;
  http_answer : trace -> call -> res response;
  exchange_has : string -> pyval;
  getenv : string -> option string;
  clock : trace -> Q;
  format_timestamp : Q -> res string;
  int_of_str : string -> res Z;
  repr_value : pyval -> string
}.

(** A computation: from the operations performed so far to a result and
    the operations performed after it. *)
Definition Eff (A : Type) : Type := trace -> res A * trace.

Definition ret {A} (a : A) : Eff A := fun tr => (Ret a, tr).
Definition raise {A} (e : exn) : Eff A := fun tr => (Exc e, tr).
Definition lift {A} (r : res A) : Eff A := fun tr => (r, tr).

Definition bind {A B} (m : Eff A) (k : A -> Eff B) : Eff B :=
  fun tr => match m tr with
            | (Ret a, tr') => k a tr'
            | (Exc e, tr') => (Exc e, tr')
            end.

(** [try: body except Exception as e: handler e]. *)
Definition try_except {A} (body : Eff A) (handler : exn -> Eff A) : Eff A :=
  fun tr => match body tr with
            | (Ret a, tr') => (Ret a, tr')
            | (Exc e, tr') => handler e tr'
            end.

Section Operations.
Variable W : World.

Definition exchange_call (c : call) : Eff pyval :=
  fun tr => (exchange_answer W tr c, (tr ++ [c])%list).

Definition http_call (c : call) : Eff response :=
  fun tr => (http_answer W tr c, (tr ++ [c])%list).

Definition sleep (seconds : Q) : Eff unit :=
  fun tr => (Ret tt, (tr ++ [Sleep seconds])%list).

(** [time.time()]. *)
Definition time_time : Eff pyval :=
  fun tr => (Ret (PNum (clock W tr)), tr).

(** [os.getenv(name, '')]. *)
Definition getenv_or_empty (name : string) : string :=
  match getenv W name with Some v => v | None => EmptyString end.

(** [str(v)]. *)
Definition str (v : pyval) : string :=
  match v with
  | PStr s => s
  | PNone => "None"
  | PBool true => "True"
  | PBool false => "False"
  | _ => repr_value W v
  end.

(** [int(v)]. *)
Definition int (v : pyval) : res Z :=
  match v with
  | PNum q => Ret (Z.quot (Qnum q) (Zpos (Qden q)))
  | PBool b => Ret (if b then 1%Z else 0%Z)
  | PStr s => int_of_str W s
  | _ => Exc (TypeError ("int() argument must be a string, a bytes-like object or a real number, not '"
                         ++ type_name v ++ "'"))
  end.

(** [datetime.fromtimestamp(v).strftime("%Y-%m-%d %H:%M:%S")]. *)
Definition strftime (v : pyval) : res pyval :=
  match as_num v with
  | Some q => rbind (format_timestamp W q) (fun s => Ret (PStr s))
  | None => Exc (TypeError ("'" ++ type_name v ++ "' object cannot be interpreted as an integer"))
  end.
End Operations.

Definition run {A} (m : Eff A) : res A * trace := m [].

End Env.

Import Env.

Declare Scope eff_scope.
Delimit Scope eff_scope with eff.
Notation "x <- m ;; k" := (bind m (fun x => k))
  (at level 61, m at next level, right associativity) : eff_scope.
Notation "m ;;; k" := (bind m (fun _ => k))
  (at level 61, right associativity) : eff_scope.
Local Open Scope eff_scope.

Notation "'let*' x ':=' r 'in' k" := (rbind r (fun x => k))
  (at level 10, x name, r at level 100, k at level 200).

(** [{out: src[key], ...}]: the entries of a dict literal whose values are
    subscripts of one value, evaluated in order. *)
Definition subscripts (src : pyval) (fields : list (string * string)) : res dict :=
  rmap (fun f => let* v := getitem src (snd f) in Ret (fst f, v)) fields.

(** [l[-1]] on a list known to be non-empty. *)
Definition last_of {A} (x : A) (l : list A) : A := List.last l x.

(* ================================================================== *)
(** ** crypto_market_agent.py *)

Module Market.

Definition SUPPORTED_EXCHANGES : list string := ["binance"; "okx"].

(** [_get_exchange(exchange_name, api_key='', secret='', password='')] *)
Definition _get_exchange (exchange_name api_key secret password : string)
  : res exchange :=
  if negb (mem (lower exchange_name) SUPPORTED_EXCHANGES) then
    Exc (ValueError ("不支持的交易所: " ++ exchange_name
                     ++ ". 支持的交易所: ['binance', 'okx']"))
  else
    let config := [("apiKey", PStr api_key); ("secret", PStr secret);
                   ("timeout", PNum 30000); ("enableRateLimit", PBool true)] in
    let config :=
      if String.eqb (lower exchange_name) "okx" && negb (is_empty password)
      then (config ++ [("password", PStr password)])%list else config in
    Ret {| ex_id := lower exchange_name; ex_config := config; ex_markets := PNone |}.

(** Lines 736-752 of [get_kline_data]: the statistics over the candles. *)
Definition kline_summary (klines : list dict) : res dict :=
  match klines with
  | [] => Ret []
  | first :: _ =>
      let latest := last_of first klines in
      let* latest_close := getitem (PDict latest) "close" in
      let* first_open := getitem (PDict first) "open" in
      let* price_change := sub latest_close first_open in
      let* price_change_percent :=
        (if ne_zero first_open
         then let* r := div price_change first_open in mul_num r 100
         else Ret (PNum 0)) in
      let* highs := rmap (fun k => getitem (PDict k) "high") klines in
      let* highest_price := max highs in
      let* lows := rmap (fun k => getitem (PDict k) "low") klines in
      let* lowest_price := min lows in
      let* volumes := rmap (fun k => getitem (PDict k) "volume") klines in
      let* total_volume := sum volumes in
      let* period_start := getitem (PDict first) "datetime" in
      let* period_end := getitem (PDict latest) "datetime" in
      Ret [("latest_price", latest_close);
           ("price_change", price_change);
           ("price_change_percent", price_change_percent);
           ("highest_price", highest_price);
           ("lowest_price", lowest_price);
           ("total_volume", total_volume);
           ("period_start", period_start);
           ("period_end", period_end)]
  end.

(** Lines 890-904 of [get_funding_rate]: the statistics over the
    processed funding rates. *)
Definition funding_rate_summary (processed_rates : list dict) : res dict :=
  match processed_rates with
  | [] => Ret []
  | first :: _ =>
      let latest := last_of first processed_rates in
      let* all := rmap (fun r => getitem (PDict r) "rate") processed_rates in
      let rates := filter (fun v => negb (is_none v)) all in
      match rates with
      | [] => Ret []
      | _ :: _ =>
          let* current_rate := getitem (PDict latest) "rate" in
          let* current_rate_percentage := mul_nat current_rate 100 in
          let* total := sum rates in
          let* avg_rate := div total (of_nat (List.length rates)) in
          let* max_rate := max rates in
          let* min_rate := min rates in
          let* positive := rmap (fun r => lt (PNum 0) r) rates in
          let* negative := rmap (fun r => lt r (PNum 0)) rates in
          let zero := filter (fun r => negb (ne_zero r)) rates in
          Ret [("current_rate", current_rate);
               ("current_rate_percentage", current_rate_percentage);
               ("avg_rate", avg_rate);
               ("max_rate", max_rate);
               ("min_rate", min_rate);
               ("positive_count", of_nat (List.length (filter id positive)));
               ("negative_count", of_nat (List.length (filter id negative)));
               ("zero_count", of_nat (List.length zero))]
      end
  end.

(** Lines 1037-1056 of [get_open_interest_data]. *)
Definition open_interest_summary (processed_oi : list dict) : res dict :=
  match processed_oi with
  | [] => Ret []
  | first :: _ =>
      let latest := last_of first processed_oi in
      let* amounts := rmap (fun oi => getitem (PDict oi) "open_interest") processed_oi in
      let oi_amounts := filter (fun v => negb (is_none v)) amounts in
      if (2 <=? List.length oi_amounts)%nat then
        let* current_oi := getitem (PDict latest) "open_interest" in
        let* previous_oi := getitem (PDict first) "open_interest" in
        let* oi_change := sub current_oi previous_oi in
        let* oi_change_percentage :=
          (if ne_zero previous_oi
           then let* r := div oi_change previous_oi in mul_num r 100
           else Ret (PNum 0)) in
        let* current_oi_value := getitem (PDict latest) "open_interest_value" in
        let* max_oi := max oi_amounts in
        let* min_oi := min oi_amounts in
        let* total := sum oi_amounts in
        let* avg_oi := div total (of_nat (List.length oi_amounts)) in
        let* period_start := getitem (PDict first) "datetime" in
        let* period_end := getitem (PDict latest) "datetime" in
        Ret [("current_oi", current_oi);
             ("current_oi_value", current_oi_value);
             ("oi_change", oi_change);
             ("oi_change_percentage", oi_change_percentage);
             ("max_oi", max_oi);
             ("min_oi", min_oi);
             ("avg_oi", avg_oi);
             ("period_start", period_start);
             ("period_end", period_end)]
      else Ret []
  end.

Section Tools.
Variable W : World.

Definition get_ticker_data (symbol exchange_name : string) : Eff pyval :=
  if blank symbol then
    ret (PDict [("status", PStr "error");
                ("error_message", PStr "交易对符号不能为空，请提供如'BTC/USDT'格式的交易对")])
  else if blank exchange_name then
    ret (PDict [("status", PStr "error");
                ("error_message", PStr "交易所名称不能为空，请提供支持的交易所名称")])
  else
    let symbol_normalized := upper (strip symbol) in
    let exchange_normalized := lower (strip exchange_name) in
    try_except
      (exchange <- lift (_get_exchange exchange_normalized "" "" "") ;;
       ticker <- exchange_call W (FetchTicker exchange symbol_normalized) ;;
       data <- lift (subscripts ticker
                 [("last", "last"); ("bid", "bid"); ("ask", "ask");
                  ("high", "high"); ("low", "low"); ("open", "open");
                  ("close", "close"); ("volume", "baseVolume");
                  ("quoteVolume", "quoteVolume"); ("change", "change");
                  ("percentage", "percentage"); ("timestamp", "timestamp");
                  ("datetime", "datetime")]) ;;
       now <- time_time W ;;
       ret (PDict [("status", PStr "success");
                   ("data", PDict data);
                   ("metadata", PDict [("exchange", PStr exchange_normalized);
                                       ("symbol", PStr symbol_normalized);
                                       ("timestamp", now)])]))
      (fun e =>
         let error_msg :=
           match e with
           | ValueError m => "不支持的交易所或交易对: " ++ m
           | _ => "获取价格数据失败: " ++ exn_str e
           end in
         ret (PDict [("status", PStr "error");
                     ("error_message", PStr error_msg);
                     ("metadata", PDict [("exchange", PStr exchange_normalized);
                                         ("symbol", PStr symbol_normalized)])])).

Definition get_orderbook_data (symbol exchange_name : string) (limit : Z)
  : Eff pyval :=
  if blank symbol then
    ret (PDict [("status", PStr "error");
                ("error_message", PStr "交易对符号不能为空，请提供如'BTC/USDT'格式的交易对")])
  else if blank exchange_name then
    ret (PDict [("status", PStr "error");
                ("error_message", PStr "交易所名称不能为空，请提供支持的交易所名称")])
  else if (limit <=? 0)%Z then
    ret (PDict [("status", PStr "error");
                ("error_message", PStr "深度档位数量必须是大于0的整数")])
  else if (100 <? limit)%Z then
    ret (PDict [("status", PStr "error");
                ("error_message", PStr "深度档位数量不能超过100，建议使用5-50档")])
  else
    let symbol_normalized := upper (strip symbol) in
    let exchange_normalized := lower (strip exchange_name) in
    try_except
      (exchange <- lift (_get_exchange exchange_normalized "" "" "") ;;
       orderbook <- exchange_call W (FetchOrderBook exchange symbol_normalized limit) ;;
       spread <- lift
         (let* bids := getitem orderbook "bids" in
          if truthy bids then
            let* asks := getitem orderbook "asks" in
            if truthy asks then
              let* asks := getitem orderbook "asks" in
              let* ask0 := getidx asks 0 in
              let* ask_price := getidx ask0 0 in
              let* bids := getitem orderbook "bids" in
              let* bid0 := getidx bids 0 in
              let* bid_price := getidx bid0 0 in
              sub ask_price bid_price
            else Ret PNone
          else Ret PNone) ;;
       data <- lift
         (let* bids := getitem orderbook "bids" in
          let* bids_cut := slice_to bids (Z.to_nat limit) in
          let* asks := getitem orderbook "asks" in
          let* asks_cut := slice_to asks (Z.to_nat limit) in
          let* rest := subscripts orderbook
                         [("timestamp", "timestamp"); ("datetime", "datetime");
                          ("nonce", "nonce")] in
          Ret ([("bids", bids_cut); ("asks", asks_cut)] ++ rest)%list) ;;
       summary <- lift
         (let* bids := getitem orderbook "bids" in
          let* bid_rows := iter bids in
          let* sum_bid := sum_map (fun bid => getidx bid 1) bid_rows in
          let* asks := getitem orderbook "asks" in
          let* ask_rows := iter asks in
          let* sum_ask := sum_map (fun ask => getidx ask 1) ask_rows in
          Ret [("sum_bid", sum_bid); ("sum_ask", sum_ask); ("spread", spread)]) ;;
       now <- time_time W ;;
       ret (PDict [("status", PStr "success");
                   ("data", PDict data);
                   ("summary", PDict summary);
                   ("metadata", PDict [("exchange", PStr exchange_normalized);
                                       ("symbol", PStr symbol_normalized);
                                       ("limit", of_Z limit);
                                       ("timestamp", now)])]))
      (fun e =>
         let error_msg :=
           match e with
           | ValueError m => "不支持的交易所或交易对: " ++ m
           | _ => "获取订单簿数据失败: " ++ exn_str e
           end in
         ret (PDict [("status", PStr "error");
                     ("error_message", PStr error_msg);
                     ("metadata", PDict [("exchange", PStr exchange_normalized);
                                         ("symbol", PStr symbol_normalized)])])).

(** One entry of [processed_trades]. *)
Definition processed_trade (trade : pyval) : res dict :=
  let* id := getitem trade "id" in
  let* price := getitem trade "price" in
  let* amount := getitem trade "amount" in
  let* side := getitem trade "side" in
  let* ts := getitem trade "timestamp" in
  let* ms := int W ts in
  let* stamp := strftime W (PNum (inject_Z ms / 1000)) in
  Ret [("id", id); ("price", price); ("amount", amount); ("side", side);
       ("timestamp", stamp)].

Definition amounts_of_side (side : option string) (trades : list dict)
  : res (list pyval) :=
  let* kept :=
    match side with
    | None => Ret trades
    | Some s =>
        let* flags := rmap (fun t => let* v := getitem (PDict t) "side" in
                                     Ret (eq_str v s, t)) trades in
        Ret (map snd (filter fst flags))
    end in
  rmap (fun t => getitem (PDict t) "amount") kept.

Definition get_trades_data (symbol exchange_name : string) (limit : Z)
  : Eff pyval :=
  try_except
    (exchange <- lift (_get_exchange exchange_name "" "" "") ;;
     trades <- exchange_call W (FetchTrades exchange symbol limit) ;;
     rows <- lift (iter trades) ;;
     processed_trades <- lift (rmap processed_trade rows) ;;
     summary <- lift
       (let* latest_price :=
          match processed_trades with
          | t :: _ => getitem (PDict t) "price"
          | [] => Ret PNone
          end in
        let* latest_side :=
          match processed_trades with
          | t :: _ => getitem (PDict t) "side"
          | [] => Ret PNone
          end in
        let* buys := amounts_of_side (Some "buy") processed_trades in
        let* sum_buy := sum buys in
        let* sells := amounts_of_side (Some "sell") processed_trades in
        let* sum_sell := sum sells in
        let* all := amounts_of_side None processed_trades in
        let* sum_volume := sum all in
        Ret [("latest_price", latest_price); ("latest_side", latest_side);
             ("sum_buy", sum_buy); ("sum_sell", sum_sell);
             ("sum_volume", sum_volume)]) ;;
     now <- time_time W ;;
     ret (PDict [("status", PStr "success");
                 ("exchange", PStr exchange_name);
                 ("symbol", PStr symbol);
                 ("data", PDict [("trades", PList (map PDict processed_trades));
                                 ("count", of_nat (List.length processed_trades))]);
                 ("summary", PDict summary);
                 ("timestamp", now)]))
    (fun e =>
       now <- time_time W ;;
       ret (PDict [("status", PStr "error");
                   ("exchange", PStr exchange_name);
                   ("symbol", PStr symbol);
                   ("error", PStr (exn_str e));
                   ("timestamp", now)])).

(** One entry of [klines]. *)
Definition kline_of_candle (candle : pyval) : res dict :=
  let* ms := getidx candle 0 in
  let* secs := div ms (PNum 1000) in
  let* stamp := strftime W secs in
  let* o := getidx candle 1 in
  let* h := getidx candle 2 in
  let* l := getidx candle 3 in
  let* c := getidx candle 4 in
  let* v := getidx candle 5 in
  Ret [("datetime", stamp); ("open", o); ("high", h); ("low", l);
       ("close", c); ("volume", v)].

Definition get_kline_data (symbol timeframe exchange_name : string)
  : Eff pyval :=
  if blank symbol then
    ret (PDict [("status", PStr "error");
                ("error_message", PStr "交易对符号不能为空，请提供如'BTC/USDT'格式的交易对")])
  else if blank timeframe then
    ret (PDict [("status", PStr "error");
                ("error_message", PStr "时间周期不能为空，请提供如'1d'、'1h'等时间周期")])
  else if blank exchange_name then
    ret (PDict [("status", PStr "error");
                ("error_message", PStr "交易所名称不能为空，请提供支持的交易所名称")])
  else
    let symbol_normalized := upper (strip symbol) in
    let timeframe_normalized := lower (strip timeframe) in
    let exchange_normalized := lower (strip exchange_name) in
    try_except
      (exchange <- lift (_get_exchange exchange_normalized "" "" "") ;;
       supported <- lift (getitem (exchange_has W (ex_id exchange)) "fetchOHLCV") ;;
       if negb (truthy supported) then
         ret (PDict [("status", PStr "error");
                     ("error_message",
                      PStr ("交易所 " ++ exchange_normalized ++ " 不支持获取K线数据"));
                     ("metadata", PDict [("exchange", PStr exchange_normalized);
                                         ("symbol", PStr symbol_normalized)])])
       else
         ohlcv <- exchange_call W
                    (FetchOHLCV exchange symbol_normalized timeframe_normalized 100) ;;
         candles <- lift (iter ohlcv) ;;
         klines <- lift (rmap kline_of_candle candles) ;;
         summary <- lift (kline_summary klines) ;;
         now <- time_time W ;;
         ret (PDict [("status", PStr "success");
                     ("data", PDict [("klines", PList (map PDict klines));
                                     ("count", of_nat (List.length klines))]);
                     ("summary", PDict summary);
                     ("metadata", PDict [("exchange", PStr exchange_normalized);
                                         ("symbol", PStr symbol_normalized);
                                         ("timeframe", PStr timeframe_normalized);
                                         ("timestamp", now)])]))
      (fun e =>
         let error_msg :=
           match e with
           | ValueError m => "不支持的交易所或参数: " ++ m
           | _ => "获取K线数据失败: " ++ exn_str e
           end in
         ret (PDict [("status", PStr "error");
                     ("error_message", PStr error_msg);
                     ("metadata", PDict [("exchange", PStr exchange_normalized);
                                         ("symbol", PStr symbol_normalized)])])).

Definition get_open_interest_data (symbol exchange_name timeframe : string)
  : Eff pyval :=
  if blank symbol then
    ret (PDict [("status", PStr "error");
                ("error_message", PStr "合约交易对符号不能为空，请提供如'BTC/USDT:USDT'格式的合约交易对")])
  else if blank exchange_name then
    ret (PDict [("status", PStr "error");
                ("error_message", PStr "交易所名称不能为空，请提供支持的交易所名称")])
  else if blank timeframe then
    ret (PDict [("status", PStr "error");
                ("error_message", PStr "时间周期不能为空，请提供如'1h'、'4h'等时间周期")])
  else
    let symbol_normalized := upper (strip symbol) in
    let exchange_normalized := lower (strip exchange_name) in
    let timeframe_normalized := lower (strip timeframe) in
    try_except
      (exchange <- lift (_get_exchange exchange_normalized "" "" "") ;;
       supported <- lift (get_default (exchange_has W (ex_id exchange))
                            "fetchOpenInterestHistory" (PBool false)) ;;
       if negb (truthy supported) then
         ret (PDict [("status", PStr "error");
                     ("error_message",
                      PStr ("交易所 " ++ exchange_normalized ++ " 不支持获取持仓量历史数据"));
                     ("metadata", PDict [("exchange", PStr exchange_normalized);
                                         ("symbol", PStr symbol_normalized)])])
       else
         oi_history <- exchange_call W
                         (FetchOpenInterestHistory exchange symbol_normalized
                            timeframe_normalized 100) ;;
         rows <- lift (iter oi_history) ;;
         processed_oi <- lift
           (rmap (fun oi => subscripts oi
                    [("timestamp", "timestamp"); ("datetime", "datetime");
                     ("open_interest", "openInterestAmount");
                     ("open_interest_value", "openInterestValue")]) rows) ;;
         summary <- lift (open_interest_summary processed_oi) ;;
         now <- time_time W ;;
         ret (PDict [("status", PStr "success");
                     ("data", PDict [("open_interest_history",
                                      PList (map PDict processed_oi));
                                     ("count", of_nat (List.length processed_oi))]);
                     ("summary", PDict summary);
                     ("metadata", PDict [("exchange", PStr exchange_normalized);
                                         ("symbol", PStr symbol_normalized);
                                         ("timeframe", PStr timeframe_normalized);
                                         ("timestamp", now)])]))
      (fun e =>
         let error_msg :=
           match e with
           | ValueError m => "不支持的交易所或合约交易对: " ++ m
           | _ => "获取持仓量数据失败: " ++ exn_str e
           end in
         ret (PDict [("status", PStr "error");
                     ("error_message", PStr error_msg);
                     ("metadata", PDict [("exchange", PStr exchange_normalized);
                                         ("symbol", PStr symbol_normalized)])])).

(** [s in v] for a string [s]: a key of a dict, an element of a list,
    a substring of a string. *)
Definition str_in (s : string) (v : pyval) : res bool :=
  match v with
  | PDict d => Ret (has_key s d)
  | PList l => Ret (existsb (fun x => eq_str x s) l)
  | PStr t => Ret (match String.index 0 s t with Some _ => true | None => false end)
  | _ => Exc (TypeError ("argument of type '" ++ type_name v ++ "' is not iterable"))
  end.

Definition get_symbol_info (symbol exchange_name : string) : Eff pyval :=
  if blank symbol then
    ret (PDict [("status", PStr "error");
                ("error_message", PStr "交易对符号不能为空，请提供如'BTC/USDT'格式的交易对")])
  else if blank exchange_name then
    ret (PDict [("status", PStr "error");
                ("error_message", PStr "交易所名称不能为空，请提供支持的交易所名称")])
  else
    let symbol_normalized := upper (strip symbol) in
    let exchange_normalized := lower (strip exchange_name) in
    try_except
      (exchange <- lift (_get_exchange exchange_normalized "" "" "") ;;
       markets <- exchange_call W (LoadMarkets exchange) ;;
       listed <- lift (str_in symbol_normalized markets) ;;
       if negb listed then
         ret (PDict [("status", PStr "error");
                     ("error_message",
                      PStr ("交易对 " ++ symbol_normalized ++ " 在 "
                            ++ exchange_normalized ++ " 交易所不存在或已下线"));
                     ("metadata", PDict [("exchange", PStr exchange_normalized);
                                         ("symbol", PStr symbol_normalized)])])
       else
         market <- lift (getitem markets symbol_normalized) ;;
         data <- lift
           (let* id := getitem market "id" in
            let* base := getitem market "base" in
            let* quote := getitem market "quote" in
            let* active := getitem market "active" in
            let* type := getitem market "type" in
            let* spot := getitem market "spot" in
            let* margin := get_default market "margin" (PBool false) in
            let* future := get_default market "future" (PBool false) in
            let* precision := getitem market "precision" in
            let* limits := getitem market "limits" in
            let* fees := get_default market "fees" (PDict []) in
            let* info := get_default market "info" (PDict []) in
            Ret [("id", id); ("base", base); ("quote", quote); ("active", active);
                 ("type", type); ("spot", spot); ("margin", margin);
                 ("future", future); ("precision", precision); ("limits", limits);
                 ("fees", fees); ("info", info)]) ;;
         now <- time_time W ;;
         ret (PDict [("status", PStr "success");
                     ("data", PDict data);
                     ("metadata", PDict [("exchange", PStr exchange_normalized);
                                         ("symbol", PStr symbol_normalized);
                                         ("timestamp", now)])]))
      (fun e =>
         let error_msg :=
           match e with
           | ValueError m => "不支持的交易所: " ++ m
           | _ => "获取交易对信息失败: " ++ exn_str e
           end in
         ret (PDict [("status", PStr "error");
                     ("error_message", PStr error_msg);
                     ("metadata", PDict [("exchange", PStr exchange_normalized);
                                         ("symbol", PStr symbol_normalized)])])).
End Tools.

End Market.

(* ================================================================== *)
(** ** crypto_trade_agent.py *)

Module Trade.

Definition SUPPORTED_EXCHANGES : list string := ["binance"; "okx"].

(** [a or b] on two results of [os.getenv]. *)
Definition or_else (a b : option string) : option string :=
  match a with
  | Some v => if is_empty v then b else a
  | None => b
  end.

Definition truthy_env (a : option string) : bool :=
  match a with Some v => negb (is_empty v) | None => false end.

Definition env_value (a : option string) : pyval :=
  match a with Some v => PStr v | None => PNone end.

(** [needle in s] for a string needle. *)
Definition contains (needle s : string) : bool :=
  match String.index 0 needle s with Some _ => true | None => false end.

(** The number of digits after the point in [str(precision)], when it
    has a point (lines 1343-1344 and 1350-1351). *)
Definition precision_digits (precision : string) : option nat :=
  if has_char "." precision
  then Some (String.length (nth 1 (split "." precision) EmptyString))
  else None.

(** Lines 1343-1347 and 1350-1354 of [place_futures_order]: the value
    floored to the digits of the precision, or to an integer. *)
Definition floor_to_precision (x : Q) (precision : string) : Q :=
  match precision_digits precision with
  | Some digits => floor (x * pow10 digits) / pow10 digits
  | None => floor x
  end.

Definition position_side (long short side_normalized : string) : pyval :=
  if String.eqb side_normalized "open_long" then PStr long
  else if String.eqb side_normalized "open_short" then PStr short
  else if String.eqb side_normalized "close_long" then PStr long
  else if String.eqb side_normalized "close_short" then PStr short
  else PNone.

Definition new_side (side_normalized : string) : string :=
  if contains "open_long" side_normalized then "buy"
  else if contains "open_short" side_normalized then "sell"
  else if contains "close_long" side_normalized then "sell"
  else if contains "close_short" side_normalized then "buy"
  else "".

Section Tools.
Variable W : World.

(** [(api_key, secret, password)] of [_get_api_credentials]. *)
Definition _get_api_credentials (exchange_name : string)
  : string * string * string :=
  let exchange_upper := upper exchange_name in
  (getenv_or_empty W (exchange_upper ++ "_API_KEY"),
   getenv_or_empty W (exchange_upper ++ "_SECRET"),
   getenv_or_empty W (exchange_upper ++ "_PASSWORD")).

(** [exchange_class(config)] with the configuration [_get_exchange]
    builds (lines 82-104). *)
Definition new_exchange (exchange_name api_key secret password : string)
  : exchange :=
  let config := [("apiKey", PStr api_key); ("secret", PStr secret);
                 ("timeout", PNum 30000); ("enableRateLimit", PBool true)] in
  let config :=
    if String.eqb (lower exchange_name) "okx" && negb (is_empty password)
    then (config ++ [("password", PStr password)])%list else config in
  let http_proxy := or_else (getenv W "http_proxy") (getenv W "HTTP_PROXY") in
  let https_proxy := or_else (getenv W "https_proxy") (getenv W "HTTPS_PROXY") in
  let config :=
    if truthy_env http_proxy || truthy_env https_proxy then
      let proxy_url := env_value (or_else https_proxy http_proxy) in
      (config ++ [("proxies", PDict [("http", proxy_url); ("https", proxy_url)])])%list
    else config in
  {| ex_id := lower exchange_name; ex_config := config; ex_markets := PNone |}.

(** The exchange object once [load_markets()] has filled its table. *)
Definition with_markets (ex : exchange) (markets : pyval) : exchange :=
  {| ex_id := ex_id ex; ex_config := ex_config ex; ex_markets := markets |}.

Definition _get_exchange (exchange_name api_key secret password : string)
  : Eff exchange :=
  if negb (mem (lower exchange_name) SUPPORTED_EXCHANGES) then
    raise (ValueError ("不支持的交易所: " ++ exchange_name
                       ++ ". 支持的交易所: ['binance', 'okx']"))
  else
    let exchange := new_exchange exchange_name api_key secret password in
    markets <- exchange_call W (LoadMarkets exchange) ;;
    ret (with_markets exchange markets).

Definition place_spot_order (symbol side : string) (amount price : Q)
           (exchange_name : string) : Eff pyval :=
  let order_type := "limit" in
  if blank symbol then
    ret (PDict [("status", PStr "error");
                ("error_message", PStr "交易对符号不能为空，请提供如'BTC/USDT'格式的交易对")])
  else if is_empty side || negb (mem (lower (strip side)) ["buy"; "sell"]) then
    ret (PDict [("status", PStr "error");
                ("error_message", PStr "买卖方向必须是'buy'或'sell'")])
  else if Qle_bool amount 0 then
    ret (PDict [("status", PStr "error");
                ("error_message", PStr "交易数量必须是大于0的数字")])
  else if is_empty order_type
          || negb (mem (lower (strip order_type)) ["limit"; "market"]) then
    ret (PDict [("status", PStr "error");
                ("error_message", PStr "订单类型必须是'limit'或'market'")])
  else if String.eqb (lower (strip order_type)) "limit" && Qle_bool price 0 then
    ret (PDict [("status", PStr "error");
                ("error_message", PStr "限价单必须指定大于0的价格")])
  else if blank exchange_name then
    ret (PDict [("status", PStr "error");
                ("error_message", PStr "交易所名称不能为空，请提供支持的交易所名称")])
  else
    let symbol_normalized := upper (strip symbol) in
    let side_normalized := lower (strip side) in
    let order_type_normalized := lower (strip order_type) in
    let exchange_normalized := lower (strip exchange_name) in
    try_except
      (let '(api_key, secret, password) := _get_api_credentials exchange_normalized in
       if is_empty api_key || is_empty secret then
         ret (PDict [("status", PStr "error");
                     ("error_message",
                      PStr ("需要设置环境变量 " ++ upper exchange_normalized
                            ++ "_API_KEY 和 " ++ upper exchange_normalized
                            ++ "_SECRET 才能下单"));
                     ("metadata", PDict [("exchange", PStr exchange_normalized);
                                         ("symbol", PStr symbol_normalized)])])
       else
         exchange <- _get_exchange exchange_normalized api_key secret password ;;
         order <- (if String.eqb order_type_normalized "limit"
                   then exchange_call W (CreateLimitOrder exchange symbol_normalized
                                           side_normalized amount price [])
                   else exchange_call W (CreateMarketOrder exchange symbol_normalized
                                           side_normalized amount [])) ;;
         data <- lift (subscripts order
                   [("order_id", "id"); ("symbol", "symbol"); ("side", "side");
                    ("amount", "amount"); ("price", "price"); ("type", "type");
                    ("status", "status"); ("timestamp", "timestamp");
                    ("datetime", "datetime")]) ;;
         now <- time_time W ;;
         ret (PDict [("status", PStr "success");
                     ("data", PDict data);
                     ("metadata", PDict [("exchange", PStr exchange_normalized);
                                         ("symbol", PStr symbol_normalized);
                                         ("timestamp", now)])]))
      (fun e =>
         let error_msg :=
           match e with
           | ValueError m => "不支持的交易所或参数错误: " ++ m
           | _ => "下现货订单失败: " ++ exn_str e
           end in
         ret (PDict [("status", PStr "error");
                     ("error_message", PStr error_msg);
                     ("metadata", PDict [("exchange", PStr exchange_normalized);
                                         ("symbol", PStr symbol_normalized)])])).

(** Lines 1341-1354 of [place_futures_order]: the contract count and
    the limit price submitted for [amount] units at [price]. *)
Definition contracts_and_price (market : pyval) (amount price : Q)
  : res (Q * Q) :=
  let* contract_size := getitem market "contractSize" in
  let* sheet := num_div (PNum amount) contract_size in
  let* precision := getitem market "precision" in
  let* amount_step := getitem precision "amount" in
  let amount_precision := str W amount_step in
  let sheet := floor_to_precision sheet amount_precision in
  let* precision := getitem market "precision" in
  let* price_step := getitem precision "price" in
  let price_precision := str W price_step in
  let price := floor_to_precision price price_precision in
  Ret (sheet, price).

Definition place_futures_order (symbol side : string) (amount price : Q)
           (exchange_name : string) : Eff pyval :=
  let order_type := "limit" in
  if blank symbol then
    ret (PDict [("status", PStr "error");
                ("error_message", PStr "交易对符号不能为空，请提供如'BTC/USDT:USDT'或'BTC/USDT:BTC'格式的交易对")])
  else if negb (has_char ":" symbol) then
    ret (PDict [("status", PStr "error");
                ("error_message", PStr "交易对符号格式错误，请提供如'BTC/USDT:USDT'或'BTC/USDT:BTC'格式的交易对")])
  else if is_empty side
          || negb (mem (lower (strip side))
                     ["open_long"; "open_short"; "close_long"; "close_short"]) then
    ret (PDict [("status", PStr "error");
                ("error_message", PStr "买卖方向必须是'open_long'或'open_short'或'close_long'或'close_short'")])
  else if Qle_bool amount 0 then
    ret (PDict [("status", PStr "error");
                ("error_message", PStr "交易数量必须是大于0的数字")])
  else if is_empty order_type
          || negb (mem (lower (strip order_type)) ["limit"; "market"]) then
    ret (PDict [("status", PStr "error");
                ("error_message", PStr "订单类型必须是'limit'或'market'")])
  else if String.eqb (lower (strip order_type)) "limit" && Qle_bool price 0 then
    ret (PDict [("status", PStr "error");
                ("error_message", PStr "限价单必须指定大于0的价格")])
  else if blank exchange_name then
    ret (PDict [("status", PStr "error");
                ("error_message", PStr "交易所名称不能为空，请提供支持的交易所名称")])
  else
    let symbol_normalized := upper (strip symbol) in
    let side_normalized := lower (strip side) in
    let order_type_normalized := lower (strip order_type) in
    let exchange_normalized := lower (strip exchange_name) in
    try_except
      (let '(api_key, secret, password) := _get_api_credentials exchange_normalized in
       if is_empty api_key || is_empty secret then
         ret (PDict [("status", PStr "error");
                     ("error_message",
                      PStr ("需要设置环境变量 " ++ upper exchange_normalized
                            ++ "_API_KEY 和 " ++ upper exchange_normalized
                            ++ "_SECRET 才能下合约订单"));
                     ("metadata", PDict [("exchange", PStr exchange_normalized);
                                         ("symbol", PStr symbol_normalized)])])
       else
         exchange <- _get_exchange exchange_normalized api_key secret password ;;
         let params :=
           if String.eqb exchange_normalized "binance"
           then [("portfolioMargin", PBool true);
                 ("positionSide", position_side "LONG" "SHORT" side_normalized)]
           else [("hedged", PBool true);
                 ("positionSide", position_side "long" "short" side_normalized)] in
         market <- lift (getitem (ex_markets exchange) symbol_normalized) ;;
         sp <- lift (contracts_and_price market amount price) ;;
         let '(sheet, price) := sp in
         order <- (if String.eqb order_type_normalized "limit"
                   then exchange_call W (CreateLimitOrder exchange symbol_normalized
                                           (new_side side_normalized) sheet price params)
                   else exchange_call W (CreateMarketOrder exchange symbol_normalized
                                           (new_side side_normalized) sheet params)) ;;
         data <- lift (subscripts order
                   [("order_id", "id"); ("symbol", "symbol"); ("side", "side");
                    ("amount", "amount"); ("price", "price"); ("type", "type");
                    ("status", "status"); ("timestamp", "timestamp")]) ;;
         now <- time_time W ;;
         ret (PDict [("status", PStr "success");
                     ("data", PDict data);
                     ("metadata", PDict [("exchange", PStr exchange_normalized);
                                         ("symbol", PStr symbol_normalized);
                                         ("timestamp", now)])]))
      (fun e =>
         let error_msg :=
           match e with
           | ValueError m => "不支持的交易所或参数错误: " ++ m
           | _ => "下合约订单失败: " ++ exn_str e
           end in
         ret (PDict [("status", PStr "error");
                     ("error_message", PStr error_msg);
                     ("metadata", PDict [("exchange", PStr exchange_normalized);
                                         ("symbol", PStr symbol_normalized)])])).

Definition get_futures_open_orders (symbol exchange_name : string) : Eff pyval :=
  if blank exchange_name then
    ret (PDict [("status", PStr "error");
                ("error_message", PStr "交易所名称不能为空，请提供支持的交易所名称")])
  else
    let symbol_normalized :=
      if negb (is_empty symbol) && negb (is_empty (strip symbol))
      then Some (upper (strip symbol)) else None in
    match symbol_normalized with
    | None => raise (TypeError "argument of type 'NoneType' is not iterable")
    | Some sym =>
      if negb (has_char ":" sym) then
        ret (PDict [("status", PStr "error");
                    ("error_message", PStr "交易对符号格式错误，请提供如'BTC/USDT:USDT'或'BTC/USDT:BTC'格式的交易对")])
      else
        let exchange_normalized := lower (strip exchange_name) in
        try_except
          (let '(api_key, secret, password) :=
             _get_api_credentials exchange_normalized in
           if is_empty api_key || is_empty secret then
             ret (PDict [("status", PStr "error");
                         ("error_message",
                          PStr ("需要设置环境变量 " ++ upper exchange_normalized
                                ++ "_API_KEY 和 " ++ upper exchange_normalized
                                ++ "_SECRET 才能获取合约未成交订单"));
                         ("metadata", PDict [("exchange", PStr exchange_normalized)])])
           else
             exchange <- _get_exchange exchange_normalized api_key secret password ;;
             let params :=
               if String.eqb exchange_normalized "binance"
               then [("portfolioMargin", PBool true)]
               else [("instType", PStr "SWAP")] in
             orders <- (if negb (is_empty sym)
                        then exchange_call W (FetchOpenOrders exchange (Some sym) params)
                        else exchange_call W (FetchOpenOrders exchange None params)) ;;
             rows <- lift (iter orders) ;;
             processed_orders <- lift
               (rmap (fun order => subscripts order
                        [("id", "id"); ("symbol", "symbol"); ("side", "side");
                         ("amount", "amount"); ("price", "price"); ("type", "type");
                         ("status", "status"); ("filled", "filled");
                         ("remaining", "remaining"); ("timestamp", "timestamp");
                         ("datetime", "datetime")]) rows) ;;
             now <- time_time W ;;
             ret (PDict [("status", PStr "success");
                         ("data", PDict [("orders", PList (map PDict processed_orders));
                                         ("count", of_nat (List.length processed_orders))]);
                         ("metadata", PDict [("exchange", PStr exchange_normalized);
                                             ("symbol", PStr sym);
                                             ("timestamp", now)])]))
          (fun e =>
             match e with
             | ValueError m =>
                 ret (PDict [("status", PStr "error");
                             ("error_message", PStr ("不支持的交易所: " ++ m));
                             ("metadata", PDict [("exchange", PStr exchange_normalized)])])
             | _ =>
                 ret (PDict [("status", PStr "error");
                             ("error_message",
                              PStr ("获取合约未成交订单失败: " ++ exn_str e));
                             ("metadata", PDict [("exchange", PStr exchange_normalized);
                                                 ("symbol", PStr sym)])])
             end)
    end.

Definition get_spot_open_orders (symbol exchange_name : string) : Eff pyval :=
  if blank exchange_name then
    ret (PDict [("status", PStr "error");
                ("error_message", PStr "交易所名称不能为空，请提供支持的交易所名称")])
  else
    let symbol_normalized :=
      if negb (is_empty symbol) && negb (is_empty (strip symbol))
      then Some (upper (strip symbol)) else None in
    let exchange_normalized := lower (strip exchange_name) in
    let symbol_value :=
      match symbol_normalized with Some sym => PStr sym | None => PNone end in
    try_except
      (let '(api_key, secret, password) :=
         _get_api_credentials exchange_normalized in
       if is_empty api_key || is_empty secret then
         ret (PDict [("status", PStr "error");
                     ("error_message",
                      PStr ("需要设置环境变量 " ++ upper exchange_normalized
                            ++ "_API_KEY 和 " ++ upper exchange_normalized
                            ++ "_SECRET 才能获取未成交订单"));
                     ("metadata", PDict [("exchange", PStr exchange_normalized)])])
       else
         exchange <- _get_exchange exchange_normalized api_key secret password ;;
         orders <- (if truthy symbol_value
                    then exchange_call W (FetchOpenOrders exchange symbol_normalized [])
                    else exchange_call W (FetchOpenOrders exchange None [])) ;;
         rows <- lift (iter orders) ;;
         processed_orders <- lift
           (rmap (fun order => subscripts order
                    [("id", "id"); ("symbol", "symbol"); ("side", "side");
                     ("amount", "amount"); ("price", "price"); ("type", "type");
                     ("status", "status"); ("filled", "filled");
                     ("remaining", "remaining"); ("timestamp", "timestamp");
                     ("datetime", "datetime")]) rows) ;;
         now <- time_time W ;;
         ret (PDict [("status", PStr "success");
                     ("data", PDict [("orders", PList (map PDict processed_orders));
                                     ("count", of_nat (List.length processed_orders))]);
                     ("metadata", PDict [("exchange", PStr exchange_normalized);
                                         ("symbol", symbol_value);
                                         ("timestamp", now)])]))
      (fun e =>
         match e with
         | ValueError m =>
             ret (PDict [("status", PStr "error");
                         ("error_message", PStr ("不支持的交易所: " ++ m));
                         ("metadata", PDict [("exchange", PStr exchange_normalized)])])
         | _ =>
             ret (PDict [("status", PStr "error");
                         ("error_message",
                          PStr ("获取现货未成交订单失败: " ++ exn_str e));
                         ("metadata", PDict [("exchange", PStr exchange_normalized);
                                             ("symbol", symbol_value)])])
         end).
End Tools.

(** How the input validation of a tool ends: with a result returned
    before the [try] block, or by entering the block with the normalised
    symbol and exchange name. *)
Inductive entry : Type :=
| Early (r : pyval)
| Enter (symbol_normalized exchange_normalized : string).

(** Lines 1595-1607 of [get_futures_closed_orders]: the statements ahead
    of its [try] block. *)
Definition closed_orders_entry (symbol exchange_name : string) : res entry :=
  if blank exchange_name then
    Ret (Early (PDict [("status", PStr "error");
                       ("error_message", PStr "交易所名称不能为空，请提供支持的交易所名称")]))
  else
    let symbol_normalized :=
      if negb (is_empty symbol) && negb (is_empty (strip symbol))
      then Some (upper (strip symbol)) else None in
    match symbol_normalized with
    | None => Exc (TypeError "argument of type 'NoneType' is not iterable")
    | Some sym =>
        if negb (has_char ":" sym) then
          Ret (Early (PDict [("status", PStr "error");
                             ("error_message", PStr "交易对符号格式错误，请提供如'BTC/USDT:USDT'或'BTC/USDT:BTC'格式的交易对")]))
        else
          let exchange_normalized := lower (strip exchange_name) in
          Ret (Enter sym exchange_normalized)
    end.

End Trade.

(* ================================================================== *)
(** ** market_news_agent.py *)

Module News.

(** *** [get_market_data]: the polling loop, as a step relation *)

Definition NEWSFLASH_URL : string :=
  "https://129.226.222.113/v3/hotFlash/getNewsFlashList".

Definition newsflash_request (last_id : string) : call :=
  HttpPost NEWSFLASH_URL
    [("type", PStr "1"); ("lan", PStr "cn"); ("userid", PStr "");
     ("lastid", PStr last_id); ("pagesize", PNum 1000); ("version", PStr "v1")]
    10.

(** The control points of [get_market_data]: entering the [try] of the
    [while True] loop, inside the [except] clause before
    [time.sleep(5)], after [break] with the parsed body, and returned. *)
Inductive poll_state : Type :=
| Requesting
| Backoff (e : exn)
| Fetched (data : pyval)
| Finished (r : res pyval).

Section Polling.
Variable W : World.
Variable last_id : string.

(** One pass through the [try] block: [requests.post] then
    [res.json()]. *)
Definition attempt (tr : trace) : res pyval :=
  let* response := http_answer W tr (newsflash_request last_id) in
  json_body response.

(** [data['data']['tbody']]: what the function returns once a pass
    has fetched [data]. *)
Definition tbody_of (data : pyval) : res pyval :=
  let* d := getitem data "data" in getitem d "tbody".

Inductive poll_step : poll_state * trace -> poll_state * trace -> Prop :=
| step_fetched tr data :
    attempt tr = Ret data ->
    poll_step (Requesting, tr)
              (Fetched data, (tr ++ [newsflash_request last_id])%list)
| step_failed tr e :
    attempt tr = Exc e ->
    poll_step (Requesting, tr)
              (Backoff e, (tr ++ [newsflash_request last_id])%list)
| step_sleep tr e :
    poll_step (Backoff e, tr) (Requesting, (tr ++ [Sleep 5])%list)
| step_return tr data :
    poll_step (Fetched data, tr) (Finished (tbody_of data), tr).

Inductive poll_steps : poll_state * trace -> poll_state * trace -> Prop :=
| steps_refl s : poll_steps s s
| steps_step s1 s2 s3 : poll_step s1 s2 -> poll_steps s2 s3 -> poll_steps s1 s3.

(** The operations of [k] failed passes: a request and a 5-second
    sleep each. *)
Fixpoint failed_passes (k : nat) : trace :=
  match k with
  | O => []
  | S k' => newsflash_request last_id :: Sleep 5 :: failed_passes k'
  end.

(** The loop returns [r] after exactly [k] failed passes. *)
Definition returns_after (tr0 : trace) (r : res pyval) (tr : trace) : Prop :=
  exists k data,
    (forall i, (i < k)%nat ->
               exists e, attempt (tr0 ++ failed_passes i)%list = Exc e)
    /\ attempt (tr0 ++ failed_passes k)%list = Ret data
    /\ r = tbody_of data
    /\ tr = (tr0 ++ failed_passes k ++ [newsflash_request last_id])%list.

(** The loop run for at most [fuel] passes; [None] when every one of
    them failed. *)
Fixpoint get_market_data (fuel : nat) : trace -> option (res pyval * trace) :=
  fun tr =>
    match fuel with
    | O => None
    | S fuel' =>
        let tr1 := (tr ++ [newsflash_request last_id])%list in
        match attempt tr with
        | Ret data => Some (tbody_of data, tr1)
        | Exc _ => get_market_data fuel' (tr1 ++ [Sleep 5])%list
        end
    end.
End Polling.

(** *** The tool functions *)

Definition SEARCH_URL : string :=
  "https://www.aicoin.com/api/upgrade/search/newsflashByScore".

Definition MACRO_URL : string := "https://flash-api.jin10.com/get_flash_list".

(** The running totals of the batch loop. *)
Record batch_state : Type := {
  batch_results : list pyval;
  successful_searches : nat;
  failed_searches : nat;
  total_news_count : nat
}.

(** [try: m; k ... except Exception: h], where the state the handler
    sees is the one reached when [m] raised; [k] carries its own
    handlers for the states reached later. *)
Definition try_then {A B} (m : Eff A) (k : A -> Eff B) (h : exn -> Eff B) : Eff B :=
  fun tr => match m tr with
            | (Ret a, tr') => k a tr'
            | (Exc e, tr') => h e tr'
            end.

Section Tools.
Variable W : World.

Definition error_only (msg : string) : pyval :=
  PDict [("status", PStr "error"); ("error_message", PStr msg)].

(** One entry of [clean_data] in [search_market_news]. *)
Definition clean_news_item (item : pyval) : res pyval :=
  let* title := get_default item "title" (PStr "") in
  let* content := get_default item "content" (PStr "") in
  let* created := get_default item "createTime" (PNum 0) in
  let* seconds := int W created in
  let* stamp := strftime W (PNum (inject_Z seconds)) in
  let* source := get_default item "source" (PStr "") in
  Ret (PDict [("title", title); ("content", content); ("time", stamp);
              ("source", source)]).

Definition search_market_news (keyword : string) (page_size : Z) : Eff pyval :=
  if blank keyword then ret (error_only "搜索关键词不能为空")
  else
    let keyword_normalized := strip keyword in
    if (page_size <? 1)%Z || (100 <? page_size)%Z then
      ret (error_only "页面大小必须是1-100之间的整数")
    else
      try_except
        (let params := [("keyWord", PStr keyword_normalized); ("page", PNum 1);
                        ("pageSize", of_Z page_size)] in
         response <- http_call W (HttpPost SEARCH_URL params 30) ;;
         if negb (status_code response =? 200)%Z then
           ret (error_only ("API请求失败，状态码: "
                            ++ str W (of_Z (status_code response))))
         else
           match json_body response with
           | Exc (ValueError m) => ret (error_only ("解析API响应失败: " ++ m))
           | Exc e => raise e
           | Ret api_data =>
               success <- lift (get_default api_data "success" (PBool false)) ;;
               if negb (truthy success) then
                 message <- lift (get_default api_data "message" (PStr "未知错误")) ;;
                 ret (error_only ("API返回错误: " ++ str W message))
               else
                 news_data <- lift (get_default api_data "data" (PDict [])) ;;
                 probe <- lift (get_default news_data "list" PNone) ;;
                 news_list <- (if is_list probe
                               then lift (get_default news_data "list" (PList []))
                               else ret (PList [])) ;;
                 items <- lift (iter news_list) ;;
                 clean_data <- lift (rmap clean_news_item items) ;;
                 total_count <- lift (get_default news_data "count"
                                        (of_nat (List.length clean_data))) ;;
                 let search_data :=
                   [("keyword", PStr keyword_normalized);
                    ("news", PList clean_data);
                    ("page_info",
                     PDict [("current_page", PNum 1);
                            ("page_size", of_Z page_size);
                            ("total_count", total_count);
                            ("returned_count", of_nat (List.length clean_data))])] in
                 now <- time_time W ;;
                 let metadata :=
                   [("timestamp", now);
                    ("api_url", PStr SEARCH_URL);
                    ("search_keyword", PStr keyword_normalized);
                    ("requested_page_size", of_Z page_size);
                    ("actual_returned_count", of_nat (List.length clean_data));
                    ("api_response_status", of_Z (status_code response))] in
                 ret (PDict [("status", PStr "success");
                             ("data", PDict search_data);
                             ("metadata", PDict metadata)])
           end)
        (fun e =>
           match e with
           | RequestTimeout _ => ret (error_only "API请求超时（30秒）")
           | RequestConnectionError _ => ret (error_only "无法连接到AiCoin API服务器")
           | _ => ret (error_only ("搜索市场快讯时发生未知错误: " ++ exn_str e))
           end).

(** The [except Exception] clause of the batch loop, entered in state [st]. *)
Definition keyword_failed (st : batch_state) (keyword : string) (e : exn)
  : Eff batch_state :=
  let error_msg := "搜索关键词 '" ++ keyword ++ "' 时发生异常: " ++ exn_str e in
  let keyword_result :=
    PDict [("keyword", PStr keyword); ("status", PStr "error");
           ("news", PList []); ("news_count", PNum 0);
           ("error_message", PStr error_msg)] in
  ret {| batch_results := (batch_results st ++ [keyword_result])%list;
         successful_searches := successful_searches st;
         failed_searches := S (failed_searches st);
         total_news_count := total_news_count st |}.

(** [batch_results.append(keyword_result)] and the delay between two
    keywords. *)
Definition record_result (count i : nat) (st : batch_state) (keyword_result : pyval)
  : Eff batch_state :=
  let st' := {| batch_results := (batch_results st ++ [keyword_result])%list;
                successful_searches := successful_searches st;
                failed_searches := failed_searches st;
                total_news_count := total_news_count st |} in
  if (i <? count - 1)%nat then (sleep (1 # 2) ;;; ret st') else ret st'.

(** The body of the loop over [enumerate(valid_keywords)]. *)
Definition search_keyword (page_size : Z) (count : nat) (st : batch_state)
           (i : nat) (keyword : string) : Eff batch_state :=
  try_then
    (search_result <- search_market_news keyword page_size ;;
     status <- lift (getitem search_result "status") ;;
     ret (search_result, status))
    (fun '(search_result, status) =>
       if eq_str status "success" then
         let st1 := {| batch_results := batch_results st;
                       successful_searches := S (successful_searches st);
                       failed_searches := failed_searches st;
                       total_news_count := total_news_count st |} in
         try_then
           (lift (let* data := getitem search_result "data" in
                  let* news := getitem data "news" in
                  len news))
           (fun news_count =>
              let st2 := {| batch_results := batch_results st1;
                            successful_searches := successful_searches st1;
                            failed_searches := failed_searches st1;
                            total_news_count := total_news_count st1 + news_count |} in
              try_except
                (keyword_result <- lift
                   (let* data := getitem search_result "data" in
                    let* news := getitem data "news" in
                    let* search_metadata :=
                      get_default search_result "metadata" (PDict []) in
                    Ret (PDict [("keyword", PStr keyword); ("status", PStr "success");
                                ("news", news); ("news_count", of_nat news_count);
                                ("search_metadata", search_metadata)])) ;;
                 record_result count i st2 keyword_result)
                (keyword_failed st2 keyword))
           (keyword_failed st1 keyword)
       else
         let st1 := {| batch_results := batch_results st;
                       successful_searches := successful_searches st;
                       failed_searches := S (failed_searches st);
                       total_news_count := total_news_count st |} in
         try_except
           (keyword_result <- lift
              (let* error_message :=
                 get_default search_result "error_message" (PStr "未知错误") in
               Ret (PDict [("keyword", PStr keyword); ("status", PStr "error");
                           ("news", PList []); ("news_count", PNum 0);
                           ("error_message", error_message)])) ;;
            record_result count i st1 keyword_result)
           (keyword_failed st1 keyword))
    (keyword_failed st keyword).

Fixpoint search_keywords (page_size : Z) (count : nat) (st : batch_state)
         (i : nat) (keywords : list string) : Eff batch_state :=
  match keywords with
  | [] => ret st
  | keyword :: rest =>
      st' <- search_keyword page_size count st i keyword ;;
      search_keywords page_size count st' (S i) rest
  end.

(** [[k.strip() for k in keywords if k and k.strip()]]. *)
Definition valid_keywords_of (keywords : list string) : list string :=
  map strip (filter (fun k => negb (blank k)) keywords).

(** Lines 428-434: the statistics of a batch. *)
Definition batch_summary (count : nat) (st : batch_state) : res dict :=
  let* success_rate :=
    (if (0 <? count)%nat
     then let* ratio := num_div (of_nat (successful_searches st)) (of_nat count) in
          Ret (PNum (round2 (ratio * 100)))
     else Ret (PNum 0)) in
  Ret [("total_keywords", of_nat count);
       ("successful_searches", of_nat (successful_searches st));
       ("failed_searches", of_nat (failed_searches st));
       ("total_news_found", of_nat (total_news_count st));
       ("success_rate", success_rate)].

Definition batch_search_market_news (keywords : list string)
           (page_size_per_keyword : Z) : Eff pyval :=
  match keywords with
  | [] => ret (error_only "关键词列表不能为空且必须是数组格式")
  | _ =>
    let valid_keywords := valid_keywords_of keywords in
    match valid_keywords with
    | [] => ret (error_only "没有有效的搜索关键词")
    | _ =>
      let page_size_per_keyword :=
        if (page_size_per_keyword <? 1)%Z || (100 <? page_size_per_keyword)%Z
        then 10%Z else page_size_per_keyword in
      let count := List.length valid_keywords in
      st <- search_keywords page_size_per_keyword count
              {| batch_results := []; successful_searches := 0;
                 failed_searches := 0; total_news_count := 0 |}
              0 valid_keywords ;;
      let overall_status :=
        if (successful_searches st =? count)%nat then "success"
        else if (0 <? successful_searches st)%nat then "partial_success"
        else "error" in
      summary <- lift (batch_summary count st) ;;
      started <- time_time W ;;
      finished <- time_time W ;;
      let metadata :=
        [("timestamp", started);
         ("requested_keywords", PList (map PStr valid_keywords));
         ("page_size_per_keyword", of_Z page_size_per_keyword);
         ("batch_processing_time", finished);
         ("api_calls_made", of_nat count)] in
      let data := [("results", PList (batch_results st));
                   ("summary", PDict summary)] in
      if String.eqb overall_status "error" then
        let error_msg := "批量搜索失败：" ++ str W (of_nat (failed_searches st))
                         ++ "/" ++ str W (of_nat count) ++ " 个关键词搜索失败" in
        ret (PDict [("status", PStr "error");
                    ("error_message", PStr error_msg);
                    ("data", PDict data);
                    ("metadata", PDict metadata)])
      else
        ret (PDict [("status", PStr overall_status);
                    ("data", PDict data);
                    ("metadata", PDict metadata)])
    end
  end.

(** One entry of [clean_data] in [get_macro_data]. *)
Definition clean_macro_item (item : pyval) : res pyval :=
  let* time := get_default item "time" (PStr "") in
  let* data := get_default item "data" (PStr "") in
  let* content := get_default data "content" (PStr "") in
  Ret (PDict [("time", time); ("content", content)]).

Definition get_macro_data (limit : Z) : Eff pyval :=
  let limit := if (limit <? 1)%Z || (100 <? limit)%Z then 50%Z else limit in
  try_except
    (current_time <- time_time W ;;
     max_time <- lift (let* t := sub current_time (PNum 3600) in strftime W t) ;;
     let max_time_str := str W max_time in
     let params := [("channel", PStr "-8200"); ("vip", PStr "1");
                    ("max_time", PStr max_time_str)] in
     response <- http_call W (HttpGet MACRO_URL params 30) ;;
     if negb (status_code response =? 200)%Z then
       ret (error_only ("金十数据API请求失败，状态码: "
                        ++ str W (of_Z (status_code response))))
     else
       match json_body response with
       | Exc (ValueError m) => ret (error_only ("解析金十数据API响应失败: " ++ m))
       | Exc e => raise e
       | Ret api_data =>
           if negb (is_dict api_data) then ret (error_only "金十数据API返回格式异常")
           else
             data_list <- lift (get_default api_data "data" (PList [])) ;;
             let data_list := match data_list with PList l => l | _ => [] end in
             let limited_data :=
               if (Z.to_nat limit <? List.length data_list)%nat
               then firstn (Z.to_nat limit) data_list else data_list in
             clean_data <- lift (rmap clean_macro_item limited_data) ;;
             let macro_data :=
               [("macro_data", PList clean_data);
                ("count_info",
                 PDict [("total_available", of_nat (List.length data_list));
                        ("requested_limit", of_Z limit);
                        ("actual_returned", of_nat (List.length clean_data))])] in
             now <- time_time W ;;
             let metadata :=
               [("timestamp", now);
                ("data_source", PStr "金十数据");
                ("api_url", PStr MACRO_URL);
                ("max_time_used", PStr max_time_str);
                ("requested_limit", of_Z limit);
                ("total_available_count", of_nat (List.length data_list));
                ("returned_count", of_nat (List.length clean_data));
                ("api_response_status", of_Z (status_code response))] in
             ret (PDict [("status", PStr "success");
                         ("data", PDict macro_data);
                         ("metadata", PDict metadata)])
       end)
    (fun e =>
       match e with
       | RequestTimeout _ => ret (error_only "金十数据API请求超时（30秒）")
       | RequestConnectionError _ => ret (error_only "无法连接到金十数据API服务器")
       | _ => ret (error_only ("获取金十宏观数据时发生未知错误: " ++ exn_str e))
       end).

(** *** [get_latest_market_news] *)

(** One entry of [clean_data] in [get_latest_market_news]. *)
Definition clean_latest_item (item : pyval) : res pyval :=
  let* title := get_default item "title" (PStr "") in
  let* content := get_default item "content" (PStr "") in
  let* time := get_default item "time" (PNum 0) in
  let* seconds := int W time in
  let* stamp := strftime W (PNum (inject_Z seconds)) in
  let* source := get_default item "source" (PStr "") in
  Ret (PDict [("title", title); ("content", content); ("time", stamp);
              ("source", source)]).

(** [market_data[:limit] if len(market_data) > limit else market_data].
    A dict has no slices: up to Python 3.11 the subscript raises the
    [TypeError] below, later versions a [KeyError]; both reach the same
    handler. *)
Definition limited_to (limit : Z) (market_data : pyval) : res pyval :=
  let* total := len market_data in
  if (limit <? Z.of_nat total)%Z then
    match market_data with
    | PDict _ => Exc (TypeError "unhashable type: 'slice'")
    | _ => slice_to market_data (Z.to_nat limit)
    end
  else Ret market_data.

(** Lines 92-139: the [try] block once [get_market_data()] has returned
    or raised [fetched]. *)
Definition latest_news_of (limit : Z) (fetched : res pyval) : Eff pyval :=
  try_except
    (market_data <- lift fetched ;;
     limited_data <- lift (limited_to limit market_data) ;;
     items <- lift (iter limited_data) ;;
     clean_data <- lift (rmap clean_latest_item items) ;;
     total_available <- lift (len market_data) ;;
     let news_data :=
       [("news", PList clean_data);
        ("count_info",
         PDict [("total_available", of_nat total_available);
                ("requested_limit", of_Z limit);
                ("actual_returned", of_nat (List.length clean_data))])] in
     now <- time_time W ;;
     let metadata :=
       [("timestamp", now);
        ("data_source", PStr "AiCoin API");
        ("requested_limit", of_Z limit);
        ("total_available_count", of_nat total_available);
        ("returned_count", of_nat (List.length clean_data))] in
     ret (PDict [("status", PStr "success");
                 ("data", PDict news_data);
                 ("metadata", PDict metadata)]))
    (fun e => ret (error_only ("获取最新市场快讯时发生错误: " ++ exn_str e))).

(** The tool run for at most [fuel] passes of the polling loop of
    [get_market_data()]; [None] when every one of them failed. *)
Definition get_latest_market_news (fuel : nat) (limit : Z)
  : trace -> option (res pyval * trace) :=
  fun tr =>
    if (limit <? 1)%Z || (1000 <? limit)%Z then
      Some (ret (error_only "限制数量必须是1-1000之间的整数") tr)
    else
      match get_market_data W "" fuel tr with
      | None => None
      | Some (fetched, tr') => Some (latest_news_of limit fetched tr')
      end.
End Tools.

End News.

(* ================================================================== *)
(** ** The modelled tool functions as one family *)

Module Tools.

(** A call of one of the modelled tool functions with its documented
    arguments. *)
Inductive tool_call : Type :=
| GetTickerData (symbol exchange_name : string)
| GetOrderbookData (symbol exchange_name : string) (limit : Z)
| GetTradesData (symbol exchange_name : string) (limit : Z)
| GetKlineData (symbol timeframe exchange_name : string)
| GetOpenInterestData (symbol exchange_name timeframe : string)
| PlaceSpotOrder (symbol side : string) (amount price : Q) (exchange_name : string)
| PlaceFuturesOrder (symbol side : string) (amount price : Q) (exchange_name : string)
| GetFuturesOpenOrders (symbol exchange_name : string)
| SearchMarketNews (keyword : string) (page_size : Z)
| BatchSearchMarketNews (keywords : list string) (page_size_per_keyword : Z)
| GetMacroData (limit : Z).

Definition invoke (W : World) (c : tool_call) : Eff pyval :=
  match c with
  | GetTickerData s e => Market.get_ticker_data W s e
  | GetOrderbookData s e l => Market.get_orderbook_data W s e l
  | GetTradesData s e l => Market.get_trades_data W s e l
  | GetKlineData s t e => Market.get_kline_data W s t e
  | GetOpenInterestData s e t => Market.get_open_interest_data W s e t
  | PlaceSpotOrder s d a p e => Trade.place_spot_order W s d a p e
  | PlaceFuturesOrder s d a p e => Trade.place_futures_order W s d a p e
  | GetFuturesOpenOrders s e => Trade.get_futures_open_orders W s e
  | SearchMarketNews k n => News.search_market_news W k n
  | BatchSearchMarketNews ks n => News.batch_search_market_news W ks n
  | GetMacroData l => News.get_macro_data W l
  end.

Definition is_trades (c : tool_call) : bool :=
  match c with GetTradesData _ _ _ => true | _ => false end.

Definition is_batch (c : tool_call) : bool :=
  match c with BatchSearchMarketNews _ _ => true | _ => false end.

(** The input validation of [get_ticker_data] (lines 114-124): does it
    turn the call down? *)
Definition ticker_rejected (symbol exchange_name : string) : bool :=
  blank symbol || blank exchange_name.

(** *** Reading a ToolResult *)

Definition status_of (r : pyval) : option string :=
  match r with
  | PDict d => match lookup "status" d with
               | Some (PStr s) => Some s
               | _ => None
               end
  | _ => None
  end.

Definition has_field (k : string) (r : pyval) : bool :=
  match r with PDict d => has_key k d | _ => false end.

(** [metadata] is present and a non-empty mapping. *)
Definition has_metadata (r : pyval) : bool :=
  match r with
  | PDict d => match lookup "metadata" d with
               | Some (PDict (_ :: _)) => true
               | _ => false
               end
  | _ => false
  end.

Definition status_is (s : string) (r : pyval) : bool :=
  match status_of r with Some t => String.eqb t s | None => false end.

(** The invariant as the specification words it: exactly one of [data]
    and [error_message] is present. *)
Definition exactly_one_payload (r : pyval) : bool :=
  xorb (has_field "data" r) (has_field "error_message" r).

(** The envelopes the tools build. *)
Inductive envelope : Type :=
| Success          (* status success or partial_success, data, metadata *)
| BareError        (* status error, error_message only *)
| ErrorWithMetadata (* status error, error_message, metadata *)
| BatchError.      (* status error, error_message, data, metadata *)

Definition envelope_of (r : pyval) : option envelope :=
  match status_of r with
  | Some s =>
      let d := has_field "data" r in
      let e := has_field "error_message" r in
      let m := has_metadata r in
      let m_absent := negb (has_field "metadata" r) in
      if (String.eqb s "success" || String.eqb s "partial_success")
         && d && negb e && m then Some Success
      else if String.eqb s "error" && e && negb d && m_absent then Some BareError
      else if String.eqb s "error" && e && negb d && m then Some ErrorWithMetadata
      else if String.eqb s "error" && e && d && m then Some BatchError
      else None
  | None => None
  end.

Definition envelope_eqb (a b : envelope) : bool :=
  match a, b with
  | Success, Success | BareError, BareError
  | ErrorWithMetadata, ErrorWithMetadata | BatchError, BatchError => true
  | _, _ => false
  end.

(** The result is one of the envelopes of [allowed]. *)
Definition shaped (allowed : list envelope) (r : pyval) : bool :=
  match envelope_of r with
  | Some s => existsb (envelope_eqb s) allowed
  | None => false
  end.

(** The envelopes each tool can return. *)
Definition envelopes (c : tool_call) : list envelope :=
  match c with
  | SearchMarketNews _ _ | GetMacroData _ => [Success; BareError]
  | BatchSearchMarketNews _ _ => [Success; BareError; BatchError]
  | _ => [Success; BareError; ErrorWithMetadata]
  end.

(** Was an order submitted among the operations [tr]? *)
Definition is_order (c : call) : bool :=
  match c with
  | CreateLimitOrder _ _ _ _ _ _ | CreateMarketOrder _ _ _ _ _ => true
  | _ => false
  end.

Definition places_order (tr : trace) : bool := existsb is_order tr.

End Tools.

Import Tools.

(* ================================================================== *)
(** ** Concrete worlds for the examples *)

Module Examples.

Definition no_answer : trace -> call -> res pyval :=
  fun _ _ => Exc (OtherException "NetworkError").

Definition no_http : trace -> call -> res response :=
  fun _ _ => Exc (RequestConnectionError "connection refused").

(** [repr] of the few values the examples print. *)
Definition repr (v : pyval) : string :=
  match v with
  | PNum q =>
      if Qeq_bool q (1 # 10) then "0.1"
      else if Qeq_bool q (1 # 100) then "0.01"
      else if Qeq_bool q (1 # 1000) then "0.001"
      else if Qeq_bool q 0 then "0"
      else if Qeq_bool q 1 then "1"
      else if Qeq_bool q 200 then "200"
      else "<float>"
  | _ => "<object>"
  end.

(** No network, no credentials. *)
Definition offline : World :=
  {| exchange_answer := no_answer;
     http_answer := no_http;
     exchange_has := fun _ => PDict [("fetchOHLCV", PBool true)];
     getenv := fun _ => None;
     clock := fun _ => 1700000000;
     format_timestamp := fun _ => Ret "2023-11-14 22:13:20";
     int_of_str := fun _ => Exc (ValueError "invalid literal for int() with base 10");
     repr_value := repr |}.

Definition credentials (name : string) : option string :=
  if String.eqb name "BINANCE_API_KEY" then Some "key"
  else if String.eqb name "BINANCE_SECRET" then Some "secret"
  else if String.eqb name "OKX_API_KEY" then Some "key"
  else if String.eqb name "OKX_SECRET" then Some "secret"
  else if String.eqb name "OKX_PASSWORD" then Some "phrase"
  else None.

Definition swap_market : pyval :=
  PDict [("contractSize", PNum (1 # 100));
         ("precision", PDict [("amount", PNum (1 # 10)); ("price", PNum (1 # 100))])].

Definition order_of (symbol side : string) (amount price : Q) : pyval :=
  PDict [("id", PStr "1001"); ("symbol", PStr symbol); ("side", PStr side);
         ("amount", PNum amount); ("price", PNum price); ("type", PStr "limit");
         ("status", PStr "open"); ("timestamp", PNum 1700000000000);
         ("datetime", PStr "2023-11-14T22:13:20.000Z")].

(** An exchange that accepts every order and keeps one swap market. *)
Definition accepting_exchange : trace -> call -> res pyval :=
  fun _ c =>
    match c with
    | LoadMarkets _ => Ret (PDict [("BTC/USDT:USDT", swap_market)])
    | CreateLimitOrder _ symbol side amount price _ =>
        Ret (order_of symbol side amount price)
    | FetchTrades _ _ _ => Ret (PList [])
    | FetchOHLCV _ _ _ _ =>
        Ret (PList [PList [PNum 1700000000000; PNum 0; PNum 5; PNum 0; PNum 3; PNum 10];
                    PList [PNum 1700000060000; PNum 3; PNum 6; PNum 2; PNum 4; PNum 12]])
    | _ => Exc (OtherException "NotSupported")
    end.

Definition trading : World :=
  {| exchange_answer := accepting_exchange;
     http_answer := no_http;
     exchange_has := fun _ => PDict [("fetchOHLCV", PBool true)];
     getenv := credentials;
     clock := fun _ => 1700000000;
     format_timestamp := fun _ => Ret "2023-11-14 22:13:20";
     int_of_str := fun _ => Exc (ValueError "invalid literal for int() with base 10");
     repr_value := repr |}.

Definition macro_body : pyval :=
  PDict [("data", PList [PDict [("time", PStr "2023-11-14 21:00:00");
                                ("data", PDict [("content", PStr "CPI")])]])].

(** The macro endpoint is up. *)
Definition macro_up : World :=
  {| exchange_answer := no_answer;
     http_answer := fun _ c =>
       match c with
       | HttpGet _ _ _ => Ret {| status_code := 200; json_body := Ret macro_body |}
       | _ => Exc (RequestConnectionError "connection refused")
       end;
     exchange_has := fun _ => PDict [];
     getenv := fun _ => None;
     clock := fun _ => 1700000000;
     format_timestamp := fun _ => Ret "2023-11-14 21:13:20";
     int_of_str := fun _ => Exc (ValueError "invalid literal for int() with base 10");
     repr_value := repr |}.

Definition newsflash_body : pyval :=
  PDict [("data", PDict [("tbody", PList [PDict [("title", PStr "BTC")]])])].

(** The news-flash endpoint fails twice, then answers. *)
Definition flaky : World :=
  {| exchange_answer := no_answer;
     http_answer := fun tr _ =>
       if (List.length tr <? 4)%nat
       then Exc (RequestTimeout "read timed out")
       else Ret {| status_code := 200; json_body := Ret newsflash_body |};
     exchange_has := fun _ => PDict [];
     getenv := fun _ => None;
     clock := fun _ => 1700000000;
     format_timestamp := fun _ => Ret "2023-11-14 22:13:20";
     int_of_str := fun _ => Exc (ValueError "invalid literal for int() with base 10");
     repr_value := repr |}.

End Examples.

(* ================================================================== *)
(** ** Specifications of computations *)

(** [ensures m P E]: from any history, [m] returns a value satisfying [P]
    or raises an exception satisfying [E]. *)
Definition ensures {A} (m : Eff A) (P : A -> Prop) (E : exn -> Prop) : Prop :=
  forall tr, match fst (m tr) with Ret a => P a | Exc e => E e end.

Definition anything {A} : A -> Prop := fun _ => True.

(** [m] performs no external operation. *)
Definition quiet {A} (m : Eff A) : Prop := forall tr, snd (m tr) = tr.

(** [v] is a number. *)
Definition numeric (v : pyval) : bool :=
  match as_num v with Some _ => true | None => false end.

(** A processed candle as the exchange adapter documents it: a formatted
    time and five numbers. *)
Definition numeric_kline (k : dict) : bool :=
  has_key "datetime" k
  && forallb (fun key => match lookup key k with
                         | Some v => numeric v
                         | None => false
                         end)
       ["open"; "high"; "low"; "close"; "volume"].

(** A processed open-interest row as the exchange adapter documents it:
    a formatted time, a value and a number for the open interest. *)
Definition numeric_oi (oi : dict) : bool :=
  has_key "datetime" oi
  && has_key "open_interest_value" oi
  && match lookup "open_interest" oi with
     | Some v => numeric v
     | None => false
     end.

(** [r] is not a [ZeroDivisionError]. *)
Definition no_zero_division {A} (r : res A) : Prop :=
  match r with Exc e => is_zero_division e = false | Ret _ => True end.

(** The operations [place_futures_order] can have performed: none, the
    loading of the markets alone, or the loading followed by one limit
    order whose contract count and price come from
    [Trade.contracts_and_price]. *)
Definition futures_order_operations (W : World) (symbol : string) (amount price : Q)
           (tr : trace) : Prop :=
  tr = []
  \/ (exists ex0, tr = [LoadMarkets ex0])
  \/ (exists ex0 markets market sheet limit_price order_side params,
        getitem markets (upper (strip symbol)) = Ret market
        /\ Trade.contracts_and_price W market amount price = Ret (sheet, limit_price)
        /\ Qle_bool amount 0 = false /\ Qle_bool price 0 = false
        /\ tr = [LoadMarkets ex0;
                 CreateLimitOrder (Trade.with_markets ex0 markets) (upper (strip symbol))
                   order_side sheet limit_price params]).

(* ================================================================== *)
(** ** Reading the fields of a result *)

(** [r[k]] when [r] is a dict with the key [k]. *)
Definition field (k : string) (r : pyval) : option pyval :=
  match r with PDict d => lookup k d | _ => None end.

(** [r[k1][k2]...]. *)
Fixpoint path (ks : list string) (r : pyval) : option pyval :=
  match ks with
  | [] => Some r
  | k :: ks' => match field k r with
                | Some v => path ks' v
                | None => None
                end
  end.

Definition length_at (ks : list string) (r : pyval) : option nat :=
  match path ks r with
  | Some (PList l) => Some (List.length l)
  | _ => None
  end.

Definition number_at (ks : list string) (r : pyval) : option Q :=
  match path ks r with
  | Some v => as_num v
  | None => None
  end.

(** The number under [key] in a processed row. *)
Definition num_of (key : string) (row : dict) : option Q :=
  match lookup key row with
  | Some v => as_num v
  | None => None
  end.

(** A processed funding-rate row whose rate is a number. *)
Definition numeric_rate (row : dict) : bool :=
  match num_of "rate" row with Some _ => true | None => false end.

(** Two processed candles for the examples. *)
Definition example_klines : list dict :=
  [[("datetime", PStr "2023-11-14 22:13:20"); ("open", PNum 3); ("high", PNum 5);
    ("low", PNum 2); ("close", PNum 4); ("volume", PNum 10)];
   [("datetime", PStr "2023-11-14 22:14:20"); ("open", PNum 4); ("high", PNum 6);
    ("low", PNum 1); ("close", PNum 5); ("volume", PNum 12)]].

(** The side and the amount of a processed trade. *)
Definition side_of (t : dict) : pyval :=
  match lookup "side" t with Some v => v | None => PNone end.

Definition amount_of (t : dict) : pyval :=
  match lookup "amount" t with Some v => v | None => PNone end.

(** A processed trade with a side of buy or sell and a number for amount. *)
Definition sided_trade (t : dict) : bool :=
  has_key "side" t
  && (eq_str (side_of t) "buy" || eq_str (side_of t) "sell")
  && match num_of "amount" t with Some _ => true | None => false end.

(** The left fold of [+] over numbers, from [acc]. *)
Definition total_from (acc : Q) (l : list pyval) : Q :=
  fold_left (fun a v => match as_num v with Some q => a + q | None => a end) l acc.

(* ================================================================== *)
(** ** The operations a computation may perform *)

(** Whatever the history, the operations [m] adds to it all satisfy [ok]. *)
Definition emits {A} (ok : call -> bool) (m : Eff A) : Prop :=
  forall tr, exists ops, snd (m tr) = (tr ++ ops)%list /\ forallb ok ops = true.

(** The external operations each tool function is written to perform. *)
Definition allowed_ops (c : tool_call) (op : call) : bool :=
  match c, op with
  | GetTickerData _ _, FetchTicker _ _ => true
  | GetOrderbookData _ _ _, FetchOrderBook _ _ _ => true
  | GetTradesData _ _ _, FetchTrades _ _ _ => true
  | GetKlineData _ _ _, FetchOHLCV _ _ _ _ => true
  | GetOpenInterestData _ _ _, FetchOpenInterestHistory _ _ _ _ => true
  | PlaceSpotOrder _ _ _ _ _, (LoadMarkets _ | CreateLimitOrder _ _ _ _ _ _) => true
  | PlaceFuturesOrder _ _ _ _ _, (LoadMarkets _ | CreateLimitOrder _ _ _ _ _ _) => true
  | GetFuturesOpenOrders _ _, (LoadMarkets _ | FetchOpenOrders _ _ _) => true
  | SearchMarketNews _ _, HttpPost _ _ _ => true
  | BatchSearchMarketNews _ _, (HttpPost _ _ _ | Sleep _) => true
  | GetMacroData _, HttpGet _ _ _ => true
  | _, _ => false
  end.

Definition is_load_markets (op : call) : bool :=
  match op with LoadMarkets _ => true | _ => false end.

Definition is_fetch_open_orders (op : call) : bool :=
  match op with FetchOpenOrders _ _ _ => true | _ => false end.

(** The tools that work on an exchange and validate their arguments. *)
Definition exchange_tool (c : tool_call) : bool :=
  match c with
  | GetTickerData _ _ | GetOrderbookData _ _ _ | GetKlineData _ _ _
  | GetOpenInterestData _ _ _ | PlaceSpotOrder _ _ _ _ _
  | PlaceFuturesOrder _ _ _ _ _ | GetFuturesOpenOrders _ _ => true
  | _ => false
  end.

(** The [exchange_name] argument of a call. *)
Definition exchange_name_of (c : tool_call) : option string :=
  match c with
  | GetTickerData _ e | GetOrderbookData _ e _ | GetTradesData _ e _
  | GetKlineData _ _ e | GetOpenInterestData _ e _ | PlaceSpotOrder _ _ _ _ e
  | PlaceFuturesOrder _ _ _ _ e | GetFuturesOpenOrders _ e => Some e
  | _ => None
  end.

(** A result without a [metadata] field comes with no new operation. *)
Definition silent_unless_tagged (m : Eff pyval) : Prop :=
  forall tr r tr', m tr = (Ret r, tr') -> has_field "metadata" r = false -> tr' = tr.

(** The operations of one call of an order tool: none, the loading of
    the markets alone, or the loading followed by one limit order on the
    exchange object that holds the loaded markets. *)
Definition order_operations (ops : trace) : Prop :=
  ops = []
  \/ (exists ex, ops = [LoadMarkets ex])
  \/ (exists ex markets symbol side amount price params,
        ops = [LoadMarkets ex;
               CreateLimitOrder (Trade.with_markets ex markets)
                 symbol side amount price params]).

(* ================================================================== *)
(** ** A spot exchange for the examples *)

Module Listing.

Definition spot_market : pyval :=
  PDict [("id", PStr "BTCUSDT"); ("base", PStr "BTC"); ("quote", PStr "USDT");
         ("active", PBool true); ("type", PStr "spot"); ("spot", PBool true);
         ("precision", PDict [("amount", PNum (1 # 100000)); ("price", PNum (1 # 100))]);
         ("limits", PDict [("amount", PDict [("min", PNum (1 # 100000))])])].

Definition open_order : pyval :=
  PDict [("id", PStr "1001"); ("symbol", PStr "BTC/USDT"); ("side", PStr "buy");
         ("amount", PNum 1); ("price", PNum 50000); ("type", PStr "limit");
         ("status", PStr "open"); ("filled", PNum 0); ("remaining", PNum 1);
         ("timestamp", PNum 1700000000000);
         ("datetime", PStr "2023-11-14T22:13:20.000Z")].

(** An exchange with one spot market, one open order and an order book
    of three levels a side. *)
Definition answers : trace -> call -> res pyval :=
  fun _ c =>
    match c with
    | LoadMarkets _ => Ret (PDict [("BTC/USDT", spot_market)])
    | FetchOpenOrders _ _ _ => Ret (PList [open_order])
    | FetchOrderBook _ _ _ =>
        Ret (PDict [("bids", PList [PList [PNum 49999; PNum 1];
                                    PList [PNum 49998; PNum 2];
                                    PList [PNum 49997; PNum 3]]);
                    ("asks", PList [PList [PNum 50001; PNum 1];
                                    PList [PNum 50002; PNum 2];
                                    PList [PNum 50003; PNum 3]]);
                    ("timestamp", PNum 1700000000000);
                    ("datetime", PStr "2023-11-14T22:13:20.000Z");
                    ("nonce", PNone)])
    | _ => Exc (OtherException "NotSupported")
    end.

Definition world : World :=
  {| exchange_answer := answers;
     http_answer := Examples.no_http;
     exchange_has := fun _ => PDict [("fetchOHLCV", PBool true)];
     getenv := Examples.credentials;
     clock := fun _ => 1700000000;
     format_timestamp := fun _ => Ret "2023-11-14 22:13:20";
     int_of_str := fun _ => Exc (ValueError "invalid literal for int() with base 10");
     repr_value := Examples.repr |}.

End Listing.

(** The operations of the tools that list orders. *)
Definition lists_orders (op : call) : bool :=
  is_load_markets op || is_fetch_open_orders op.

(* ================================================================== *)
(** ** The requests of the news searches *)

Definition search_request (keyword : string) (page_size : Z) : call :=
  HttpPost News.SEARCH_URL
    [("keyWord", PStr (strip keyword)); ("page", PNum 1);
     ("pageSize", of_Z page_size)] 30.

(** The operations of a batch over [keywords]: one request a keyword,
    half a second of sleep between two of them. *)
Fixpoint batch_operations (page_size : Z) (keywords : list string) : trace :=
  match keywords with
  | [] => []
  | [k] => [search_request k page_size]
  | k :: rest => search_request k page_size :: Sleep (1 # 2)
                 :: batch_operations page_size rest
  end.

(** The page size a batch uses: 10 when the argument is out of 1..100. *)
Definition batch_page_size (page_size_per_keyword : Z) : Z :=
  if (page_size_per_keyword <? 1)%Z || (100 <? page_size_per_keyword)%Z
  then 10%Z else page_size_per_keyword.

(** The results of [search_market_news]: an error with its message, or
    a success whose data starts with the keyword and the list of news. *)
Definition search_result (r : pyval) : Prop :=
  (exists msg, r = News.error_only msg)
  \/ (exists keyword news rest metadata,
        r = PDict [("status", PStr "success");
                   ("data", PDict (("keyword", keyword) :: ("news", PList news) :: rest));
                   ("metadata", PDict metadata)]).

(* ================================================================== *)
(** ** A news endpoint for the examples *)

Module Newsroom.

Definition search_body : pyval :=
  PDict [("success", PBool true);
         ("data", PDict [("list", PList [PDict [("title", PStr "BTC");
                                                ("content", PStr "ETF");
                                                ("createTime", PNum 1700000000);
                                                ("source", PStr "wire")]]);
                         ("count", PNum 1)])].

(** The search endpoint answers the keyword BTC and refuses the others;
    the news-flash endpoint answers three items. *)
Definition answers : trace -> call -> res response :=
  fun _ c =>
    match c with
    | HttpPost url json _ =>
        if String.eqb url News.SEARCH_URL then
          match lookup "keyWord" json with
          | Some (PStr "BTC") => Ret {| status_code := 200; json_body := Ret search_body |}
          | _ => Ret {| status_code := 500; json_body := Ret PNone |}
          end
        else
          Ret {| status_code := 200;
                 json_body :=
                   Ret (PDict [("data",
                                PDict [("tbody",
                                        PList [PDict [("title", PStr "a"); ("time", PNum 1700000000)];
                                               PDict [("title", PStr "b"); ("time", PNum 1700000060)];
                                               PDict [("title", PStr "c"); ("time", PNum 1700000120)]])])]) |}
    | _ => Exc (RequestConnectionError "connection refused")
    end.

Definition world : World :=
  {| exchange_answer := Examples.no_answer;
     http_answer := answers;
     exchange_has := fun _ => PDict [];
     getenv := fun _ => None;
     clock := fun _ => 1700000000;
     format_timestamp := fun _ => Ret "2023-11-14 22:13:20";
     int_of_str := fun _ => Exc (ValueError "invalid literal for int() with base 10");
     repr_value := Examples.repr |}.

End Newsroom.


(* ================================================================== *)
(** ** A market quoted in steps of 0.00001 *)

Module TickSize.

(** [repr] of the numbers of the market below: Python writes a float
    below 0.0001 with an exponent, so [str(1e-05)] is ['1e-05']. *)
Definition repr (v : pyval) : string :=
  match v with
  | PNum q =>
      if Qeq_bool q (1 # 100000) then "1e-05"
      else if Qeq_bool q 1 then "1.0"
      else "<float>"
  | _ => "<object>"
  end.

Definition swap_market : pyval :=
  PDict [("contractSize", PNum 1);
         ("precision", PDict [("amount", PNum 1); ("price", PNum (1 # 100000))])].

(** An exchange that accepts every order and keeps that one market. *)
Definition answers : trace -> call -> res pyval :=
  fun _ c =>
    match c with
    | LoadMarkets _ => Ret (PDict [("DOGE/USDT:USDT", swap_market)])
    | CreateLimitOrder _ symbol side amount price _ =>
        Ret (Examples.order_of symbol side amount price)
    | _ => Exc (OtherException "NotSupported")
    end.

Definition world : World :=
  {| exchange_answer := answers;
     http_answer := Examples.no_http;
     exchange_has := fun _ => PDict [];
     getenv := Examples.credentials;
     clock := fun _ => 1700000000;
     format_timestamp := fun _ => Ret "2023-11-14 22:13:20";
     int_of_str := fun _ => Exc (ValueError "invalid literal for int() with base 10");
     repr_value := repr |}.

End TickSize.
(* ================================================================== *)
(** * Proofs *)

Lemma is_space_upper_char c : is_space (upper_char c) = is_space c.
Proof. destruct c as [[] [] [] [] [] [] [] []]; reflexivity. Qed.

Lemma is_space_lower_char c : is_space (lower_char c) = is_space c.
Proof. destruct c as [[] [] [] [] [] [] [] []]; reflexivity. Qed.

Lemma upper_char_idem c : upper_char (upper_char c) = upper_char c.
Proof. destruct c as [[] [] [] [] [] [] [] []]; reflexivity. Qed.

Lemma lower_char_idem c : lower_char (lower_char c) = lower_char c.
Proof. destruct c as [[] [] [] [] [] [] [] []]; reflexivity. Qed.

(** The bytes of the whitespace characters are no letters: a case
    mapping leaves them apart. *)
Ltac by_bytes a := destruct a as [[] [] [] [] [] [] [] []]; try reflexivity.

Lemma is_space2_upper_char a b :
  is_space2 (upper_char a) (upper_char b) = is_space2 a b.
Proof. by_bytes a; by_bytes b. Qed.

Lemma is_space2_lower_char a b :
  is_space2 (lower_char a) (lower_char b) = is_space2 a b.
Proof. by_bytes a; by_bytes b. Qed.

Lemma is_space3_upper_char a b c :
  is_space3 (upper_char a) (upper_char b) (upper_char c) = is_space3 a b c.
Proof. by_bytes a; by_bytes b; by_bytes c. Qed.

Lemma is_space3_lower_char a b c :
  is_space3 (lower_char a) (lower_char b) (lower_char c) = is_space3 a b c.
Proof. by_bytes a; by_bytes b; by_bytes c. Qed.

(** *** Stripping, one whitespace character at a time *)

Ltac by_spaces :=
  repeat match goal with
    | |- context [is_space ?a] =>
        let E := fresh "E" in destruct (is_space a) eqn:E
    | |- context [is_space2 ?a ?b] =>
        let E := fresh "E" in destruct (is_space2 a b) eqn:E
    | |- context [is_space3 ?a ?b ?c] =>
        let E := fresh "E" in destruct (is_space3 a b c) eqn:E
    end.

Ltac use_spaces :=
  cbn [lstrip all_space];
  repeat match goal with
    | H : _ = _ |- _ => rewrite ?H; clear H
    end.

Lemma string_length_ind (P : string -> Prop) :
  (forall s, (forall t, (String.length t < String.length s)%nat -> P t) -> P s) ->
  forall s, P s.
Proof.
  intros H s. remember (String.length s) as n eqn:E. revert s E.
  induction n as [n IH] using lt_wf_ind. intros s ->.
  apply H. intros t Ht. exact (IH _ Ht t eq_refl).
Qed.

Lemma head_space_length s t :
  head_space s = Some t -> (String.length t < String.length s)%nat.
Proof.
  destruct s as [|a [|b [|c s3]]]; cbn [head_space]; by_spaces;
    intros H; inversion H; subst; cbn [String.length]; lia.
Qed.

Lemma lstrip_head_space s :
  lstrip s = match head_space s with Some t => lstrip t | None => s end.
Proof.
  destruct s as [|a [|b [|c s3]]]; cbn [head_space];
    by_spaces; use_spaces; reflexivity.
Qed.

Lemma all_space_head_space s :
  all_space s = match s with
                | EmptyString => true
                | _ => match head_space s with
                       | Some t => all_space t
                       | None => false
                       end
                end.
Proof.
  destruct s as [|a [|b [|c s3]]]; cbn [head_space];
    by_spaces; use_spaces; reflexivity.
Qed.

Lemma head_space_app s t z :
  head_space s = Some t -> head_space (s ++ z) = Some (t ++ z).
Proof.
  destruct s as [|a [|b [|c s3]]]; cbn [head_space append]; by_spaces;
    intros H; inversion H; subst; reflexivity.
Qed.

Lemma all_space_app x : forall z,
  all_space x = true -> all_space (x ++ z) = all_space z.
Proof.
  induction x as [x IH] using string_length_ind. intros z Hx.
  destruct x as [|a x1]; [reflexivity|].
  rewrite all_space_head_space in Hx.
  destruct (head_space (String a x1)) as [t|] eqn:E; [|discriminate Hx].
  rewrite all_space_head_space. cbn [append].
  change (String a (x1 ++ z)) with (String a x1 ++ z).
  rewrite (head_space_app _ _ z E).
  apply IH; [now apply head_space_length|exact Hx].
Qed.

Lemma all_space_lstrip s : all_space (lstrip s) = all_space s.
Proof.
  induction s as [s IH] using string_length_ind.
  rewrite lstrip_head_space, (all_space_head_space s).
  destruct (head_space s) as [t|] eqn:E.
  - rewrite (IH t (head_space_length _ _ E)).
    destruct s; [discriminate E|reflexivity].
  - rewrite (all_space_head_space s), E. reflexivity.
Qed.

Lemma head_space_lstrip s : head_space (lstrip s) = None.
Proof.
  induction s as [s IH] using string_length_ind.
  rewrite lstrip_head_space. destruct (head_space s) as [t|] eqn:E; [|exact E].
  apply IH. now apply head_space_length.
Qed.

Lemma rstrip_cons a s :
  rstrip (String a s)
  = if all_space (String a s) then EmptyString else String a (rstrip s).
Proof. reflexivity. Qed.

(** [rstrip] cuts a suffix of whitespace. *)
Lemma rstrip_split s : exists z, s = rstrip s ++ z /\ all_space z = true.
Proof.
  induction s as [|a s IH]; [exists EmptyString; split; reflexivity|].
  rewrite rstrip_cons. destruct (all_space (String a s)) eqn:E.
  - exists (String a s). split; [reflexivity|exact E].
  - destruct IH as (z & Hs & Hz). exists z. split; [|exact Hz].
    cbn [append]. now rewrite <- Hs.
Qed.

Lemma all_space_rstrip_cons a s :
  all_space (String a s) = false -> all_space (String a (rstrip s)) = false.
Proof.
  intros H. destruct (all_space (String a (rstrip s))) eqn:E; [|reflexivity].
  destruct (rstrip_split s) as (z & Hs & Hz).
  rewrite Hs in H. change (String a (rstrip s ++ z)) with (String a (rstrip s) ++ z) in H.
  rewrite (all_space_app _ z E) in H. congruence.
Qed.

Lemma rstrip_empty s : is_empty (rstrip s) = all_space s.
Proof.
  destruct s as [|a s]; [reflexivity|]. rewrite rstrip_cons.
  now destruct (all_space (String a s)).
Qed.

Section CharMap.
(** Facts shared by [upper] and [lower]: a character map [f] applied
    byte by byte, which keeps whitespace apart and is idempotent. *)
Variable f : ascii -> ascii.
Variable fmap : string -> string.
Hypothesis fmap_nil : fmap EmptyString = EmptyString.
Hypothesis fmap_cons : forall c s, fmap (String c s) = String (f c) (fmap s).
Hypothesis f_space : forall c, is_space (f c) = is_space c.
Hypothesis f_space2 : forall a b, is_space2 (f a) (f b) = is_space2 a b.
Hypothesis f_space3 : forall a b c, is_space3 (f a) (f b) (f c) = is_space3 a b c.
Hypothesis f_idem : forall c, f (f c) = f c.

Lemma fmap_idem s : fmap (fmap s) = fmap s.
Proof.
  induction s as [|c s IH]; [now rewrite !fmap_nil|].
  now rewrite !fmap_cons, f_idem, IH.
Qed.

Lemma head_space_fmap s :
  head_space (fmap s) = match head_space s with
                        | Some t => Some (fmap t)
                        | None => None
                        end.
Proof.
  destruct s as [|a [|b [|c s3]]];
    rewrite ?fmap_cons, ?fmap_nil; cbn [head_space];
    rewrite ?f_space, ?f_space2, ?f_space3; by_spaces;
    rewrite ?fmap_cons, ?fmap_nil; reflexivity.
Qed.

Lemma lstrip_fmap s : lstrip (fmap s) = fmap (lstrip s).
Proof.
  induction s as [s IH] using string_length_ind.
  rewrite (lstrip_head_space (fmap s)), (lstrip_head_space s), head_space_fmap.
  destruct (head_space s) as [t|] eqn:E; [|reflexivity].
  apply IH. now apply head_space_length.
Qed.

Lemma all_space_fmap s : all_space (fmap s) = all_space s.
Proof.
  induction s as [s IH] using string_length_ind.
  rewrite (all_space_head_space (fmap s)), (all_space_head_space s), head_space_fmap.
  destruct s as [|a s1]; [now rewrite fmap_nil|]. rewrite fmap_cons.
  destruct (head_space (String a s1)) as [t|] eqn:E; [|reflexivity].
  apply IH. now apply head_space_length.
Qed.

Lemma rstrip_fmap s : rstrip (fmap s) = fmap (rstrip s).
Proof.
  induction s as [|c s IH]; [now rewrite fmap_nil|].
  rewrite rstrip_cons, <- (all_space_fmap (String c s)), fmap_cons, rstrip_cons.
  destruct (all_space (String (f c) (fmap s))); [now rewrite fmap_nil|].
  now rewrite fmap_cons, IH.
Qed.

Lemma strip_fmap s : strip (fmap s) = fmap (strip s).
Proof. unfold strip. now rewrite lstrip_fmap, rstrip_fmap. Qed.
End CharMap.

Lemma rstrip_idem s : rstrip (rstrip s) = rstrip s.
Proof.
  induction s as [|c s IH]; [reflexivity|].
  rewrite rstrip_cons. destruct (all_space (String c s)) eqn:E; [reflexivity|].
  rewrite rstrip_cons, (all_space_rstrip_cons c s E). now rewrite IH.
Qed.

(** A string that does not start with whitespace keeps its head under
    [rstrip], so [lstrip] has nothing more to remove afterwards. *)
Lemma lstrip_rstrip_lstrip s : lstrip (rstrip (lstrip s)) = rstrip (lstrip s).
Proof.
  rewrite lstrip_head_space.
  destruct (head_space (rstrip (lstrip s))) as [t|] eqn:E; [|reflexivity].
  destruct (rstrip_split (lstrip s)) as (z & Hs & _).
  pose proof (head_space_app _ _ z E) as H. rewrite <- Hs in H.
  rewrite head_space_lstrip in H. discriminate H.
Qed.

Lemma strip_idem s : strip (strip s) = strip s.
Proof. unfold strip. now rewrite lstrip_rstrip_lstrip, rstrip_idem. Qed.

Lemma strip_upper s : strip (upper s) = upper (strip s).
Proof.
  apply (strip_fmap upper_char);
    auto using is_space_upper_char, is_space2_upper_char, is_space3_upper_char.
Qed.

Lemma strip_lower s : strip (lower s) = lower (strip s).
Proof.
  apply (strip_fmap lower_char);
    auto using is_space_lower_char, is_space2_lower_char, is_space3_lower_char.
Qed.

Lemma upper_idem s : upper (upper s) = upper s.
Proof. apply (fmap_idem upper_char); auto using upper_char_idem. Qed.

Lemma lower_idem s : lower (lower s) = lower s.
Proof. apply (fmap_idem lower_char); auto using lower_char_idem. Qed.

(** C7. Parameter normalisation is idempotent: for every string [s],
    normalising a trading-pair symbol (strip, then upper-case) twice gives the
    result of normalising it once, and likewise for the lower-casing
    normalisation of exchange and asset names. *)
Theorem normalize_idempotent (s : string) :
  normalize_symbol (normalize_symbol s) = normalize_symbol s /\
  normalize_name (normalize_name s) = normalize_name s.
Proof.
  unfold normalize_symbol, normalize_name. split.
  - now rewrite strip_upper, strip_idem, upper_idem.
  - now rewrite strip_lower, strip_idem, lower_idem.
Qed.

(* ------------------------------------------------------------------ *)
(** ** Rules for [ensures] *)

Section EnsuresRules.
Context {A B : Type}.

Lemma ensures_ret (a : A) (P : A -> Prop) E : P a -> ensures (ret a) P E.
Proof. intros H tr. exact H. Qed.

Lemma ensures_raise (e : exn) (P : A -> Prop) (E : exn -> Prop) :
  E e -> ensures (raise e) P E.
Proof. intros H tr. exact H. Qed.

Lemma ensures_any (m : Eff A) : ensures m anything anything.
Proof. intros tr. destruct (fst (m tr)); exact I. Qed.

Lemma ensures_bind (m : Eff A) (k : A -> Eff B) Q P E :
  ensures m Q E -> (forall a, Q a -> ensures (k a) P E) ->
  ensures (bind m k) P E.
Proof.
  intros Hm Hk tr. unfold bind. specialize (Hm tr).
  destruct (m tr) as [[a|e] tr']; simpl in *; [|exact Hm].
  exact (Hk a Hm tr').
Qed.

Lemma ensures_bind_any (m : Eff A) (k : A -> Eff B) P :
  (forall a, ensures (k a) P anything) -> ensures (bind m k) P anything.
Proof.
  intros Hk. apply ensures_bind with (Q := anything); [apply ensures_any|auto].
Qed.

Lemma ensures_try_except (body : Eff A) (h : exn -> Eff A) P E :
  ensures body P anything -> (forall e, ensures (h e) P E) ->
  ensures (try_except body h) P E.
Proof.
  intros Hb Hh tr. unfold try_except. specialize (Hb tr).
  destruct (body tr) as [[a|e] tr']; simpl in *; [exact Hb|].
  exact (Hh e tr').
Qed.

Lemma ensures_try_then (m : Eff A) (k : A -> Eff B) (h : exn -> Eff B) P E :
  (forall a, ensures (k a) P E) -> (forall e, ensures (h e) P E) ->
  ensures (News.try_then m k h) P E.
Proof.
  intros Hk Hh tr. unfold News.try_then.
  destruct (m tr) as [[a|e] tr']; [exact (Hk a tr')|exact (Hh e tr')].
Qed.

End EnsuresRules.

(** One step of symbolic execution of a tool body. *)
Ltac ensures_step :=
  lazymatch goal with
  | |- ensures (ret _) _ _ => apply ensures_ret
  | |- ensures (bind _ _) _ anything => apply ensures_bind_any; intros
  | |- ensures (try_except _ _) _ _ => apply ensures_try_except; [|intros]
  | |- ensures (News.try_then _ _ _) _ _ => apply ensures_try_then; intros
  | |- ensures (raise _) _ anything => apply ensures_raise; exact I
  | |- ensures (if ?b then _ else _) _ _ => destruct b
  | |- ensures (match ?x with _ => _ end) _ _ => destruct x
  | |- ensures (let _ := _ in _) _ _ => cbv zeta
  end.

Ltac ensures_run := repeat ensures_step; try reflexivity.

(* ------------------------------------------------------------------ *)
(** ** Computations without external operations *)

Section QuietRules.
Context {A B : Type}.

Lemma quiet_ret (a : A) : quiet (ret a).
Proof. intros tr. reflexivity. Qed.

Lemma quiet_raise (e : exn) : quiet (@raise A e).
Proof. intros tr. reflexivity. Qed.

Lemma quiet_lift (r : res A) : quiet (lift r).
Proof. intros tr. reflexivity. Qed.

Lemma quiet_bind (m : Eff A) (k : A -> Eff B) :
  quiet m -> (forall a, quiet (k a)) -> quiet (bind m k).
Proof.
  intros Hm Hk tr. unfold bind. specialize (Hm tr).
  destruct (m tr) as [[a|e] tr']; simpl in *; subst; [apply Hk|reflexivity].
Qed.

(** A handler that performs no operation leaves the operations of the
    [try] body. *)
Lemma snd_try_except (body : Eff A) (h : exn -> Eff A) tr :
  (forall e, quiet (h e)) -> snd (try_except body h tr) = snd (body tr).
Proof.
  intros Hh. unfold try_except.
  destruct (body tr) as [[a|e] tr']; simpl; [reflexivity|apply Hh].
Qed.

Lemma snd_bind_lift (a : A) (k : A -> Eff B) tr :
  snd (bind (lift (Ret a)) k tr) = snd (k a tr).
Proof. reflexivity. Qed.

Lemma snd_bind_quiet (m : Eff A) (k : A -> Eff B) tr :
  (forall a, quiet (k a)) -> snd (bind m k tr) = snd (m tr).
Proof.
  intros Hk. unfold bind.
  destruct (m tr) as [[a|e] tr']; simpl; [apply Hk|reflexivity].
Qed.
End QuietRules.

Lemma quiet_time W : quiet (time_time W).
Proof. intros tr. reflexivity. Qed.

Ltac quiet_step :=
  lazymatch goal with
  | |- quiet (ret _) => apply quiet_ret
  | |- quiet (raise _) => apply quiet_raise
  | |- quiet (lift _) => apply quiet_lift
  | |- quiet (time_time _) => apply quiet_time
  | |- quiet (bind _ _) => apply quiet_bind; [|intros]
  | |- quiet (if ?b then _ else _) => destruct b
  | |- quiet (match ?x with _ => _ end) => destruct x
  | |- quiet (let _ := _ in _) => cbv zeta
  end.

Ltac quiet_run := repeat quiet_step.

(* ------------------------------------------------------------------ *)
(** ** Every modelled tool returns one of its envelopes *)

Lemma ticker_envelope W s e :
  ensures (Market.get_ticker_data W s e)
          (fun r => shaped (envelopes (GetTickerData s e)) r = true) (fun _ => False).
Proof. unfold Market.get_ticker_data. ensures_run. Qed.

Lemma orderbook_envelope W s e l :
  ensures (Market.get_orderbook_data W s e l)
          (fun r => shaped (envelopes (GetOrderbookData s e l)) r = true) (fun _ => False).
Proof. unfold Market.get_orderbook_data. ensures_run. Qed.

Lemma kline_envelope W s t e :
  ensures (Market.get_kline_data W s t e)
          (fun r => shaped (envelopes (GetKlineData s t e)) r = true) (fun _ => False).
Proof. unfold Market.get_kline_data. ensures_run. Qed.

Lemma open_interest_envelope W s e t :
  ensures (Market.get_open_interest_data W s e t)
          (fun r => shaped (envelopes (GetOpenInterestData s e t)) r = true) (fun _ => False).
Proof. unfold Market.get_open_interest_data. ensures_run. Qed.

Lemma spot_order_envelope W s d a p e :
  ensures (Trade.place_spot_order W s d a p e)
          (fun r => shaped (envelopes (PlaceSpotOrder s d a p e)) r = true) (fun _ => False).
Proof. unfold Trade.place_spot_order. ensures_run. Qed.

Lemma futures_order_envelope W s d a p e :
  ensures (Trade.place_futures_order W s d a p e)
          (fun r => shaped (envelopes (PlaceFuturesOrder s d a p e)) r = true) (fun _ => False).
Proof. unfold Trade.place_futures_order. ensures_run. Qed.

(** [get_futures_open_orders] raises only on a blank symbol. *)
Lemma open_orders_envelope W s e :
  ensures (Trade.get_futures_open_orders W s e)
          (fun r => shaped (envelopes (GetFuturesOpenOrders s e)) r = true)
          (fun _ => blank s = true).
Proof.
  unfold Trade.get_futures_open_orders, blank.
  destruct (is_empty s); [|destruct (is_empty (strip s))]; simpl;
    try (destruct (is_empty e || is_empty (strip e));
         [ensures_run | apply ensures_raise; reflexivity]).
  ensures_run.
Qed.

Lemma search_envelope W k n :
  ensures (News.search_market_news W k n)
          (fun r => shaped [Success; BareError] r = true) (fun _ => False).
Proof. unfold News.search_market_news, News.error_only. ensures_run. Qed.

Lemma macro_envelope W l :
  ensures (News.get_macro_data W l)
          (fun r => shaped [Success; BareError] r = true) (fun _ => False).
Proof. unfold News.get_macro_data, News.error_only. ensures_run. Qed.

(** A computation that never raises can be sequenced under any
    exception specification. *)
Lemma ensures_bind_total {A B} (m : Eff A) (k : A -> Eff B) P E :
  ensures m anything (fun _ => False) -> (forall a, ensures (k a) P E) ->
  ensures (bind m k) P E.
Proof.
  intros Hm Hk tr. unfold bind. specialize (Hm tr).
  destruct (m tr) as [[a|e] tr']; simpl in *; [exact (Hk a tr')|contradiction].
Qed.

Lemma time_time_total W : ensures (time_time W) anything (fun _ => False).
Proof. intros tr. exact I. Qed.

Lemma search_keyword_total W n count st i k :
  ensures (News.search_keyword W n count st i k) anything (fun _ => False).
Proof.
  unfold News.search_keyword, News.keyword_failed, News.record_result.
  ensures_run; exact I.
Qed.

Lemma search_keywords_total W n count ks :
  forall st i, ensures (News.search_keywords W n count st i ks) anything (fun _ => False).
Proof.
  induction ks as [|k ks IH]; intros st i; simpl.
  - apply ensures_ret. exact I.
  - apply ensures_bind_total; [apply search_keyword_total|]. intros st'. apply IH.
Qed.

Lemma of_nat_succ_nonzero n : Qeq_bool (inject_Z (Z.of_nat (S n))) 0 = false.
Proof.
  destruct (Qeq_bool _ _) eqn:E; [|reflexivity].
  apply Qeq_bool_iff in E. unfold Qeq in E. simpl in E. lia.
Qed.

(** With at least one keyword the statistics are computed: the success
    rate divides by a positive count. *)
Lemma batch_summary_total count st :
  (0 < count)%nat -> exists d, News.batch_summary count st = Ret d.
Proof.
  intros H. destruct count as [|n]; [lia|].
  unfold News.batch_summary, num_div, of_nat. cbn [as_num Nat.ltb Nat.leb].
  rewrite of_nat_succ_nonzero. simpl. eexists. reflexivity.
Qed.

Lemma batch_envelope W ks n :
  ensures (News.batch_search_market_news W ks n)
          (fun r => shaped [Success; BareError; BatchError] r = true) (fun _ => False).
Proof.
  unfold News.batch_search_market_news, News.error_only.
  destruct ks as [|k ks]; [ensures_run|].
  destruct (News.valid_keywords_of (k :: ks)) as [|v vs]; [ensures_run|].
  cbv zeta. apply ensures_bind_total; [apply search_keywords_total|]. intros st.
  destruct (batch_summary_total (List.length (v :: vs)) st) as [d Hd]; [simpl; lia|].
  rewrite Hd.
  destruct (News.successful_searches st =? _)%nat;
    [|destruct (0 <? News.successful_searches st)%nat];
    intros tr; reflexivity.
Qed.

Lemma ensures_total {A} (m : Eff A) (P : A -> Prop) (E : exn -> Prop) :
  ensures m P (fun _ => False) -> ensures m P E.
Proof. intros H tr. specialize (H tr). destruct (fst (m tr)); [exact H|contradiction]. Qed.

(** The envelope of every modelled tool but [get_trades_data]; the only
    exception that escapes is the one [get_futures_open_orders] raises on
    a blank symbol. *)
Lemma tool_envelope W c :
  is_trades c = false ->
  ensures (invoke W c)
          (fun r => shaped (envelopes c) r = true)
          (fun _ => exists s e, c = GetFuturesOpenOrders s e /\ blank s = true).
Proof.
  intros Hc. destruct c; try discriminate Hc; simpl invoke.
  - apply ensures_total, ticker_envelope.
  - apply ensures_total, orderbook_envelope.
  - apply ensures_total, kline_envelope.
  - apply ensures_total, open_interest_envelope.
  - apply ensures_total, spot_order_envelope.
  - apply ensures_total, futures_order_envelope.
  - intros tr. pose proof (open_orders_envelope W symbol exchange_name tr) as H.
    destruct (fst _); [exact H|]. eauto.
  - apply ensures_total, search_envelope.
  - apply ensures_total, batch_envelope.
  - apply ensures_total, macro_envelope.
Qed.

(* ------------------------------------------------------------------ *)
(** ** Reading envelopes *)

Lemma envelope_facts r s :
  envelope_of r = Some s ->
  match s with
  | Success =>
      (status_is "success" r || status_is "partial_success" r = true)
      /\ status_is "error" r = false
      /\ has_field "data" r = true /\ has_field "error_message" r = false
      /\ has_metadata r = true
  | BareError =>
      status_is "error" r = true
      /\ (status_is "success" r || status_is "partial_success" r = false)
      /\ has_field "data" r = false /\ has_field "error_message" r = true
      /\ has_field "metadata" r = false
  | ErrorWithMetadata =>
      status_is "error" r = true
      /\ (status_is "success" r || status_is "partial_success" r = false)
      /\ has_field "data" r = false /\ has_field "error_message" r = true
      /\ has_metadata r = true
  | BatchError =>
      status_is "error" r = true
      /\ (status_is "success" r || status_is "partial_success" r = false)
      /\ has_field "data" r = true /\ has_field "error_message" r = true
      /\ has_metadata r = true
  end.
Proof.
  unfold envelope_of, status_is. destruct (status_of r) as [t|]; [|discriminate].
  destruct (String.eqb_spec t "success") as [->|H1];
    [|destruct (String.eqb_spec t "partial_success") as [->|H2];
      [|destruct (String.eqb_spec t "error") as [->|H3]]];
    destruct (has_field "data" r), (has_field "error_message" r),
             (has_metadata r), (has_field "metadata" r);
    simpl; intros E; inversion E; subst; simpl; auto.
Qed.

Lemma shaped_inv allowed r :
  shaped allowed r = true ->
  exists s, envelope_of r = Some s /\ existsb (envelope_eqb s) allowed = true.
Proof.
  unfold shaped. destruct (envelope_of r) as [s|]; [|discriminate]. eauto.
Qed.

Lemma invoke_returns W c tr0 r tr :
  is_trades c = false -> invoke W c tr0 = (Ret r, tr) ->
  shaped (envelopes c) r = true.
Proof.
  intros Hc H. pose proof (tool_envelope W c Hc tr0) as E. now rewrite H in E.
Qed.

(* ------------------------------------------------------------------ *)
(** ** Totality of the tool functions *)

(** Every modelled tool but [get_futures_open_orders] on a blank symbol
    returns a dictionary with a status. *)
Lemma tools_return W c tr0 :
  is_trades c = false ->
  (forall s e, c = GetFuturesOpenOrders s e -> blank s = false) ->
  exists r tr, invoke W c tr0 = (Ret r, tr) /\ shaped (envelopes c) r = true.
Proof.
  intros Hc Hs. pose proof (tool_envelope W c Hc tr0) as E.
  destruct (invoke W c tr0) as [[r|e] tr]; simpl in E; [eauto|].
  destruct E as (s & x & -> & Hb). rewrite (Hs s x eq_refl) in Hb. discriminate.
Qed.

(** C1 (the code departs from the claim). [get_futures_open_orders] called
    with an empty or whitespace-only symbol and a non-blank exchange name
    does not return a ToolResult: the test [':' not in symbol_normalized] is
    evaluated on [None], ahead of the [try] block, and its [TypeError]
    reaches the caller before any exchange operation. *)
Theorem open_orders_blank_symbol_raises W symbol exchange_name tr :
  blank exchange_name = false ->
  blank symbol = true ->
  Trade.get_futures_open_orders W symbol exchange_name tr
  = (Exc (TypeError "argument of type 'NoneType' is not iterable"), tr).
Proof.
  intros He Hs. unfold Trade.get_futures_open_orders. rewrite He.
  unfold blank in Hs. destruct (is_empty symbol); [reflexivity|].
  simpl in Hs. rewrite Hs. reflexivity.
Qed.

(** The two calls of the docstring's kind: an empty and a whitespace-only
    symbol. *)
Lemma open_orders_blank_symbol_raises_witness :
  run (Trade.get_futures_open_orders Examples.trading "" "binance")
    = (Exc (TypeError "argument of type 'NoneType' is not iterable"), [])
  /\ run (Trade.get_futures_open_orders Examples.trading "   " "okx")
    = (Exc (TypeError "argument of type 'NoneType' is not iterable"), []).
Proof.
  split; apply open_orders_blank_symbol_raises; reflexivity.
Defined.

(* ------------------------------------------------------------------ *)
(** ** The payload fields *)

(** C2, counterexample. When every keyword search fails,
    [batch_search_market_news] returns a status=error result that carries
    both [error_message] and [data]. *)
Lemma batch_all_failed_has_both_payloads :
  exists r tr,
    run (invoke Examples.offline (BatchSearchMarketNews ["bitcoin"] 10)) = (Ret r, tr)
    /\ status_of r = Some "error"
    /\ has_field "data" r = true
    /\ has_field "error_message" r = true
    /\ exactly_one_payload r = false.
Proof. do 2 eexists. repeat split; vm_compute; reflexivity. Qed.

(** C2, amended. For every ToolResult returned by one of the tool functions
    of [tool_call] other than [get_trades_data]: the status is success, partial_success
    or error; a success or partial_success result has [data] and no
    [error_message]; an error result has [error_message], and has [data]
    as well only when it is the all-keywords-failed result of
    [batch_search_market_news]. *)
Theorem payload_by_status W c tr0 r tr :
  is_trades c = false ->
  invoke W c tr0 = (Ret r, tr) ->
  (status_is "success" r || status_is "partial_success" r || status_is "error" r = true)
  /\ (status_is "success" r || status_is "partial_success" r = true ->
      has_field "data" r = true /\ has_field "error_message" r = false)
  /\ (status_is "error" r = true ->
      has_field "error_message" r = true
      /\ (has_field "data" r = true -> is_batch c = true)).
Proof.
  intros Hc H. apply invoke_returns in H; [|exact Hc].
  apply shaped_inv in H. destruct H as (s & Hs & Hin).
  pose proof (envelope_facts r s Hs) as F.
  destruct s; destruct F as (F1 & F2 & F3 & F4 & F5);
    rewrite ?F1, ?F2, ?F3, ?F4; simpl; repeat split; auto; try discriminate.
  intros _. destruct c; try discriminate Hc; try discriminate Hin; reflexivity.
Qed.

(** The all-failed batch over three keywords, one of them blank. *)
Lemma payload_by_status_witness :
  exists r tr,
    invoke Examples.offline (BatchSearchMarketNews ["bitcoin"; " "; "ether"] 10) []
      = (Ret r, tr)
    /\ status_is "error" r = true
    /\ has_field "error_message" r = true.
Proof.
  do 2 eexists. split; [vm_compute; reflexivity|]. split; [vm_compute; reflexivity|].
  refine (proj1 (proj2 (proj2 (payload_by_status Examples.offline
            (BatchSearchMarketNews ["bitcoin"; " "; "ether"] 10) [] _ _ eq_refl _)) _)).
  - vm_compute; reflexivity.
  - vm_compute; reflexivity.
Defined.

(* ------------------------------------------------------------------ *)
(** ** The metadata field *)

Lemma ticker_metadata W s e :
  ensures (Market.get_ticker_data W s e)
          (fun r => has_metadata r = negb (ticker_rejected s e)
                    /\ has_field "metadata" r = negb (ticker_rejected s e))
          (fun _ => False).
Proof.
  unfold Market.get_ticker_data, ticker_rejected.
  destruct (blank s); [|destruct (blank e)]; simpl; ensures_run; split; reflexivity.
Qed.

(** C3, counterexample. [get_ticker_data] called with a whitespace-only
    symbol returns a result without a [metadata] field. *)
Lemma ticker_blank_symbol_has_no_metadata :
  exists r,
    run (invoke Examples.trading (GetTickerData "   " "binance")) = (Ret r, [])
    /\ status_of r = Some "error"
    /\ has_field "metadata" r = false.
Proof. eexists. repeat split; vm_compute; reflexivity. Qed.

(** C3, amended. For every ToolResult returned by one of the tool functions
    of [tool_call] other than [get_trades_data], [metadata] is present and non-empty
    whenever the status is success or partial_success; and a result of
    [get_ticker_data] has a [metadata] field, then non-empty, exactly when
    the call passed input validation: a blank symbol or exchange name is
    answered without [metadata]. *)
Theorem metadata_by_status W c tr0 r tr :
  is_trades c = false ->
  invoke W c tr0 = (Ret r, tr) ->
  (status_is "success" r || status_is "partial_success" r = true ->
   has_metadata r = true)
  /\ (forall s e, c = GetTickerData s e ->
      has_metadata r = negb (ticker_rejected s e)
      /\ has_field "metadata" r = negb (ticker_rejected s e)).
Proof.
  intros Hc H. split.
  - apply invoke_returns in H; [|exact Hc].
    apply shaped_inv in H. destruct H as (x & Hx & _).
    pose proof (envelope_facts r x Hx) as F.
    destruct x; destruct F as (F1 & F2 & F3 & F4 & F5);
      rewrite ?F1, ?F2; auto; discriminate.
  - intros s e ->. simpl in H. pose proof (ticker_metadata W s e tr0) as M.
    now rewrite H in M.
Qed.

(** An error after validation: the exchange cannot be reached. And a
    symbol made of one ideographic space (U+3000), which [str.strip]
    removes: the call is turned down, without [metadata]. *)
Lemma metadata_by_status_witness :
  (exists r tr,
     invoke Examples.offline (GetTickerData " btc/usdt " "Binance") [] = (Ret r, tr)
     /\ status_is "error" r = true
     /\ has_metadata r = true)
  /\ (exists r tr,
        invoke Examples.offline (GetTickerData (char3 227 128 128) "binance") []
        = (Ret r, tr)
        /\ status_is "error" r = true
        /\ has_metadata r = false
        /\ has_field "metadata" r = false).
Proof.
  split.
  - do 2 eexists. split; [vm_compute; reflexivity|]. split; [vm_compute; reflexivity|].
    refine (proj1 (proj2 (metadata_by_status Examples.offline
              (GetTickerData " btc/usdt " "Binance") [] _ _ eq_refl _)
            " btc/usdt " "Binance" eq_refl)).
    vm_compute; reflexivity.
  - do 2 eexists. split; [vm_compute; reflexivity|]. split; [vm_compute; reflexivity|].
    refine (proj2 (metadata_by_status Examples.offline
              (GetTickerData (char3 227 128 128) "binance") [] _ _ eq_refl _)
            (char3 227 128 128) "binance" eq_refl).
    vm_compute; reflexivity.
Defined.

(* ------------------------------------------------------------------ *)
(** ** Blank required parameters *)

(** C4 (the code departs from the claim). [get_trades_data] has no input
    validation: called with any symbol, the empty one included, and the
    exchange name "binance" it asks the exchange for the trades of that
    symbol, whatever the exchange answers. *)
Theorem trades_blank_symbol_reaches_exchange (W : World) (symbol : string) (limit : Z) :
  snd (run (Market.get_trades_data W symbol "binance" limit))
  = [FetchTrades {| ex_id := "binance";
                    ex_config := [("apiKey", PStr ""); ("secret", PStr "");
                                  ("timeout", PNum 30000);
                                  ("enableRateLimit", PBool true)];
                    ex_markets := PNone |} symbol limit].
Proof.
  unfold run, Market.get_trades_data.
  rewrite snd_try_except by (intros e; quiet_run).
  change (Market._get_exchange "binance" "" "" "")
    with (Ret {| ex_id := "binance";
                 ex_config := [("apiKey", PStr ""); ("secret", PStr "");
                               ("timeout", PNum 30000);
                               ("enableRateLimit", PBool true)];
                 ex_markets := PNone |}).
  rewrite snd_bind_lift, snd_bind_quiet by (intros a; quiet_run).
  reflexivity.
Qed.

(** With an empty symbol and an exchange that answers with no trades,
    the result is even status=success. *)
Lemma trades_blank_symbol_example :
  exists r tr,
    run (Market.get_trades_data Examples.trading "" "binance" 10) = (Ret r, tr)
    /\ status_of r = Some "success"
    /\ existsb is_external tr = true.
Proof. do 2 eexists. repeat split; vm_compute; reflexivity. Qed.

(* ------------------------------------------------------------------ *)
(** ** [place_spot_order] and the symbol format *)

Lemma Qle_bool_pos_false q : 0 < q -> Qle_bool q 0 = false.
Proof.
  intros H. destruct (Qle_bool q 0) eqn:E; [|reflexivity].
  apply Qle_bool_iff in E. exfalso. apply (Qlt_not_le _ _ H E).
Qed.

Lemma mem_nonempty side l :
  mem (lower (strip side)) l = true -> mem "" l = false -> is_empty side = false.
Proof. destruct side; [simpl; congruence|reflexivity]. Qed.

(** C5, counterexample. With credentials configured and an exchange that
    accepts the order, [place_spot_order] on the symbol "BTCUSDT" returns
    status=success and the limit order is placed. *)
Lemma spot_order_without_slash_is_placed :
  exists r tr,
    run (Trade.place_spot_order Examples.trading "BTCUSDT" "buy" 1 50000 "binance")
      = (Ret r, tr)
    /\ has_char "/" "BTCUSDT" = false
    /\ status_of r = Some "success"
    /\ places_order tr = true.
Proof. do 2 eexists. repeat split; vm_compute; reflexivity. Qed.

(** C5, amended. [place_spot_order] does not check the '/' delimiter: of
    the symbol it rejects only the blank one, with a message that names the
    'BTC/USDT' format and without any exchange operation. For every other
    symbol, with or without '/', given a side of buy or sell, a positive
    amount and price, a supported exchange name, configured credentials and
    markets that load, the limit order is submitted to the exchange for the
    stripped, upper-cased symbol. *)
Theorem spot_order_symbol_not_checked W symbol side amount price exchange_name markets :
  let name := lower (strip exchange_name) in
  let api_key := getenv_or_empty W (upper name ++ "_API_KEY") in
  let secret := getenv_or_empty W (upper name ++ "_SECRET") in
  let password := getenv_or_empty W (upper name ++ "_PASSWORD") in
  let ex := Trade.new_exchange W name api_key secret password in
  mem (lower (strip side)) ["buy"; "sell"] = true ->
  0 < amount -> 0 < price ->
  blank exchange_name = false ->
  mem name Trade.SUPPORTED_EXCHANGES = true ->
  is_empty api_key = false -> is_empty secret = false ->
  exchange_answer W [] (LoadMarkets ex) = Ret markets ->
  if blank symbol then
    run (Trade.place_spot_order W symbol side amount price exchange_name)
    = (Ret (PDict [("status", PStr "error");
                   ("error_message",
                    PStr "交易对符号不能为空，请提供如'BTC/USDT'格式的交易对")]), [])
  else
    snd (run (Trade.place_spot_order W symbol side amount price exchange_name))
    = [LoadMarkets ex;
       CreateLimitOrder (Trade.with_markets ex markets) (upper (strip symbol))
         (lower (strip side)) amount price []].
Proof.
  intros name api_key secret password ex Hside Ha Hp Hex Hsup Hkey Hsec Hload.
  unfold run, Trade.place_spot_order. cbv zeta.
  destruct (blank symbol); [reflexivity|].
  rewrite Hside, (mem_nonempty side _ Hside eq_refl),
    (Qle_bool_pos_false _ Ha), (Qle_bool_pos_false _ Hp), Hex.
  change (is_empty "limit" || negb (mem (lower (strip "limit")) ["limit"; "market"]))
    with false.
  change (String.eqb (lower (strip "limit")) "limit") with true.
  cbv iota. cbn [negb orb andb].
  rewrite snd_try_except by (intros e; quiet_run).
  unfold Trade._get_api_credentials.
  fold name. fold api_key secret password. rewrite Hkey, Hsec. cbn [orb].
  assert (Hl : lower name = name) by apply lower_idem.
  unfold Trade._get_exchange. rewrite Hl, Hsup.
  cbn [negb]. fold ex.
  unfold bind at 1 2. unfold exchange_call at 1. rewrite Hload. cbv iota beta.
  unfold ret at 1. cbv iota beta.
  rewrite snd_bind_quiet by (intros a; quiet_run).
  reflexivity.
Qed.

(** The symbol "BTCUSDT" on an exchange that accepts the order. *)
Lemma spot_order_symbol_not_checked_witness :
  snd (run (Trade.place_spot_order Examples.trading "BTCUSDT" "buy" 1 50000 "binance"))
  = [LoadMarkets (Trade.new_exchange Examples.trading "binance" "key" "secret" "");
     CreateLimitOrder
       (Trade.with_markets (Trade.new_exchange Examples.trading "binance" "key" "secret" "")
          (PDict [("BTC/USDT:USDT", Examples.swap_market)]))
       "BTCUSDT" "buy" 1 50000 []].
Proof.
  apply (spot_order_symbol_not_checked Examples.trading "BTCUSDT" "buy" 1 50000 "binance"
           (PDict [("BTC/USDT:USDT", Examples.swap_market)]));
    reflexivity.
Defined.

(* ------------------------------------------------------------------ *)
(** ** Bounded numeric parameters *)

(** C6, counterexample. [get_macro_data] with limit 150 contacts the
    endpoint and returns status=success. *)
Lemma macro_limit_150_succeeds :
  exists r tr,
    run (News.get_macro_data Examples.macro_up 150) = (Ret r, tr)
    /\ status_of r = Some "success"
    /\ existsb is_external tr = true.
Proof. do 2 eexists. repeat split; vm_compute; reflexivity. Qed.

(** C6, amended. A depth limit outside 1-100 makes [get_orderbook_data]
    return status=error without any external operation, whatever the other
    arguments are. [get_macro_data] does not reject a limit outside 1-100:
    it replaces it by 50 and proceeds as for that value, sending its HTTP
    request as soon as the request time can be formatted. *)
Theorem out_of_range_limit W symbol exchange_name limit :
  (limit < 1 \/ 100 < limit)%Z ->
  (exists msg,
      run (Market.get_orderbook_data W symbol exchange_name limit)
      = (Ret (PDict [("status", PStr "error"); ("error_message", PStr msg)]), []))
  /\ News.get_macro_data W limit = News.get_macro_data W 50
  /\ (forall stamp,
        format_timestamp W (clock W [] - 3600) = Ret stamp ->
        snd (run (News.get_macro_data W limit))
        = [HttpGet News.MACRO_URL
             [("channel", PStr "-8200"); ("vip", PStr "1"); ("max_time", PStr stamp)]
             30]).
Proof.
  intros Hl. split; [|split].
  - unfold run, Market.get_orderbook_data.
    destruct (blank symbol); [eexists; reflexivity|].
    destruct (blank exchange_name); [eexists; reflexivity|].
    destruct (Z.leb_spec limit 0); [eexists; reflexivity|].
    destruct (Z.ltb_spec 100 limit); [eexists; reflexivity|lia].
  - unfold News.get_macro_data.
    replace ((limit <? 1)%Z || (100 <? limit)%Z) with true; [reflexivity|].
    symmetry. apply orb_true_iff.
    destruct Hl; [left; apply Z.ltb_lt|right; apply Z.ltb_lt]; assumption.
  - intros stamp Hs. unfold run, News.get_macro_data. cbv zeta.
    rewrite snd_try_except by (intros e; quiet_run).
    unfold bind at 1. unfold time_time at 1. cbv iota beta.
    unfold sub, strftime. cbn [as_num rbind]. rewrite Hs. cbn [rbind].
    rewrite snd_bind_lift. cbn [str].
    rewrite snd_bind_quiet by (intros a; unfold News.error_only; quiet_run).
    reflexivity.
Qed.

(** The limit 150. *)
Lemma out_of_range_limit_witness :
  (exists msg,
      run (Market.get_orderbook_data Examples.macro_up "BTC/USDT" "binance" 150)
      = (Ret (PDict [("status", PStr "error"); ("error_message", PStr msg)]), []))
  /\ News.get_macro_data Examples.macro_up 150 = News.get_macro_data Examples.macro_up 50.
Proof.
  destruct (out_of_range_limit Examples.macro_up "BTC/USDT" "binance" 150) as (H1 & H2 & _).
  - right. reflexivity.
  - split; [exact H1|exact H2].
Defined.

(* ------------------------------------------------------------------ *)
(** ** Zero-guarded percentages *)

Lemma nzd_bind {A B} (r : res A) (k : A -> res B) :
  no_zero_division r -> (forall a, no_zero_division (k a)) ->
  no_zero_division (rbind r k).
Proof. intros Hr Hk. destruct r; simpl; [apply Hk|exact Hr]. Qed.

Lemma nzd_rmap {A B} (f : A -> res B) (l : list A) :
  (forall a, no_zero_division (f a)) -> no_zero_division (rmap f l).
Proof.
  intros Hf. induction l as [|x l IH]; simpl; [exact I|].
  apply nzd_bind; [apply Hf|]. intros y. apply nzd_bind; [exact IH|]. intros; exact I.
Qed.

Lemma nzd_getitem v k : no_zero_division (getitem v k).
Proof. destruct v; simpl; try reflexivity. destruct (lookup k d); simpl; auto. Qed.

Lemma nzd_sub a b : no_zero_division (sub a b).
Proof. unfold sub. destruct (as_num a), (as_num b); simpl; auto. Qed.

Lemma nzd_add a b : no_zero_division (add a b).
Proof. unfold add. destruct (as_num a), (as_num b); simpl; auto. Qed.

Lemma nzd_mul_num a k : no_zero_division (mul_num a k).
Proof. unfold mul_num. destruct (as_num a); simpl; auto. Qed.

Lemma nzd_mul_nat a n : no_zero_division (mul_nat a n).
Proof. unfold mul_nat. destruct a; simpl; auto. Qed.

Lemma nzd_lt a b : no_zero_division (lt a b).
Proof.
  unfold lt. destruct a, b; simpl; auto.
Qed.

Lemma nzd_sum_from l : forall acc, no_zero_division (sum_from acc l).
Proof.
  induction l as [|x l IH]; intros acc; simpl; [exact I|].
  apply nzd_bind; [apply nzd_add|apply IH].
Qed.

Lemma nzd_max_from l : forall best, no_zero_division (max_from best l).
Proof.
  induction l as [|x l IH]; intros best; simpl; [exact I|].
  apply nzd_bind; [apply nzd_lt|intros; apply IH].
Qed.

Lemma nzd_min_from l : forall best, no_zero_division (min_from best l).
Proof.
  induction l as [|x l IH]; intros best; simpl; [exact I|].
  apply nzd_bind; [apply nzd_lt|intros; apply IH].
Qed.

Lemma nzd_max l : no_zero_division (max l).
Proof. destruct l; simpl; [reflexivity|apply nzd_max_from]. Qed.

Lemma nzd_min l : no_zero_division (min l).
Proof. destruct l; simpl; [reflexivity|apply nzd_min_from]. Qed.

(** A division guarded by [divisor != 0] never divides by zero. *)
Lemma nzd_div_guarded a b : ne_zero b = true -> no_zero_division (div a b).
Proof.
  unfold ne_zero, div, num_div. intros H.
  destruct (as_num a), (as_num b); simpl; auto.
  apply negb_true_iff in H. rewrite H. exact I.
Qed.

Lemma nzd_div_length a (l : list pyval) :
  l <> [] -> no_zero_division (div a (of_nat (List.length l))).
Proof.
  intros H. apply nzd_div_guarded. destruct l as [|x l]; [contradiction|].
  unfold ne_zero, of_nat. cbn [as_num List.length]. now rewrite of_nat_succ_nonzero.
Qed.

Lemma nzd_div_succ a n : no_zero_division (div a (of_nat (S n))).
Proof.
  apply nzd_div_guarded. unfold ne_zero, of_nat. cbn [as_num].
  now rewrite of_nat_succ_nonzero.
Qed.

Create HintDb nzd.
#[local] Hint Resolve nzd_getitem nzd_sub nzd_add nzd_mul_num nzd_mul_nat nzd_lt nzd_sum_from
  nzd_max nzd_min nzd_rmap : nzd.

Ltac nzd_step :=
  lazymatch goal with
  | |- no_zero_division (rbind _ _) => apply nzd_bind; [|intros]
  | |- no_zero_division (Ret _) => exact I
  | |- no_zero_division (sum _) => apply nzd_sum_from
  | |- no_zero_division (rmap _ _) => apply nzd_rmap; intros
  | |- no_zero_division (if ne_zero ?b then _ else _) =>
      let Hz := fresh "Hz" in destruct (ne_zero b) eqn:Hz
  | |- no_zero_division (div _ ?b) =>
      first [ apply nzd_div_guarded; assumption
            | apply nzd_div_succ
            | apply nzd_div_length; discriminate ]
  | |- no_zero_division _ => solve [auto with nzd]
  end.

Lemma kline_summary_no_zero_division klines :
  no_zero_division (Market.kline_summary klines).
Proof.
  unfold Market.kline_summary. destruct klines as [|first rest]; [exact I|].
  cbv zeta. repeat nzd_step.
Qed.

Lemma open_interest_summary_no_zero_division rows :
  no_zero_division (Market.open_interest_summary rows).
Proof.
  unfold Market.open_interest_summary. destruct rows as [|first rest]; [exact I|].
  cbv zeta. apply nzd_bind; [repeat nzd_step|]. intros amounts.
  destruct (filter _ amounts) as [|x [|y l]] eqn:E; cbn [List.length Nat.leb];
    repeat nzd_step.
Qed.

Lemma funding_rate_summary_no_zero_division rows :
  no_zero_division (Market.funding_rate_summary rows).
Proof.
  unfold Market.funding_rate_summary. destruct rows as [|first rest]; [exact I|].
  cbv zeta. apply nzd_bind; [repeat nzd_step|]. intros all.
  destruct (filter _ all) as [|x l] eqn:E; repeat nzd_step.
Qed.

Lemma batch_summary_no_zero_division count st :
  no_zero_division (News.batch_summary count st).
Proof.
  destruct count as [|n]; [exact I|].
  destruct (batch_summary_total (S n) st) as [d Hd]; [lia|]. rewrite Hd. exact I.
Qed.

(** Case analysis along a chain of [let*] that is known to return. *)
Ltac returns_step H :=
  lazymatch type of H with
  | rbind ?r _ = Ret _ =>
      let E := fresh "E" in destruct r eqn:E; cbn [rbind] in H; [|discriminate H]
  | (if ?b then _ else _) = Ret _ => destruct b eqn:?
  | Ret _ = Ret _ => inversion H; subst; clear H
  end.

Ltac returns_inv H := repeat returns_step H.

Lemma kline_zero_open first rest base summary :
  getitem (PDict first) "open" = Ret base ->
  ne_zero base = false ->
  Market.kline_summary (first :: rest) = Ret summary ->
  lookup "price_change_percent" summary = Some (PNum 0).
Proof.
  intros Hopen Hz H. unfold Market.kline_summary in H. cbv zeta in H.
  returns_step H. rewrite Hopen in H. cbn [rbind] in H. rewrite Hz in H.
  returns_inv H. reflexivity.
Qed.

Lemma open_interest_zero_baseline first rest base summary :
  getitem (PDict first) "open_interest" = Ret base ->
  ne_zero base = false ->
  Market.open_interest_summary (first :: rest) = Ret summary ->
  summary = [] \/ lookup "oi_change_percentage" summary = Some (PNum 0).
Proof.
  intros Hbase Hz H. unfold Market.open_interest_summary in H. cbv zeta in H.
  returns_step H. returns_step H; [|left; now inversion H].
  returns_step H. rewrite Hbase in H. cbn [rbind] in H. rewrite Hz in H.
  returns_inv H. right. reflexivity.
Qed.

(** *** On well-formed candles the statistics are computed *)

Lemma numeric_inv v : numeric v = true -> exists q, as_num v = Some q.
Proof. unfold numeric. destruct (as_num v) as [q|]; [eauto|discriminate]. Qed.

Lemma lt_numeric a b :
  numeric a = true -> numeric b = true -> exists c, lt a b = Ret c.
Proof.
  destruct a, b; try discriminate; simpl; eauto.
Qed.

Lemma add_numeric a b :
  numeric a = true -> numeric b = true ->
  exists c, add a b = Ret c /\ numeric c = true.
Proof.
  intros Ha Hb. apply numeric_inv in Ha, Hb. destruct Ha as [x Hx], Hb as [y Hy].
  unfold add. rewrite Hx, Hy. eauto.
Qed.

Lemma sum_from_numeric l : forall acc,
  numeric acc = true -> forallb numeric l = true ->
  exists c, sum_from acc l = Ret c /\ numeric c = true.
Proof.
  induction l as [|x l IH]; intros acc Ha Hl; simpl in *; [eauto|].
  apply andb_true_iff in Hl. destruct Hl as [Hx Hl].
  destruct (add_numeric acc x Ha Hx) as (c & Hc & Hn). rewrite Hc. simpl. now apply IH.
Qed.

Lemma max_from_numeric l : forall best,
  numeric best = true -> forallb numeric l = true ->
  exists c, max_from best l = Ret c /\ numeric c = true.
Proof.
  induction l as [|x l IH]; intros best Hb Hl; simpl in *; [eauto|].
  apply andb_true_iff in Hl. destruct Hl as [Hx Hl].
  destruct (lt_numeric best x Hb Hx) as [c Hc]. rewrite Hc. simpl.
  apply IH; [destruct c|]; assumption.
Qed.

Lemma min_from_numeric l : forall best,
  numeric best = true -> forallb numeric l = true ->
  exists c, min_from best l = Ret c /\ numeric c = true.
Proof.
  induction l as [|x l IH]; intros best Hb Hl; simpl in *; [eauto|].
  apply andb_true_iff in Hl. destruct Hl as [Hx Hl].
  destruct (lt_numeric x best Hx Hb) as [c Hc]. rewrite Hc. simpl.
  apply IH; [destruct c|]; assumption.
Qed.

Lemma numeric_kline_field k key :
  numeric_kline k = true ->
  In key ["open"; "high"; "low"; "close"; "volume"] ->
  exists v, getitem (PDict k) key = Ret v /\ numeric v = true.
Proof.
  unfold numeric_kline. intros H Hin. apply andb_true_iff in H. destruct H as [_ H].
  rewrite forallb_forall in H. specialize (H key Hin). simpl.
  destruct (lookup key k) as [v|]; [eauto|discriminate].
Qed.

Lemma numeric_kline_datetime k :
  numeric_kline k = true -> exists v, getitem (PDict k) "datetime" = Ret v.
Proof.
  unfold numeric_kline, has_key. intros H. apply andb_true_iff in H. destruct H as [H _].
  simpl. destruct (lookup "datetime" k) as [v|]; [eauto|discriminate].
Qed.

Lemma rmap_numeric_field key klines :
  In key ["open"; "high"; "low"; "close"; "volume"] ->
  forallb numeric_kline klines = true ->
  exists vs, rmap (fun k => getitem (PDict k) key) klines = Ret vs
             /\ forallb numeric vs = true
             /\ List.length vs = List.length klines.
Proof.
  intros Hin. induction klines as [|k klines IH]; intros H; [simpl; eauto|].
  cbn [forallb] in H. apply andb_true_iff in H. destruct H as [Hk H].
  destruct (numeric_kline_field k key Hk Hin) as (v & Hv & Hn).
  destruct (IH H) as (vs & Hvs & Hns & Hlen).
  cbn [rmap]. rewrite Hv. cbn [rbind]. rewrite Hvs. cbn [rbind].
  exists (v :: vs). cbn [forallb List.length]. rewrite Hn, Hns, Hlen. auto.
Qed.

Lemma last_in {A} (l : list A) : forall x d, In (List.last (x :: l) d) (x :: l).
Proof.
  induction l as [|y l IH]; intros x d; [left; reflexivity|].
  right. change (List.last (x :: y :: l) d) with (List.last (y :: l) d). apply IH.
Qed.

Lemma last_numeric_kline first rest :
  forallb numeric_kline (first :: rest) = true ->
  numeric_kline (last_of first (first :: rest)) = true.
Proof.
  intros H. rewrite forallb_forall in H. apply H. apply last_in.
Qed.

(** On candles made of numbers the statistics of [get_kline_data] are
    computed, and a first open price of 0 gives a percentage of 0. *)
Lemma kline_summary_returns first rest :
  forallb numeric_kline (first :: rest) = true ->
  exists summary base,
    Market.kline_summary (first :: rest) = Ret summary
    /\ getitem (PDict first) "open" = Ret base
    /\ (ne_zero base = false ->
        lookup "price_change_percent" summary = Some (PNum 0)).
Proof.
  intros H.
  pose proof (last_numeric_kline first rest H) as Hlast.
  assert (Hfirst : numeric_kline first = true)
    by (simpl in H; apply andb_true_iff in H; tauto).
  unfold Market.kline_summary. cbv zeta.
  destruct (numeric_kline_field _ "close" Hlast) as (c & Hc & Hcn); [simpl; tauto|].
  destruct (numeric_kline_field _ "open" Hfirst) as (o & Ho & Hon); [simpl; tauto|].
  rewrite Hc. cbn [rbind]. rewrite Ho. cbn [rbind].
  destruct (numeric_inv c Hcn) as [qc Hqc]. destruct (numeric_inv o Hon) as [qo Hqo].
  unfold sub at 1. rewrite Hqc, Hqo. cbn [rbind].
  assert (Hpct : exists pct,
             (if ne_zero o
              then let* r := div (PNum (qc - qo)) o in mul_num r 100
              else Ret (PNum 0)) = Ret pct
             /\ (ne_zero o = false -> pct = PNum 0)).
  { destruct (ne_zero o) eqn:Hz; [|eauto].
    unfold div, num_div. cbn [as_num]. rewrite Hqo.
    unfold ne_zero in Hz. rewrite Hqo in Hz. apply negb_true_iff in Hz. rewrite Hz.
    cbn [rbind mul_num as_num]. eexists. split; [reflexivity|discriminate]. }
  destruct Hpct as (pct & Hpct & Hzero). rewrite Hpct. cbn [rbind].
  destruct (rmap_numeric_field "high" (first :: rest)) as (hs & Hhs & Hhn & Hhl);
    [simpl; tauto|exact H|].
  destruct (rmap_numeric_field "low" (first :: rest)) as (ls & Hls & Hln & Hll);
    [simpl; tauto|exact H|].
  destruct (rmap_numeric_field "volume" (first :: rest)) as (vs & Hvs & Hvn & Hvl);
    [simpl; tauto|exact H|].
  rewrite Hhs. cbn [rbind].
  destruct hs as [|h hs]; [discriminate Hhl|].
  simpl in Hhn. apply andb_true_iff in Hhn. destruct Hhn as [Hh Hhn].
  destruct (max_from_numeric hs h Hh Hhn) as (mx & Hmx & _).
  unfold max. rewrite Hmx. cbn [rbind].
  rewrite Hls. cbn [rbind].
  destruct ls as [|l ls]; [discriminate Hll|].
  simpl in Hln. apply andb_true_iff in Hln. destruct Hln as [Hl Hln].
  destruct (min_from_numeric ls l Hl Hln) as (mn & Hmn & _).
  unfold min. rewrite Hmn. cbn [rbind].
  rewrite Hvs. cbn [rbind].
  destruct (sum_from_numeric vs (PNum 0) eq_refl Hvn) as (tv & Htv & _).
  unfold sum. rewrite Htv. cbn [rbind].
  destruct (numeric_kline_datetime _ Hfirst) as (d1 & Hd1).
  destruct (numeric_kline_datetime _ Hlast) as (d2 & Hd2).
  rewrite Hd1. cbn [rbind]. rewrite Hd2. cbn [rbind].
  eexists. exists o. split; [reflexivity|]. split; [reflexivity|].
  intros Hz. simpl. now rewrite (Hzero Hz).
Qed.

(** *** On well-formed rows the open-interest statistics are computed *)

Lemma numeric_oi_inv oi :
  numeric_oi oi = true ->
  (exists v, getitem (PDict oi) "open_interest" = Ret v /\ numeric v = true)
  /\ (exists v, getitem (PDict oi) "open_interest_value" = Ret v)
  /\ (exists v, getitem (PDict oi) "datetime" = Ret v).
Proof.
  unfold numeric_oi, has_key. cbn [getitem].
  destruct (lookup "datetime" oi); [|discriminate].
  destruct (lookup "open_interest_value" oi); [|discriminate].
  destruct (lookup "open_interest" oi) as [v|]; [|discriminate].
  cbn [andb]. intros H. repeat split; eauto.
Qed.

Lemma rmap_open_interest rows :
  forallb numeric_oi rows = true ->
  exists vs, rmap (fun oi => getitem (PDict oi) "open_interest") rows = Ret vs
             /\ forallb numeric vs = true
             /\ List.length vs = List.length rows.
Proof.
  induction rows as [|oi rows IH]; intros H; [simpl; eauto|].
  cbn [forallb] in H. apply andb_true_iff in H. destruct H as [Hoi H].
  destruct (numeric_oi_inv oi Hoi) as ((v & Hv & Hn) & _).
  destruct (IH H) as (vs & Hvs & Hns & Hlen).
  cbn [rmap]. rewrite Hv. cbn [rbind]. rewrite Hvs. cbn [rbind].
  exists (v :: vs). cbn [forallb List.length]. rewrite Hn, Hns, Hlen. auto.
Qed.

(** A number is not [None]: the comprehension keeps it. *)
Lemma filter_numeric vs :
  forallb numeric vs = true -> filter (fun v => negb (is_none v)) vs = vs.
Proof.
  induction vs as [|v vs IH]; intros H; [reflexivity|].
  cbn [forallb] in H. apply andb_true_iff in H. destruct H as [Hv H].
  cbn [filter]. destruct v; try discriminate Hv; cbn [is_none negb]; now rewrite IH.
Qed.

Lemma last_numeric_oi first rest :
  forallb numeric_oi (first :: rest) = true ->
  numeric_oi (last_of first (first :: rest)) = true.
Proof.
  intros H. rewrite forallb_forall in H. apply H. apply last_in.
Qed.

(** On at least two rows with a number for the open interest the
    statistics of [get_open_interest_data] are computed, and a baseline of
    0 gives a percentage of 0. *)
Lemma open_interest_summary_returns first second rest :
  forallb numeric_oi (first :: second :: rest) = true ->
  exists summary base pct,
    Market.open_interest_summary (first :: second :: rest) = Ret summary
    /\ getitem (PDict first) "open_interest" = Ret base
    /\ lookup "oi_change_percentage" summary = Some pct
    /\ (ne_zero base = false -> pct = PNum 0).
Proof.
  intros H.
  pose proof (last_numeric_oi first (second :: rest) H) as Hlast.
  assert (Hfirst : numeric_oi first = true)
    by (cbn [forallb] in H; apply andb_true_iff in H; tauto).
  unfold Market.open_interest_summary. cbv zeta.
  destruct (rmap_open_interest _ H) as (vs & Hvs & Hvn & Hlen).
  rewrite Hvs. cbn [rbind]. rewrite (filter_numeric vs Hvn).
  destruct vs as [|x [|y vs]]; try discriminate Hlen.
  cbn [List.length Nat.leb].
  destruct (numeric_oi_inv _ Hlast) as ((c & Hc & Hcn) & (cv & Hcv) & (d2 & Hd2)).
  destruct (numeric_oi_inv _ Hfirst) as ((o & Ho & Hon) & _ & (d1 & Hd1)).
  rewrite Hc. cbn [rbind]. rewrite Ho. cbn [rbind].
  destruct (numeric_inv c Hcn) as [qc Hqc]. destruct (numeric_inv o Hon) as [qo Hqo].
  unfold sub at 1. rewrite Hqc, Hqo. cbn [rbind].
  assert (Hpct : exists pct,
             (if ne_zero o
              then let* r := div (PNum (qc - qo)) o in mul_num r 100
              else Ret (PNum 0)) = Ret pct
             /\ (ne_zero o = false -> pct = PNum 0)).
  { destruct (ne_zero o) eqn:Hz; [|eauto].
    unfold div, num_div. cbn [as_num]. rewrite Hqo.
    unfold ne_zero in Hz. rewrite Hqo in Hz. apply negb_true_iff in Hz. rewrite Hz.
    cbn [rbind mul_num as_num]. eexists. split; [reflexivity|discriminate]. }
  destruct Hpct as (pct & Hpct & Hzero). rewrite Hpct. cbn [rbind].
  rewrite Hcv. cbn [rbind].
  cbn [forallb] in Hvn. apply andb_true_iff in Hvn. destruct Hvn as [Hx Hvn].
  destruct (max_from_numeric (y :: vs) x Hx Hvn) as (mx & Hmx & _).
  unfold max. rewrite Hmx. cbn [rbind].
  destruct (min_from_numeric (y :: vs) x Hx Hvn) as (mn & Hmn & _).
  unfold min. rewrite Hmn. cbn [rbind].
  assert (Hall : forallb numeric (x :: y :: vs) = true)
    by (cbn [forallb]; now rewrite Hx).
  destruct (sum_from_numeric (x :: y :: vs) (PNum 0) eq_refl Hall) as (tv & Htv & Htn).
  unfold sum. rewrite Htv. cbn [rbind].
  destruct (numeric_inv tv Htn) as [qt Hqt].
  unfold div, num_div, of_nat. cbn [as_num]. rewrite Hqt.
  rewrite of_nat_succ_nonzero. cbn [rbind].
  rewrite Hd1. cbn [rbind]. rewrite Hd2. cbn [rbind].
  eexists. exists o, pct. split; [reflexivity|]. split; [reflexivity|].
  split; [reflexivity|exact Hzero].
Qed.

(** C8. Derived percentage fields are zero-guarded. The statistics of
    [get_kline_data], [get_open_interest_data], [get_funding_rate] and
    [batch_search_market_news] never raise a division by zero, whatever the
    upstream response; when the first candle's open price is 0 the computed
    [price_change_percent] is 0, and when the baseline open interest is 0
    the computed [oi_change_percentage] is 0. Both fields are computed: on
    candles made of numbers the statistics of [get_kline_data] are always
    returned with their [price_change_percent], and on two or more rows
    with a number for the open interest the statistics of
    [get_open_interest_data] are always returned with their
    [oi_change_percentage]. *)
Theorem percentages_zero_guarded :
  (forall klines, no_zero_division (Market.kline_summary klines))
  /\ (forall rows, no_zero_division (Market.open_interest_summary rows))
  /\ (forall rows, no_zero_division (Market.funding_rate_summary rows))
  /\ (forall count st, no_zero_division (News.batch_summary count st))
  /\ (forall first rest base summary,
        getitem (PDict first) "open" = Ret base ->
        ne_zero base = false ->
        Market.kline_summary (first :: rest) = Ret summary ->
        lookup "price_change_percent" summary = Some (PNum 0))
  /\ (forall first rest base summary,
        getitem (PDict first) "open_interest" = Ret base ->
        ne_zero base = false ->
        Market.open_interest_summary (first :: rest) = Ret summary ->
        summary = [] \/ lookup "oi_change_percentage" summary = Some (PNum 0))
  /\ (forall first rest,
        forallb numeric_kline (first :: rest) = true ->
        exists summary base,
          Market.kline_summary (first :: rest) = Ret summary
          /\ getitem (PDict first) "open" = Ret base
          /\ (ne_zero base = false ->
              lookup "price_change_percent" summary = Some (PNum 0)))
  /\ (forall first second rest,
        forallb numeric_oi (first :: second :: rest) = true ->
        exists summary base pct,
          Market.open_interest_summary (first :: second :: rest) = Ret summary
          /\ getitem (PDict first) "open_interest" = Ret base
          /\ lookup "oi_change_percentage" summary = Some pct
          /\ (ne_zero base = false -> pct = PNum 0)).
Proof.
  repeat match goal with |- _ /\ _ => split end.
  - apply kline_summary_no_zero_division.
  - apply open_interest_summary_no_zero_division.
  - apply funding_rate_summary_no_zero_division.
  - apply batch_summary_no_zero_division.
  - apply kline_zero_open.
  - apply open_interest_zero_baseline.
  - apply kline_summary_returns.
  - apply open_interest_summary_returns.
Qed.

(** Two candles, the first one opening at 0; three open-interest rows,
    the first one at 0. *)
Lemma percentages_zero_guarded_witness :
  (exists summary,
     Market.kline_summary
       [[("datetime", PStr "2023-11-14 22:13:20"); ("open", PNum 0); ("high", PNum 5);
         ("low", PNum 0); ("close", PNum 3); ("volume", PNum 10)];
        [("datetime", PStr "2023-11-14 22:14:20"); ("open", PNum 3); ("high", PNum 6);
         ("low", PNum 2); ("close", PNum 4); ("volume", PNum 12)]]
     = Ret summary
     /\ lookup "price_change" summary = Some (PNum 4)
     /\ lookup "price_change_percent" summary = Some (PNum 0))
  /\ (exists summary,
        Market.open_interest_summary
          [[("timestamp", PNum 1700000000000); ("datetime", PStr "2023-11-14 22:13:20");
            ("open_interest", PNum 0); ("open_interest_value", PNone)];
           [("timestamp", PNum 1700003600000); ("datetime", PStr "2023-11-14 23:13:20");
            ("open_interest", PNum 120); ("open_interest_value", PNum 4200000)];
           [("timestamp", PNum 1700007200000); ("datetime", PStr "2023-11-15 00:13:20");
            ("open_interest", PNum 150); ("open_interest_value", PNum 5250000)]]
        = Ret summary
        /\ lookup "oi_change" summary = Some (PNum 150)
        /\ lookup "oi_change_percentage" summary = Some (PNum 0)).
Proof.
  split.
  - eexists. split; [vm_compute; reflexivity|]. split; [reflexivity|].
    refine (proj1 (proj2 (proj2 (proj2 (proj2 percentages_zero_guarded))))
              [("datetime", PStr "2023-11-14 22:13:20"); ("open", PNum 0); ("high", PNum 5);
               ("low", PNum 0); ("close", PNum 3); ("volume", PNum 10)]
              [[("datetime", PStr "2023-11-14 22:14:20"); ("open", PNum 3); ("high", PNum 6);
                ("low", PNum 2); ("close", PNum 4); ("volume", PNum 12)]]
              (PNum 0) _ eq_refl eq_refl _).
    vm_compute; reflexivity.
  - destruct (proj2 (proj2 (proj2 (proj2 (proj2 (proj2 (proj2
                percentages_zero_guarded))))))
                [("timestamp", PNum 1700000000000); ("datetime", PStr "2023-11-14 22:13:20");
                 ("open_interest", PNum 0); ("open_interest_value", PNone)]
                [("timestamp", PNum 1700003600000); ("datetime", PStr "2023-11-14 23:13:20");
                 ("open_interest", PNum 120); ("open_interest_value", PNum 4200000)]
                [[("timestamp", PNum 1700007200000); ("datetime", PStr "2023-11-15 00:13:20");
                  ("open_interest", PNum 150); ("open_interest_value", PNum 5250000)]]
                eq_refl)
      as (summary & base & pct & Hs & Hb & Hl & Hz).
    exists summary. split; [exact Hs|].
    inversion Hb; subst base. rewrite (Hz eq_refl) in Hl.
    split; [|exact Hl].
    vm_compute in Hs. inversion Hs. reflexivity.
Defined.

(* ------------------------------------------------------------------ *)
(** ** Rounding of futures orders *)

Lemma pow10_pos d : 0 < pow10 d.
Proof.
  unfold pow10, Qlt. simpl. rewrite Z.mul_1_r.
  apply Z.pow_pos_nonneg; lia.
Qed.

Lemma floor_to_precision_digits x precision d :
  Trade.precision_digits precision = Some d ->
  Trade.floor_to_precision x precision = floor (x * pow10 d) / pow10 d.
Proof. unfold Trade.floor_to_precision. now intros ->. Qed.

(** What [contracts_and_price] returns. *)
Lemma contracts_and_price_inv W market amount price sheet limit_price :
  Trade.contracts_and_price W market amount price = Ret (sheet, limit_price) ->
  exists contract_size c precision amount_step price_step,
    getitem market "contractSize" = Ret contract_size
    /\ as_num contract_size = Some c /\ ~ c == 0
    /\ getitem market "precision" = Ret precision
    /\ getitem precision "amount" = Ret amount_step
    /\ getitem precision "price" = Ret price_step
    /\ sheet = Trade.floor_to_precision (amount / c) (str W amount_step)
    /\ limit_price = Trade.floor_to_precision price (str W price_step).
Proof.
  unfold Trade.contracts_and_price. intros H.
  destruct (getitem market "contractSize") as [cs|] eqn:Ecs; cbn [rbind] in H;
    [|discriminate H].
  unfold num_div in H. cbn [as_num] in H.
  destruct (as_num cs) as [c|] eqn:Ec; [|discriminate H].
  destruct (Qeq_bool c 0) eqn:Ez; [discriminate H|]. cbn [rbind] in H.
  destruct (getitem market "precision") as [pr|] eqn:Epr; cbn [rbind] in H;
    [|discriminate H].
  destruct (getitem pr "amount") as [a|] eqn:Ea; cbn [rbind] in H; [|discriminate H].
  destruct (getitem pr "price") as [p|] eqn:Ep; cbn [rbind] in H; [|discriminate H].
  inversion H; subst. exists cs, c, pr, a, p. repeat split; auto.
  intros Hc. apply Qeq_bool_iff in Hc. congruence.
Qed.

Lemma futures_order_trace W symbol side amount price exchange_name :
  futures_order_operations W symbol amount price
    (snd (run (Trade.place_futures_order W symbol side amount price exchange_name))).
Proof.
  unfold run, Trade.place_futures_order. cbv zeta.
  destruct (blank symbol); [left; reflexivity|].
  destruct (negb (has_char ":" symbol)); [left; reflexivity|].
  destruct (is_empty side || _); [left; reflexivity|].
  destruct (Qle_bool amount 0) eqn:Ha; [left; reflexivity|].
  change (is_empty "limit" || negb (mem (lower (strip "limit")) ["limit"; "market"]))
    with false.
  change (String.eqb (lower (strip "limit")) "limit") with true.
  cbv iota. cbn [andb].
  destruct (Qle_bool price 0) eqn:Hp; [left; reflexivity|].
  destruct (blank exchange_name); [left; reflexivity|].
  rewrite snd_try_except by (intros e; quiet_run).
  destruct (Trade._get_api_credentials W _) as [[api_key secret] password].
  destruct (is_empty api_key || is_empty secret); [left; reflexivity|].
  unfold Trade._get_exchange.
  destruct (negb (mem _ Trade.SUPPORTED_EXCHANGES)); [left; reflexivity|].
  cbv zeta. set (ex0 := Trade.new_exchange W _ _ _ _).
  unfold bind at 1 2. unfold exchange_call at 1.
  destruct (exchange_answer W [] (LoadMarkets ex0)) as [markets|e];
    [|right; left; exists ex0; reflexivity].
  cbv iota beta. unfold ret at 1. cbv iota beta.
  unfold bind at 1. unfold lift at 1. cbn [Trade.with_markets ex_markets].
  destruct (getitem markets (upper (strip symbol))) as [market|e] eqn:Em;
    [|right; left; exists ex0; reflexivity].
  unfold bind at 1. unfold lift at 1.
  destruct (Trade.contracts_and_price W market amount price) as [[sheet lp]|e] eqn:Ec;
    [|right; left; exists ex0; reflexivity].
  rewrite snd_bind_quiet by (intros a; quiet_run).
  right; right. exists ex0, markets, market, sheet, lp. do 2 eexists.
  repeat split; first [eassumption | reflexivity].
Qed.

(** On a market with a numeric, non-zero contract size and both
    precisions the conversion succeeds. *)
Lemma contracts_and_price_returns W market amount price contract_size c
      precision amount_step price_step :
  getitem market "contractSize" = Ret contract_size ->
  as_num contract_size = Some c -> ~ c == 0 ->
  getitem market "precision" = Ret precision ->
  getitem precision "amount" = Ret amount_step ->
  getitem precision "price" = Ret price_step ->
  Trade.contracts_and_price W market amount price
  = Ret (Trade.floor_to_precision (amount / c) (str W amount_step),
         Trade.floor_to_precision price (str W price_step)).
Proof.
  intros Hcs Hc Hnz Hp Ha Hpr. unfold Trade.contracts_and_price.
  rewrite Hcs. cbn [rbind]. unfold num_div. cbn [as_num]. rewrite Hc.
  destruct (Qeq_bool c 0) eqn:Ez; [apply Qeq_bool_iff in Ez; contradiction|].
  cbn [rbind]. rewrite Hp. cbn [rbind]. rewrite Ha. cbn [rbind]. rewrite Hpr.
  reflexivity.
Qed.

(** With valid arguments, credentials, markets that load and a market
    whose conversion succeeds, the limit order is submitted. *)
Lemma futures_order_submitted W symbol side amount price exchange_name
      markets market sheet limit_price :
  let name := lower (strip exchange_name) in
  let api_key := getenv_or_empty W (upper name ++ "_API_KEY") in
  let secret := getenv_or_empty W (upper name ++ "_SECRET") in
  let password := getenv_or_empty W (upper name ++ "_PASSWORD") in
  let ex := Trade.new_exchange W name api_key secret password in
  blank symbol = false ->
  has_char ":" symbol = true ->
  mem (lower (strip side)) ["open_long"; "open_short"; "close_long"; "close_short"] = true ->
  0 < amount -> 0 < price ->
  blank exchange_name = false ->
  mem name Trade.SUPPORTED_EXCHANGES = true ->
  is_empty api_key = false -> is_empty secret = false ->
  exchange_answer W [] (LoadMarkets ex) = Ret markets ->
  getitem markets (upper (strip symbol)) = Ret market ->
  Trade.contracts_and_price W market amount price = Ret (sheet, limit_price) ->
  exists params,
    snd (run (Trade.place_futures_order W symbol side amount price exchange_name))
    = [LoadMarkets ex;
       CreateLimitOrder (Trade.with_markets ex markets) (upper (strip symbol))
         (Trade.new_side (lower (strip side))) sheet limit_price params].
Proof.
  intros name api_key secret password ex Hsym Hcolon Hside Ha Hp Hex Hsup Hkey Hsec
         Hload Hmarket Hconv.
  unfold run, Trade.place_futures_order. cbv zeta.
  rewrite Hsym, Hcolon, Hside, (mem_nonempty side _ Hside eq_refl),
    (Qle_bool_pos_false _ Ha), (Qle_bool_pos_false _ Hp), Hex.
  change (is_empty "limit" || negb (mem (lower (strip "limit")) ["limit"; "market"]))
    with false.
  change (String.eqb (lower (strip "limit")) "limit") with true.
  cbv iota. cbn [negb orb andb].
  rewrite snd_try_except by (intros e; quiet_run).
  unfold Trade._get_api_credentials.
  fold name. fold api_key secret password. rewrite Hkey, Hsec. cbn [orb].
  assert (Hl : lower name = name) by apply lower_idem.
  unfold Trade._get_exchange. rewrite Hl, Hsup.
  cbn [negb]. fold ex.
  unfold bind at 1 2. unfold exchange_call at 1. rewrite Hload. cbv iota beta.
  unfold ret at 1. cbv iota beta.
  unfold bind at 1. unfold lift at 1. cbn [Trade.with_markets ex_markets].
  rewrite Hmarket.
  unfold bind at 1. unfold lift at 1. rewrite Hconv.
  rewrite snd_bind_quiet by (intros a; quiet_run).
  eexists. reflexivity.
Qed.

Lemma Qfloor_unit y : 0 <= y -> y < 1 -> Qfloor y = 0%Z.
Proof.
  intros H0 H1.
  pose proof (Qfloor_le y) as Hl. pose proof (Qlt_floor y) as Hu.
  assert (L : (Qfloor y < 1)%Z).
  { rewrite Zlt_Qlt. eapply Qle_lt_trans; [exact Hl|exact H1]. }
  assert (U : (0 < Qfloor y + 1)%Z).
  { rewrite Zlt_Qlt. eapply Qle_lt_trans; [exact H0|exact Hu]. }
  lia.
Qed.

(** C10 (the code departs from the claim). The limit price of
    [place_futures_order] is floored to the digits [str] writes after the
    point of the market's price precision, and to an integer when [str]
    writes no point: whenever a limit order is submitted, the requested
    price is positive, the precision read is [precision['price']] of the
    market of the order, and, if its [str] has no point, the submitted
    price is [math.floor(price)], which is 0 for a requested price below 1.
    Python writes a precision below 0.0001 with an exponent ([1e-05]), so
    on such a market the price is not floored to the market's precision:
    the order goes out at an integer price. *)
Theorem futures_order_price_floored_to_integer W symbol side amount price exchange_name
        ex sym order_side contracts limit_price params :
  In (CreateLimitOrder ex sym order_side contracts limit_price params)
     (snd (run (Trade.place_futures_order W symbol side amount price exchange_name))) ->
  exists market precision price_step,
    getitem (ex_markets ex) sym = Ret market
    /\ getitem market "precision" = Ret precision
    /\ getitem precision "price" = Ret price_step
    /\ 0 < price
    /\ (has_char "." (str W price_step) = false ->
        limit_price = floor price
        /\ (price < 1 -> limit_price = 0)).
Proof.
  intros Hin.
  destruct (futures_order_trace W symbol side amount price exchange_name)
    as [E|[(ex0 & E)|(ex0 & markets & market & sheet & lp & os & ps & Hm & Hc & Ha & Hp & E)]];
    rewrite E in Hin.
  - destruct Hin.
  - destruct Hin as [Hin|[]]. discriminate Hin.
  - destruct Hin as [Hin|[Hin|[]]]; [discriminate Hin|].
    inversion Hin; subst; clear Hin.
    apply contracts_and_price_inv in Hc.
    destruct Hc as (cs & c & pr & a & p & _ & _ & _ & Hpr & _ & Hprice & _ & Hl).
    assert (Hpos : 0 < price).
    { destruct (Qlt_le_dec 0 price) as [H|H]; [exact H|].
      apply Qle_bool_iff in H. congruence. }
    exists market, pr, p.
    split; [exact Hm|]. split; [exact Hpr|]. split; [exact Hprice|].
    split; [exact Hpos|].
    intros Hdot. unfold Trade.floor_to_precision, Trade.precision_digits in Hl.
    rewrite Hdot in Hl. split; [exact Hl|].
    intros Hlt. rewrite Hl. unfold floor.
    rewrite (Qfloor_unit price); [reflexivity|now apply Qlt_le_weak|exact Hlt].
Qed.

(** 100 units at 0.12345 on a market with contract size 1 and a price
    precision of 0.00001, which [str] writes [1e-05]: the order is
    submitted at price 0. *)
Lemma futures_order_price_floored_to_integer_witness :
  Trade.precision_digits (str TickSize.world (PNum (1 # 100000))) = None
  /\ exists ex contracts params,
       In (CreateLimitOrder ex "DOGE/USDT:USDT" "buy" contracts 0 params)
          (snd (run (Trade.place_futures_order TickSize.world "doge/usdt:usdt"
                       "open_long" 100 (12345 # 100000) "binance"))).
Proof.
  split; [reflexivity|].
  assert (Hin : exists ex contracts limit_price params,
             In (CreateLimitOrder ex "DOGE/USDT:USDT" "buy" contracts limit_price params)
                (snd (run (Trade.place_futures_order TickSize.world "doge/usdt:usdt"
                             "open_long" 100 (12345 # 100000) "binance")))
             /\ getitem (ex_markets ex) "DOGE/USDT:USDT" = Ret TickSize.swap_market).
  { do 4 eexists. split; [vm_compute; right; left; reflexivity|reflexivity]. }
  destruct Hin as (ex & contracts & limit_price & params & Hin & Hmarket).
  destruct (futures_order_price_floored_to_integer _ _ _ _ _ _ _ _ _ _ _ _ Hin)
    as (market & precision & price_step & Hm & Hp & Hs & _ & Hfloor).
  rewrite Hmarket in Hm. inversion Hm; subst market.
  vm_compute in Hp. inversion Hp; subst precision.
  vm_compute in Hs. inversion Hs; subst price_step.
  destruct (Hfloor eq_refl) as (_ & Hzero).
  rewrite (Hzero eq_refl) in Hin.
  exists ex, contracts, params. exact Hin.
Defined.

(* ------------------------------------------------------------------ *)
(** ** The polling loop of [get_market_data] *)

Section PollingProofs.
Variable W : World.
Variable last_id : string.

Let request := News.newsflash_request last_id.
Let passes := News.failed_passes last_id.

Lemma passes_shift tr0 k :
  (((tr0 ++ [request]) ++ [Sleep 5]) ++ passes k)%list
  = (tr0 ++ passes (S k))%list.
Proof. unfold passes. simpl. now rewrite <- !app_assoc. Qed.

(** What a run that reaches [Finished] looks like, from each control
    point. *)
Lemma finished_inv s s' :
  News.poll_steps W last_id s s' ->
  forall r tr, s' = (News.Finished r, tr) ->
  match s with
  | (News.Requesting, tr0) => News.returns_after W last_id tr0 r tr
  | (News.Backoff _, tr0) => News.returns_after W last_id (tr0 ++ [Sleep 5])%list r tr
  | (News.Fetched data, tr0) => r = News.tbody_of data /\ tr = tr0
  | (News.Finished r0, tr0) => r = r0 /\ tr = tr0
  end.
Proof.
  induction 1 as [s|s1 s2 s3 Hstep Hsteps IH]; intros r tr Hs'.
  - subst s. split; reflexivity.
  - specialize (IH r tr Hs'). destruct Hstep as [tr0 data Ha|tr0 e Ha|tr0 e|tr0 data].
    + destruct IH as [-> ->]. exists 0%nat, data. simpl.
      rewrite app_nil_r. repeat split; auto. intros i Hi. lia.
    + destruct IH as (k & data & Hfail & Hok & Hr & Htr).
      exists (S k), data. rewrite <- passes_shift. repeat split; auto.
      * intros [|i] Hi.
        -- exists e. simpl. now rewrite app_nil_r.
        -- fold passes. rewrite <- passes_shift. apply Hfail. lia.
      * rewrite Htr. fold request passes. simpl. now rewrite <- !app_assoc.
    + exact IH.
    + exact IH.
Qed.

(** After [k] failed passes and a successful one the loop returns. *)
Lemma finished_after k : forall tr0 data,
  (forall i, (i < k)%nat -> exists e, News.attempt W last_id (tr0 ++ passes i)%list = Exc e) ->
  News.attempt W last_id (tr0 ++ passes k)%list = Ret data ->
  News.poll_steps W last_id (News.Requesting, tr0)
    (News.Finished (News.tbody_of data), (tr0 ++ passes k ++ [request])%list).
Proof.
  induction k as [|k IH]; intros tr0 data Hfail Hok.
  - simpl in *. rewrite app_nil_r in Hok.
    eapply News.steps_step; [apply News.step_fetched; exact Hok|].
    eapply News.steps_step; [apply News.step_return|]. apply News.steps_refl.
  - destruct (Hfail 0%nat) as [e He]; [lia|]. simpl in He. rewrite app_nil_r in He.
    eapply News.steps_step; [apply News.step_failed; exact He|].
    eapply News.steps_step; [apply News.step_sleep|].
    replace (tr0 ++ passes (S k) ++ [request])%list
      with (((tr0 ++ [request]) ++ [Sleep 5]) ++ passes k ++ [request])%list
      by (unfold passes; simpl; now rewrite <- !app_assoc).
    apply IH.
    + intros i Hi. rewrite passes_shift. apply Hfail. lia.
    + now rewrite passes_shift.
Qed.

(** The loop run with fuel agrees with the step relation. *)
Lemma get_market_data_steps fuel : forall tr0 r tr,
  News.get_market_data W last_id fuel tr0 = Some (r, tr) ->
  News.poll_steps W last_id (News.Requesting, tr0) (News.Finished r, tr).
Proof.
  induction fuel as [|fuel IH]; intros tr0 r tr H; simpl in H; [discriminate|].
  destruct (News.attempt W last_id tr0) as [data|e] eqn:Ha.
  - inversion H; subst.
    eapply News.steps_step; [apply News.step_fetched; exact Ha|].
    eapply News.steps_step; [apply News.step_return|]. apply News.steps_refl.
  - eapply News.steps_step; [apply News.step_failed; exact Ha|].
    eapply News.steps_step; [apply News.step_sleep|]. apply IH. exact H.
Qed.

(** When a pass succeeds after [k] failures, [k + 1] passes of fuel
    are enough. *)
Lemma get_market_data_enough_fuel k : forall tr0 data fuel,
  (forall i, (i < k)%nat -> exists e, News.attempt W last_id (tr0 ++ passes i)%list = Exc e) ->
  News.attempt W last_id (tr0 ++ passes k)%list = Ret data ->
  (k < fuel)%nat ->
  News.get_market_data W last_id fuel tr0
  = Some (News.tbody_of data, (tr0 ++ passes k ++ [request])%list).
Proof.
  induction k as [|k IH]; intros tr0 data fuel Hfail Hok Hfuel;
    (destruct fuel as [|fuel]; [lia|]); simpl.
  - simpl in Hok. rewrite app_nil_r in Hok. now rewrite Hok.
  - destruct (Hfail 0%nat) as [e He]; [lia|]. simpl in He. rewrite app_nil_r in He.
    rewrite He.
    etransitivity;
      [apply (IH ((tr0 ++ [request]) ++ [Sleep 5])%list data fuel)|].
    + intros i Hi. rewrite passes_shift. apply Hfail. lia.
    + now rewrite passes_shift.
    + lia.
    + do 2 f_equal. unfold passes. simpl. now rewrite <- !app_assoc.
Qed.

(** While every pass fails the loop goes on: no amount of fuel makes
    it return. *)
Lemma get_market_data_never_gives_up fuel : forall tr0,
  (forall i, exists e, News.attempt W last_id (tr0 ++ passes i)%list = Exc e) ->
  News.get_market_data W last_id fuel tr0 = None.
Proof.
  induction fuel as [|fuel IH]; intros tr0 Hfail; simpl; [reflexivity|].
  destruct (Hfail 0%nat) as [e He]. simpl in He. rewrite app_nil_r in He. rewrite He.
  apply IH. intros i. rewrite passes_shift. apply Hfail.
Qed.
End PollingProofs.

(** C9. The news-feed polling helper [get_market_data] retries for ever
    on a failed request, with a fixed 5-second sleep, and returns only
    after some attempt succeeds. As a step relation over the outcomes of
    its attempts: a run from the start reaches the returned state with
    result [r] and operations [tr] if and only if, for some [k], the first
    [k] attempts failed, each followed by a 5-second sleep and a new
    request, attempt [k] succeeded with a body [data], [r] is
    [data['data']['tbody']] and [tr] is [k] times (request, sleep 5)
    followed by the last request. The loop of [get_market_data] itself, run
    with fuel, returns exactly those results: it returns [r] with [tr] for
    some amount of fuel if and only if the same holds; when attempt [k] is
    the first to succeed, every amount of fuel above [k] gives that result;
    and while every attempt fails no amount of fuel makes it return, so a
    failed request is never turned into a returned result. *)
Theorem polling_returns_iff_some_attempt_succeeds W last_id r tr :
  (News.poll_steps W last_id (News.Requesting, []) (News.Finished r, tr)
   <-> News.returns_after W last_id [] r tr)
  /\ ((exists fuel, News.get_market_data W last_id fuel [] = Some (r, tr))
      <-> News.returns_after W last_id [] r tr)
  /\ (forall k data fuel,
        (forall i, (i < k)%nat ->
                   exists e, News.attempt W last_id (News.failed_passes last_id i) = Exc e) ->
        News.attempt W last_id (News.failed_passes last_id k) = Ret data ->
        (k < fuel)%nat ->
        News.get_market_data W last_id fuel []
        = Some (News.tbody_of data,
                (News.failed_passes last_id k ++ [News.newsflash_request last_id])%list))
  /\ ((forall i, exists e,
          News.attempt W last_id (News.failed_passes last_id i) = Exc e) ->
      forall fuel, News.get_market_data W last_id fuel [] = None).
Proof.
  assert (Hsteps : News.poll_steps W last_id (News.Requesting, []) (News.Finished r, tr)
                   <-> News.returns_after W last_id [] r tr).
  { split.
    - intros H. exact (finished_inv W last_id _ _ H r tr eq_refl).
    - intros (k & data & Hfail & Hok & -> & ->). now apply finished_after. }
  split; [exact Hsteps|]. split; [|split].
  - split.
    + intros (fuel & H). apply Hsteps. now apply (get_market_data_steps W last_id fuel).
    + intros (k & data & Hfail & Hok & -> & ->). exists (S k).
      apply (get_market_data_enough_fuel W last_id k [] data (S k));
        [exact Hfail|exact Hok|lia].
  - intros k data fuel Hfail Hok Hfuel.
    now apply (get_market_data_enough_fuel W last_id k [] data fuel).
  - intros Hfail fuel.
    now apply (get_market_data_never_gives_up W last_id fuel []).
Qed.

(** Two timeouts, then an answer: the step relation reaches the returned
    state, and the loop returns with three passes of fuel and not with
    two. *)
Lemma polling_returns_iff_some_attempt_succeeds_witness :
  News.poll_steps Examples.flaky "" (News.Requesting, [])
    (News.Finished (Ret (PList [PDict [("title", PStr "BTC")]])),
     (News.failed_passes "" 2 ++ [News.newsflash_request ""])%list)
  /\ News.get_market_data Examples.flaky "" 3 []
     = Some (Ret (PList [PDict [("title", PStr "BTC")]]),
             (News.failed_passes "" 2 ++ [News.newsflash_request ""])%list)
  /\ News.get_market_data Examples.flaky "" 2 [] = None.
Proof.
  assert (Hfail : forall i, (i < 2)%nat ->
            exists e, News.attempt Examples.flaky "" (News.failed_passes "" i) = Exc e).
  { intros i Hi. exists (RequestTimeout "read timed out").
    destruct i as [|[|i]]; [reflexivity|reflexivity|lia]. }
  split; [|split].
  - apply (proj2 (proj1 (polling_returns_iff_some_attempt_succeeds
                           Examples.flaky "" _ _))).
    exists 2%nat, Examples.newsflash_body. repeat split. exact Hfail.
  - apply (proj1 (proj2 (proj2 (polling_returns_iff_some_attempt_succeeds
                                  Examples.flaky "" (Ret PNone) [])))
             2%nat Examples.newsflash_body 3%nat Hfail eq_refl).
    lia.
  - reflexivity.
Defined.
(* ------------------------------------------------------------------ *)
(** ** The validation guard and the keyword filter *)

Lemma append_empty s : s ++ EmptyString = s.
Proof. induction s as [|a s IH]; [reflexivity|]. cbn [append]. now rewrite IH. Qed.

Lemma concat_cons w l : String.concat "" (w :: l) = w ++ String.concat "" l.
Proof. destruct l; cbn [String.concat]; [now rewrite append_empty|reflexivity]. Qed.

(** Membership in [whitespace], decided. *)
Lemma in_whitespace w :
  existsb (String.eqb w) whitespace = true -> In w whitespace.
Proof.
  intros H. apply existsb_exists in H. destruct H as (x & Hx & E).
  apply String.eqb_eq in E. now subst.
Qed.

Lemma is_space_whitespace a :
  is_space a = true -> In (String a EmptyString) whitespace.
Proof.
  intros H. apply in_whitespace.
  destruct a as [[] [] [] [] [] [] [] []]; try discriminate H; reflexivity.
Qed.

Lemma is_space2_whitespace a b :
  is_space2 a b = true -> In (String a (String b EmptyString)) whitespace.
Proof.
  intros H. apply in_whitespace.
  destruct a as [[] [] [] [] [] [] [] []]; try discriminate H;
    destruct b as [[] [] [] [] [] [] [] []]; try discriminate H; reflexivity.
Qed.

Lemma is_space3_whitespace a b c :
  is_space3 a b c = true ->
  In (String a (String b (String c EmptyString))) whitespace.
Proof.
  intros H. apply in_whitespace.
  destruct a as [[] [] [] [] [] [] [] []]; try discriminate H;
    destruct b as [[] [] [] [] [] [] [] []]; try discriminate H;
    destruct c as [[] [] [] [] [] [] [] []]; try discriminate H; reflexivity.
Qed.

(** A string that starts with whitespace starts with one of the
    characters of [whitespace]. *)
Lemma head_space_whitespace s t :
  head_space s = Some t -> exists w, In w whitespace /\ s = w ++ t.
Proof.
  destruct s as [|a s1]; [discriminate|]. cbn [head_space].
  destruct (is_space a) eqn:E1.
  { intros H. inversion H; subst.
    exists (String a EmptyString). split; [now apply is_space_whitespace|reflexivity]. }
  destruct s1 as [|b s2]; [discriminate|].
  destruct (is_space2 a b) eqn:E2.
  { intros H. inversion H; subst.
    exists (String a (String b EmptyString)).
    split; [now apply is_space2_whitespace|reflexivity]. }
  destruct s2 as [|c s3]; [discriminate|].
  destruct (is_space3 a b c) eqn:E3; [|discriminate].
  intros H. inversion H; subst.
  exists (String a (String b (String c EmptyString))).
  split; [now apply is_space3_whitespace|reflexivity].
Qed.

Lemma whitespace_all_space w rest :
  In w whitespace -> all_space (w ++ rest) = all_space rest.
Proof.
  intros H. cbv in H.
  repeat (destruct H as [<-|H]; [reflexivity|]). destruct H.
Qed.

Lemma all_space_whitespace s :
  all_space s = true <->
  exists chars,
    (forall c, In c chars -> In c whitespace) /\ s = String.concat "" chars.
Proof.
  split.
  - induction s as [s IH] using string_length_ind. intros H.
    destruct s as [|a s1]; [exists []; split; [intros c []|reflexivity]|].
    rewrite all_space_head_space in H.
    destruct (head_space (String a s1)) as [t|] eqn:E; [|discriminate H].
    destruct (IH t (head_space_length _ _ E) H) as (chars & Hchars & ->).
    destruct (head_space_whitespace _ _ E) as (w & Hw & Hs).
    exists (w :: chars). split.
    + intros c [<-|Hc]; auto.
    + now rewrite concat_cons.
  - intros (chars & Hchars & ->).
    induction chars as [|w chars IH]; [reflexivity|].
    rewrite concat_cons, whitespace_all_space by (apply Hchars; now left).
    apply IH. intros c Hc. apply Hchars. now right.
Qed.

Lemma blank_all_space s : blank s = all_space s.
Proof.
  unfold blank, strip. rewrite rstrip_empty, all_space_lstrip.
  destruct s; reflexivity.
Qed.

(** X1. The guard [not s or not s.strip()] of the input validators turns
    a string down exactly when it is made of whitespace characters only,
    the empty string included: the characters [str.isspace] accepts,
    U+0009-U+000D, U+001C-U+0020, U+0085, U+00A0, U+1680, U+2000-U+200A,
    U+2028, U+2029, U+202F, U+205F and U+3000. *)
Theorem blank_iff_whitespace (s : string) :
  blank s = true <->
  exists chars,
    (forall c, In c chars -> In c whitespace) /\ s = String.concat "" chars.
Proof. rewrite blank_all_space. apply all_space_whitespace. Qed.

Lemma blank_strip k : blank k = false -> blank (strip k) = false.
Proof.
  unfold blank. rewrite strip_idem.
  destruct (is_empty k); [discriminate|]. simpl.
  now destruct (is_empty (strip k)).
Qed.

(** X2. The keywords [batch_search_market_news] searches for are the
    stripped non-blank entries of its argument, in order: an entry is
    dropped when it is blank and kept, stripped, when it is not; the
    keywords of a list followed by another are those of the first followed
    by those of the second, so no entry is lost, none is added and the
    order is kept; every keyword searched is non-blank and free of
    surrounding whitespace, and is the stripped form of a non-blank
    entry. *)
Theorem valid_keywords_are_stripped :
  News.valid_keywords_of [] = []
  /\ (forall k, News.valid_keywords_of [k] = if blank k then [] else [strip k])
  /\ (forall front back,
        News.valid_keywords_of (front ++ back)
        = (News.valid_keywords_of front ++ News.valid_keywords_of back)%list)
  /\ (forall keywords k,
        In k (News.valid_keywords_of keywords) <->
        exists entry, In entry keywords /\ blank entry = false /\ k = strip entry)
  /\ (forall keywords k, In k (News.valid_keywords_of keywords) ->
                         blank k = false /\ strip k = k)
  /\ (forall keywords,
        (List.length (News.valid_keywords_of keywords) <= List.length keywords)%nat).
Proof.
  unfold News.valid_keywords_of. split; [reflexivity|]. split.
  { intros k. cbn [filter]. now destruct (blank k). }
  split.
  { intros front back. now rewrite filter_app, map_app. }
  split.
  { intros keywords k. rewrite in_map_iff. split.
    - intros (entry & <- & Hin). apply filter_In in Hin. destruct Hin as (Hin & Hb).
      apply negb_true_iff in Hb. exists entry. auto.
    - intros (entry & Hin & Hb & ->). exists entry. split; [reflexivity|].
      apply filter_In. split; [exact Hin|]. now rewrite Hb. }
  split.
  { intros keywords k Hk. apply in_map_iff in Hk. destruct Hk as (k0 & <- & H0).
    apply filter_In in H0. destruct H0 as (_ & Hb).
    apply negb_true_iff in Hb. split; [now apply blank_strip|apply strip_idem]. }
  intros keywords. rewrite length_map. apply filter_length_le.
Qed.

(* ------------------------------------------------------------------ *)
(** ** Flooring to the precision of a market *)

(** X5. Flooring to a precision is monotone: a larger requested amount
    or price is never submitted as a smaller one. *)
Theorem floor_to_precision_monotone (x y : Q) (precision : string) :
  x <= y ->
  Trade.floor_to_precision x precision <= Trade.floor_to_precision y precision.
Proof.
  intros H. unfold Trade.floor_to_precision.
  assert (F : forall a b, a <= b -> floor a <= floor b).
  { intros a b Hab. unfold floor. rewrite <- Zle_Qle. now apply Qfloor_resp_le. }
  destruct (Trade.precision_digits precision) as [d|]; [|now apply F].
  pose proof (pow10_pos d) as Hp.
  apply Qmult_le_compat_r; [|apply Qlt_le_weak, Qinv_lt_0_compat, Hp].
  apply F. apply Qmult_le_compat_r; [exact H|apply Qlt_le_weak, Hp].
Qed.

Lemma floor_to_precision_monotone_witness :
  Trade.floor_to_precision (1234 # 1000) "0.01"
  <= Trade.floor_to_precision (1239 # 1000) "0.01".
Proof.
  apply (floor_to_precision_monotone (1234 # 1000) (1239 # 1000) "0.01").
  vm_compute. discriminate.
Defined.

(* ------------------------------------------------------------------ *)
(** ** The statistics of the market tools *)

Lemma rmap_numeric_rows (P : dict -> bool) key rows :
  (forall r, P r = true -> exists v, lookup key r = Some v /\ numeric v = true) ->
  forallb P rows = true ->
  exists vs, rmap (fun r => getitem (PDict r) key) rows = Ret vs
             /\ forallb numeric vs = true
             /\ List.length vs = List.length rows.
Proof.
  intros HP. induction rows as [|r rows IH]; intros H; [simpl; eauto|].
  cbn [forallb] in H. apply andb_true_iff in H. destruct H as [Hr H].
  destruct (HP r Hr) as (v & Hv & Hn). destruct (IH H) as (vs & Hvs & Hns & Hlen).
  cbn [rmap getitem]. rewrite Hv. cbn [rbind]. cbn [getitem] in Hvs. rewrite Hvs.
  cbn [rbind]. exists (v :: vs). cbn [forallb List.length]. rewrite Hn, Hns, Hlen. auto.
Qed.

Lemma numeric_rate_inv r :
  numeric_rate r = true -> exists v, lookup "rate" r = Some v /\ numeric v = true.
Proof.
  unfold numeric_rate, num_of, numeric. destruct (lookup "rate" r) as [v|]; [|discriminate].
  intros H. exists v. split; [reflexivity|]. now destruct (as_num v).
Qed.

Lemma numeric_not_none vs :
  forallb numeric vs = true -> filter (fun v => negb (is_none v)) vs = vs.
Proof.
  induction vs as [|v vs IH]; [reflexivity|]. cbn [forallb filter]. intros H.
  apply andb_true_iff in H. destruct H as [Hv H]. rewrite (IH H).
  destruct v; try discriminate Hv; reflexivity.
Qed.

(** A rational is positive, negative or zero, and only one of them. *)
Lemma sign_cases q :
  (negb (Qle_bool q 0), negb (Qle_bool 0 q), Qeq_bool q 0) = (true, false, false)
  \/ (negb (Qle_bool q 0), negb (Qle_bool 0 q), Qeq_bool q 0) = (false, true, false)
  \/ (negb (Qle_bool q 0), negb (Qle_bool 0 q), Qeq_bool q 0) = (false, false, true).
Proof.
  destruct q as [n d]. unfold Qle_bool, Qeq_bool. simpl.
  rewrite Z.mul_1_r.
  destruct (Z.leb_spec n 0), (Z.leb_spec 0 n), (Z.eqb_spec n 0); simpl; auto; lia.
Qed.

Lemma sign_counts rates : forall pos neg,
  forallb numeric rates = true ->
  rmap (fun r => lt (PNum 0) r) rates = Ret pos ->
  rmap (fun r => lt r (PNum 0)) rates = Ret neg ->
  (List.length (filter id pos) + List.length (filter id neg)
   + List.length (filter (fun r => negb (ne_zero r)) rates)
   = List.length rates)%nat.
Proof.
  induction rates as [|v rates IH]; intros pos neg Hn Hp Hm.
  - simpl in Hp, Hm. inversion Hp; inversion Hm. reflexivity.
  - cbn [forallb] in Hn. apply andb_true_iff in Hn. destruct Hn as [Hv Hn].
    cbn [rmap] in Hp, Hm.
    destruct (numeric_inv v Hv) as [q Hq].
    assert (Hlt1 : lt (PNum 0) v = Ret (negb (Qle_bool q 0)))
      by (destruct v; try discriminate Hv; simpl in *; inversion Hq; subst; reflexivity).
    assert (Hlt2 : lt v (PNum 0) = Ret (negb (Qle_bool 0 q)))
      by (destruct v; try discriminate Hv; simpl in *; inversion Hq; subst; reflexivity).
    rewrite Hlt1 in Hp. rewrite Hlt2 in Hm. cbn [rbind] in Hp, Hm.
    destruct (rmap (fun r => lt (PNum 0) r) rates) as [ps|] eqn:Eps; [|discriminate Hp].
    destruct (rmap (fun r => lt r (PNum 0)) rates) as [ns|] eqn:Ens; [|discriminate Hm].
    cbn [rbind] in Hp, Hm. inversion Hp; inversion Hm; subst.
    specialize (IH ps ns Hn eq_refl eq_refl).
    unfold id in *. cbn [filter]. unfold ne_zero at 1. rewrite Hq, negb_involutive.
    destruct (sign_cases q) as [E|[E|E]]; injection E as E1 E2 E3;
      rewrite E1, E2, E3; cbn [List.length]; lia.
Qed.

(** X6. The sign counts of the funding-rate statistics (lines 893-904 of
    [get_funding_rate]) partition the rates: when every processed rate is
    a number and the statistics are computed, [positive_count],
    [negative_count] and [zero_count] add up to the number of rates. *)
Theorem funding_rate_counts_partition (first : dict) (rest : list dict) (summary : dict) :
  forallb numeric_rate (first :: rest) = true ->
  Market.funding_rate_summary (first :: rest) = Ret summary ->
  exists p n z,
    lookup "positive_count" summary = Some (of_nat p)
    /\ lookup "negative_count" summary = Some (of_nat n)
    /\ lookup "zero_count" summary = Some (of_nat z)
    /\ (p + n + z = List.length (first :: rest))%nat.
Proof.
  intros Hn H.
  destruct (rmap_numeric_rows numeric_rate "rate" (first :: rest) numeric_rate_inv Hn)
    as (vs & Hvs & Hvn & Hlen).
  unfold Market.funding_rate_summary in H. cbv zeta in H.
  rewrite Hvs in H. cbn [rbind] in H. rewrite (numeric_not_none vs Hvn) in H.
  destruct vs as [|v vs]; [discriminate Hlen|].
  returns_inv H.
  do 3 eexists. repeat split. rewrite <- Hlen.
  match goal with
  | P : rmap (fun r => lt (PNum 0) r) _ = Ret _,
    N : rmap (fun r => lt r (PNum 0)) _ = Ret _ |- _ =>
      exact (sign_counts (v :: vs) _ _ Hvn P N)
  end.
Qed.

Lemma funding_rate_counts_partition_witness :
  exists summary,
    Market.funding_rate_summary
      [[("rate", PNum (1 # 10000))]; [("rate", PNum (- (2 # 10000)))];
       [("rate", PNum 0)]] = Ret summary
    /\ exists p n z,
         lookup "positive_count" summary = Some (of_nat p)
         /\ lookup "negative_count" summary = Some (of_nat n)
         /\ lookup "zero_count" summary = Some (of_nat z)
         /\ (p + n + z = 3)%nat.
Proof.
  eexists. split; [vm_compute; reflexivity|].
  apply (funding_rate_counts_partition
           [("rate", PNum (1 # 10000))]
           [[("rate", PNum (- (2 # 10000)))]; [("rate", PNum 0)]]);
    reflexivity.
Defined.

Lemma rmap_getitem_in key rows : forall vs,
  rmap (fun r => getitem (PDict r) key) rows = Ret vs ->
  (forall r, In r rows -> exists v, lookup key r = Some v /\ In v vs)
  /\ (forall v, In v vs -> exists r, In r rows /\ lookup key r = Some v).
Proof.
  induction rows as [|r rows IH]; intros vs H.
  - inversion H. split; intros x [].
  - cbn [rmap] in H.
    destruct (getitem (PDict r) key) as [v|] eqn:Ev; cbn [rbind] in H; [|discriminate H].
    destruct (rmap (fun r => getitem (PDict r) key) rows) as [ws|] eqn:Ews;
      cbn [rbind] in H; [|discriminate H].
    inversion H; subst. destruct (IH ws eq_refl) as [I1 I2].
    cbn [getitem] in Ev. destruct (lookup key r) as [v'|] eqn:Ev'; [|discriminate Ev].
    inversion Ev; subst v'. clear Ev. rename Ev' into Ev. split.
    + intros r0 [<-|Hr]; [exists v; split; [exact Ev|now left]|].
      destruct (I1 r0 Hr) as (w & Hw & Hin). exists w. split; [exact Hw|now right].
    + intros w [<-|Hw]; [exists r; split; [now left|exact Ev]|].
      destruct (I2 w Hw) as (r0 & Hr & Hl). exists r0. split; [now right|exact Hl].
Qed.

Lemma lt_as_num a b qa qb :
  as_num a = Some qa -> as_num b = Some qb -> lt a b = Ret (negb (Qle_bool qb qa)).
Proof.
  intros Ha Hb. unfold lt. rewrite Ha, Hb.
  destruct a; try discriminate Ha; destruct b; try discriminate Hb; reflexivity.
Qed.

Lemma Qle_bool_false_le x y : Qle_bool x y = false -> y <= x.
Proof.
  intros H. apply Qlt_le_weak, Qnot_le_lt. intros L.
  apply Qle_bool_iff in L. congruence.
Qed.

(** [max]: the result is an element and bounds every element. *)
Lemma max_from_bound l : forall best qb,
  as_num best = Some qb -> forallb numeric l = true ->
  exists m qm, max_from best l = Ret m /\ as_num m = Some qm /\ In m (best :: l)
               /\ qb <= qm
               /\ (forall x qx, In x l -> as_num x = Some qx -> qx <= qm).
Proof.
  induction l as [|x l IH]; intros best qb Hb Hl.
  - exists best, qb. simpl. repeat split; auto using Qle_refl. intros x qx [].
  - cbn [forallb] in Hl. apply andb_true_iff in Hl. destruct Hl as [Hx Hl].
    destruct (numeric_inv x Hx) as [q Hq].
    cbn [max_from]. rewrite (lt_as_num best x qb q Hb Hq). cbn [rbind].
    destruct (Qle_bool q qb) eqn:Ec; cbn [negb].
    + destruct (IH best qb Hb Hl) as (m & qm & Hm & Hqm & Hin & Hle & Hall).
      exists m, qm. repeat split; auto.
      * destruct Hin as [<-|Hin]; [now left|now right; right].
      * intros y qy [<-|Hy] Hqy; [|eauto].
        rewrite Hq in Hqy. inversion Hqy; subst.
        apply Qle_bool_iff in Ec. eapply Qle_trans; eassumption.
    + destruct (IH x q Hq Hl) as (m & qm & Hm & Hqm & Hin & Hle & Hall).
      exists m, qm. repeat split; auto.
      * now right.
      * apply Qle_bool_false_le in Ec. eapply Qle_trans; eassumption.
      * intros y qy [<-|Hy] Hqy; [|eauto].
        rewrite Hq in Hqy. inversion Hqy; subst. exact Hle.
Qed.

Lemma min_from_bound l : forall best qb,
  as_num best = Some qb -> forallb numeric l = true ->
  exists m qm, min_from best l = Ret m /\ as_num m = Some qm /\ In m (best :: l)
               /\ qm <= qb
               /\ (forall x qx, In x l -> as_num x = Some qx -> qm <= qx).
Proof.
  induction l as [|x l IH]; intros best qb Hb Hl.
  - exists best, qb. simpl. repeat split; auto using Qle_refl. intros x qx [].
  - cbn [forallb] in Hl. apply andb_true_iff in Hl. destruct Hl as [Hx Hl].
    destruct (numeric_inv x Hx) as [q Hq].
    cbn [min_from]. rewrite (lt_as_num x best q qb Hq Hb). cbn [rbind].
    destruct (Qle_bool qb q) eqn:Ec; cbn [negb].
    + destruct (IH best qb Hb Hl) as (m & qm & Hm & Hqm & Hin & Hle & Hall).
      exists m, qm. repeat split; auto.
      * destruct Hin as [<-|Hin]; [now left|now right; right].
      * intros y qy [<-|Hy] Hqy; [|eauto].
        rewrite Hq in Hqy. inversion Hqy; subst.
        apply Qle_bool_iff in Ec. eapply Qle_trans; eassumption.
    + destruct (IH x q Hq Hl) as (m & qm & Hm & Hqm & Hin & Hle & Hall).
      exists m, qm. repeat split; auto.
      * now right.
      * apply Qle_bool_false_le in Ec. eapply Qle_trans; eassumption.
      * intros y qy [<-|Hy] Hqy; [|eauto].
        rewrite Hq in Hqy. inversion Hqy; subst. exact Hle.
Qed.

Lemma max_bound vs m :
  forallb numeric vs = true -> max vs = Ret m ->
  exists qm, as_num m = Some qm /\ In m vs
             /\ (forall x qx, In x vs -> as_num x = Some qx -> qx <= qm).
Proof.
  destruct vs as [|v vs]; [discriminate 2|]. cbn [forallb max]. intros Hn Hm.
  apply andb_true_iff in Hn. destruct Hn as [Hv Hn].
  destruct (numeric_inv v Hv) as [q Hq].
  destruct (max_from_bound vs v q Hq Hn) as (m' & qm & Hm' & Hqm & Hin & Hle & Hall).
  rewrite Hm' in Hm. inversion Hm; subst m'. exists qm. repeat split; auto.
  intros x qx [<-|Hx] Hqx; [|eauto]. rewrite Hq in Hqx. now inversion Hqx; subst.
Qed.

Lemma min_bound vs m :
  forallb numeric vs = true -> min vs = Ret m ->
  exists qm, as_num m = Some qm /\ In m vs
             /\ (forall x qx, In x vs -> as_num x = Some qx -> qm <= qx).
Proof.
  destruct vs as [|v vs]; [discriminate 2|]. cbn [forallb min]. intros Hn Hm.
  apply andb_true_iff in Hn. destruct Hn as [Hv Hn].
  destruct (numeric_inv v Hv) as [q Hq].
  destruct (min_from_bound vs v q Hq Hn) as (m' & qm & Hm' & Hqm & Hin & Hle & Hall).
  rewrite Hm' in Hm. inversion Hm; subst m'. exists qm. repeat split; auto.
  intros x qx [<-|Hx] Hqx; [|eauto]. rewrite Hq in Hqx. now inversion Hqx; subst.
Qed.

(** X7. The extremes of the K-line statistics (lines 736-752 of
    [get_kline_data]): on candles made of numbers, [highest_price] is the
    high of one of the candles and no candle has a higher high, and
    [lowest_price] is the low of one of the candles and no candle has a
    lower low. *)
Theorem kline_extremes (first : dict) (rest : list dict) (summary : dict) :
  forallb numeric_kline (first :: rest) = true ->
  Market.kline_summary (first :: rest) = Ret summary ->
  exists hi lo,
    num_of "highest_price" summary = Some hi
    /\ num_of "lowest_price" summary = Some lo
    /\ (exists k, In k (first :: rest) /\ num_of "high" k = Some hi)
    /\ (exists k, In k (first :: rest) /\ num_of "low" k = Some lo)
    /\ (forall k h l, In k (first :: rest) ->
          num_of "high" k = Some h -> num_of "low" k = Some l ->
          h <= hi /\ lo <= l).
Proof.
  intros Hn H.
  destruct (rmap_numeric_field "high" (first :: rest)) as (hs & Hhs & Hhn & _);
    [simpl; tauto|exact Hn|].
  destruct (rmap_numeric_field "low" (first :: rest)) as (ls & Hls & Hln & _);
    [simpl; tauto|exact Hn|].
  unfold Market.kline_summary in H. cbv zeta in H.
  do 4 returns_step H. rewrite Hhs in H. cbn [rbind] in H.
  returns_step H. rewrite Hls in H. cbn [rbind] in H.
  returns_inv H.
  match goal with
  | Hmax : max hs = Ret ?mx, Hmin : min ls = Ret ?mn |- _ =>
      destruct (max_bound hs mx Hhn Hmax) as (qh & Hqh & Hinh & Hallh);
      destruct (min_bound ls mn Hln Hmin) as (ql & Hql & Hinl & Halll)
  end.
  destruct (rmap_getitem_in "high" _ _ Hhs) as [Hh1 Hh2].
  destruct (rmap_getitem_in "low" _ _ Hls) as [Hl1 Hl2].
  exists qh, ql. unfold num_of. cbn [lookup String.eqb Ascii.eqb Bool.eqb].
  repeat split; try assumption.
  - destruct (Hh2 _ Hinh) as (k & Hk & Hlk). exists k. now rewrite Hlk.
  - destruct (Hl2 _ Hinl) as (k & Hk & Hlk). exists k. now rewrite Hlk.
  - destruct (Hh1 k H) as (v & Hv & Hin). rewrite Hv in H0. eauto.
  - destruct (Hl1 k H) as (v & Hv & Hin). rewrite Hv in H1. eauto.
Qed.

Lemma kline_extremes_witness :
  exists summary,
    Market.kline_summary example_klines = Ret summary
    /\ exists hi lo,
         num_of "highest_price" summary = Some hi
         /\ num_of "lowest_price" summary = Some lo
         /\ (exists k, In k example_klines /\ num_of "high" k = Some hi)
         /\ (exists k, In k example_klines /\ num_of "low" k = Some lo)
         /\ (forall k h l, In k example_klines ->
               num_of "high" k = Some h -> num_of "low" k = Some l ->
               h <= hi /\ lo <= l).
Proof.
  eexists. split; [vm_compute; reflexivity|].
  apply (kline_extremes (hd [] example_klines) (tl example_klines)); reflexivity.
Defined.

(* ------------------------------------------------------------------ *)
(** ** The volumes of [get_trades_data] *)

Lemma sided_trade_inv t :
  sided_trade t = true ->
  getitem (PDict t) "side" = Ret (side_of t)
  /\ getitem (PDict t) "amount" = Ret (amount_of t)
  /\ numeric (amount_of t) = true
  /\ (eq_str (side_of t) "buy" = true /\ eq_str (side_of t) "sell" = false
      \/ eq_str (side_of t) "buy" = false /\ eq_str (side_of t) "sell" = true).
Proof.
  unfold sided_trade, has_key, side_of, amount_of, num_of, numeric. cbn [getitem].
  destruct (lookup "side" t) as [s|]; [|discriminate].
  destruct (lookup "amount" t) as [a|]; [|now rewrite andb_false_r].
  destruct (as_num a); [|now rewrite andb_false_r].
  rewrite andb_true_r. cbn [andb]. intros H. repeat split.
  destruct s; try discriminate H. cbn [eq_str] in *.
  destruct (String.eqb_spec s "buy") as [->|Hb]; [left; split; reflexivity|].
  right. split; [reflexivity|exact H].
Qed.

Lemma amounts_of_side_all trades :
  forallb sided_trade trades = true ->
  Market.amounts_of_side None trades = Ret (map amount_of trades).
Proof.
  unfold Market.amounts_of_side. cbn [rbind].
  induction trades as [|t trades IH]; [reflexivity|]. cbn [forallb]. intros H.
  apply andb_true_iff in H. destruct H as [Ht H].
  destruct (sided_trade_inv t Ht) as (_ & Ha & _).
  cbn [rmap]. rewrite Ha. cbn [rbind]. rewrite (IH H). reflexivity.
Qed.

Lemma amounts_of_side_some s trades :
  forallb sided_trade trades = true ->
  Market.amounts_of_side (Some s) trades
  = Ret (map amount_of (filter (fun t => eq_str (side_of t) s) trades)).
Proof.
  intros H. unfold Market.amounts_of_side.
  assert (F : rmap (fun t => let* v := getitem (PDict t) "side" in Ret (eq_str v s, t))
                trades
              = Ret (map (fun t => (eq_str (side_of t) s, t)) trades)).
  { induction trades as [|t trades IH]; [reflexivity|]. cbn [forallb] in H.
    apply andb_true_iff in H. destruct H as [Ht H].
    destruct (sided_trade_inv t Ht) as (Hs & _).
    cbn [rmap]. rewrite Hs. cbn [rbind]. rewrite (IH H). reflexivity. }
  rewrite F. cbn [rbind].
  assert (K : map snd (filter fst (map (fun t => (eq_str (side_of t) s, t)) trades))
              = filter (fun t => eq_str (side_of t) s) trades).
  { clear. induction trades as [|t trades IH]; [reflexivity|]. cbn [map filter fst].
    destruct (eq_str (side_of t) s); cbn [map snd]; now rewrite IH. }
  assert (G : forall l, forallb sided_trade l = true ->
                        rmap (fun t => getitem (PDict t) "amount") l
                        = Ret (map amount_of l)).
  { intros l Hl. pose proof (amounts_of_side_all l Hl) as A.
    unfold Market.amounts_of_side in A. exact A. }
  transitivity (rmap (fun t => getitem (PDict t) "amount")
                  (filter (fun t => eq_str (side_of t) s) trades));
    [apply f_equal; exact K|].
  apply G. apply forallb_forall. intros t Hin. apply filter_In in Hin.
  rewrite forallb_forall in H. now apply H.
Qed.

Lemma sum_from_total l : forall a,
  forallb numeric l = true -> sum_from (PNum a) l = Ret (PNum (total_from a l)).
Proof.
  induction l as [|v l IH]; intros a H; [reflexivity|]. cbn [forallb] in H.
  apply andb_true_iff in H. destruct H as [Hv H].
  destruct (numeric_inv v Hv) as [q Hq].
  cbn [sum_from]. unfold add. cbn [as_num]. rewrite Hq. cbn [rbind].
  unfold total_from. cbn [fold_left]. rewrite Hq. now apply IH.
Qed.

(** The amounts of the buys followed by those of the sells are the
    amounts of all the trades, in another order. *)
Lemma sides_partition trades :
  forallb sided_trade trades = true ->
  Permutation (map amount_of trades)
    (map amount_of (filter (fun t => eq_str (side_of t) "buy") trades)
     ++ map amount_of (filter (fun t => eq_str (side_of t) "sell") trades)).
Proof.
  induction trades as [|t trades IH]; intros H; [constructor|].
  cbn [forallb] in H. apply andb_true_iff in H. destruct H as [Ht H].
  destruct (sided_trade_inv t Ht) as (_ & _ & _ & Hside).
  cbn [map filter]. destruct Hside as [[-> ->]|[-> ->]]; cbn [map app].
  - apply perm_skip. now apply IH.
  - apply Permutation_cons_app. now apply IH.
Qed.

Lemma amounts_numeric trades :
  forallb sided_trade trades = true -> forallb numeric (map amount_of trades) = true.
Proof.
  intros H. apply forallb_forall. intros v Hv. apply in_map_iff in Hv.
  destruct Hv as (t & <- & Ht). rewrite forallb_forall in H.
  now destruct (sided_trade_inv t (H t Ht)) as (_ & _ & Hn & _).
Qed.

Lemma filter_sided f trades :
  forallb sided_trade trades = true -> forallb sided_trade (filter f trades) = true.
Proof.
  intros H. apply forallb_forall. intros t Ht. apply filter_In in Ht.
  rewrite forallb_forall in H. now apply H.
Qed.

(** X8. The volumes of [get_trades_data] (lines 335-337): when every
    processed trade has a side of buy or sell and a number for amount,
    the three sums are computed; [sum_volume] adds the amounts of all the
    trades in order, [sum_buy] those of the buys and [sum_sell] those of
    the sells, and the amounts added into [sum_buy] and [sum_sell] are
    together the amounts added into [sum_volume], each trade counting on
    one side only. *)
Theorem trade_volumes_partition (trades : list dict) :
  forallb sided_trade trades = true ->
  exists buys sells all b s v,
    Market.amounts_of_side (Some "buy") trades = Ret buys
    /\ Market.amounts_of_side (Some "sell") trades = Ret sells
    /\ Market.amounts_of_side None trades = Ret all
    /\ buys = map amount_of (filter (fun t => eq_str (side_of t) "buy") trades)
    /\ sells = map amount_of (filter (fun t => eq_str (side_of t) "sell") trades)
    /\ all = map amount_of trades
    /\ Permutation all (buys ++ sells)
    /\ sum buys = Ret (PNum b) /\ sum sells = Ret (PNum s) /\ sum all = Ret (PNum v).
Proof.
  intros H.
  rewrite !amounts_of_side_some, amounts_of_side_all by exact H.
  do 6 eexists.
  repeat match goal with |- _ /\ _ => split end;
    try reflexivity; try (now apply sides_partition);
    unfold sum; apply sum_from_total, amounts_numeric;
    try apply filter_sided; exact H.
Qed.

Lemma trade_volumes_partition_witness :
  exists b s v,
    Market.amounts_of_side (Some "buy")
      [[("side", PStr "buy"); ("amount", PNum 2)];
       [("side", PStr "sell"); ("amount", PNum 3)];
       [("side", PStr "buy"); ("amount", PNum (1 # 2))]]
    = Ret [PNum 2; PNum (1 # 2)]
    /\ Market.amounts_of_side (Some "sell")
         [[("side", PStr "buy"); ("amount", PNum 2)];
          [("side", PStr "sell"); ("amount", PNum 3)];
          [("side", PStr "buy"); ("amount", PNum (1 # 2))]]
       = Ret [PNum 3]
    /\ Permutation [PNum 2; PNum 3; PNum (1 # 2)] ([PNum 2; PNum (1 # 2)] ++ [PNum 3])
    /\ sum [PNum 2; PNum (1 # 2)] = Ret (PNum b)
    /\ sum [PNum 3] = Ret (PNum s)
    /\ sum [PNum 2; PNum 3; PNum (1 # 2)] = Ret (PNum v).
Proof.
  destruct (trade_volumes_partition
              [[("side", PStr "buy"); ("amount", PNum 2)];
               [("side", PStr "sell"); ("amount", PNum 3)];
               [("side", PStr "buy"); ("amount", PNum (1 # 2))]] eq_refl)
    as (buys & sells & all & b & s & v & Hb & Hs & Ha & -> & -> & -> & Hp & Sb & Ss & Sv).
  exists b, s, v. repeat split; assumption.
Defined.

(* ------------------------------------------------------------------ *)
(** ** The operations of each tool *)

Section EmitsRules.
Context {A B : Type}.
Variable ok : call -> bool.

Lemma emits_quiet (m : Eff A) : quiet m -> emits ok m.
Proof.
  intros H tr. exists []. rewrite H, app_nil_r. split; reflexivity.
Qed.

Lemma emits_ret (a : A) : emits ok (ret a).
Proof. apply emits_quiet, quiet_ret. Qed.

Lemma emits_raise (e : exn) : emits ok (@raise A e).
Proof. apply emits_quiet, quiet_raise. Qed.

Lemma emits_lift (r : res A) : emits ok (lift r).
Proof. apply emits_quiet, quiet_lift. Qed.

Lemma emits_bind (m : Eff A) (k : A -> Eff B) :
  emits ok m -> (forall a, emits ok (k a)) -> emits ok (bind m k).
Proof.
  intros Hm Hk tr. unfold bind. destruct (Hm tr) as (ops & E & Hops).
  destruct (m tr) as [[a|e] tr']; simpl in E; subst tr'.
  - destruct (Hk a (tr ++ ops)%list) as (ops' & E' & Hops').
    exists (ops ++ ops')%list. rewrite E', app_assoc, forallb_app, Hops, Hops'.
    split; reflexivity.
  - exists ops. split; [reflexivity|exact Hops].
Qed.

Lemma emits_try_then (m : Eff A) (k : A -> Eff B) (h : exn -> Eff B) :
  emits ok m -> (forall a, emits ok (k a)) -> (forall e, emits ok (h e)) ->
  emits ok (News.try_then m k h).
Proof.
  intros Hm Hk Hh tr. unfold News.try_then. destruct (Hm tr) as (ops & E & Hops).
  destruct (m tr) as [[a|e] tr']; simpl in E; subst tr'.
  - destruct (Hk a (tr ++ ops)%list) as (ops' & E' & Hops').
    exists (ops ++ ops')%list. rewrite E', app_assoc, forallb_app, Hops, Hops'.
    split; reflexivity.
  - destruct (Hh e (tr ++ ops)%list) as (ops' & E' & Hops').
    exists (ops ++ ops')%list. rewrite E', app_assoc, forallb_app, Hops, Hops'.
    split; reflexivity.
Qed.
End EmitsRules.

Lemma emits_try_except {A} ok (body : Eff A) (h : exn -> Eff A) :
  emits ok body -> (forall e, emits ok (h e)) -> emits ok (try_except body h).
Proof.
  intros Hb Hh. apply (emits_try_then ok body (fun a => ret a) h); auto.
  intros a. apply emits_ret.
Qed.

Lemma emits_exchange_call ok W c : ok c = true -> emits ok (exchange_call W c).
Proof. intros H tr. exists [c]. simpl. now rewrite H. Qed.

Lemma emits_http_call ok W c : ok c = true -> emits ok (http_call W c).
Proof. intros H tr. exists [c]. simpl. now rewrite H. Qed.

Lemma emits_sleep ok s : ok (Sleep s) = true -> emits ok (sleep s).
Proof. intros H tr. exists [Sleep s]. simpl. now rewrite H. Qed.

Lemma emits_time ok W : emits ok (time_time W).
Proof. apply emits_quiet, quiet_time. Qed.

(** One step through a tool body, collecting its operations. *)
Ltac emits_step :=
  lazymatch goal with
  | |- emits _ (ret _) => apply emits_ret
  | |- emits _ (raise _) => apply emits_raise
  | |- emits _ (lift _) => apply emits_lift
  | |- emits _ (time_time _) => apply emits_time
  | |- emits _ (exchange_call _ _) => apply emits_exchange_call; reflexivity
  | |- emits _ (http_call _ _) => apply emits_http_call; reflexivity
  | |- emits _ (sleep _) => apply emits_sleep; reflexivity
  | |- emits _ (bind _ _) => apply emits_bind; [|intros]
  | |- emits _ (try_except _ _) => apply emits_try_except; [|intros]
  | |- emits _ (News.try_then _ _ _) => apply emits_try_then; [|intros|intros]
  | |- emits _ (if ?b then _ else _) => destruct b
  | |- emits _ (match ?x with _ => _ end) => destruct x
  | |- emits _ (let _ := _ in _) => cbv zeta
  end.

Ltac emits_run := repeat emits_step.

Lemma trade_get_exchange_emits ok W name key secret password :
  (forall ex, ok (LoadMarkets ex) = true) ->
  emits ok (Trade._get_exchange W name key secret password).
Proof.
  intros H. unfold Trade._get_exchange.
  destruct (negb _); [apply emits_raise|].
  apply emits_bind; [apply emits_exchange_call, H|intros; apply emits_ret].
Qed.

Lemma search_emits ok W k n :
  (forall u j t, ok (HttpPost u j t) = true) ->
  emits ok (News.search_market_news W k n).
Proof.
  intros H. unfold News.search_market_news.
  destruct (blank k); [apply emits_ret|]. cbv zeta.
  destruct (_ || _); [apply emits_ret|].
  apply emits_try_except; [|intros; emits_run].
  apply emits_bind; [apply emits_http_call, H|intros; emits_run].
Qed.

Lemma search_keywords_emits ok W n count ks :
  (forall u j t, ok (HttpPost u j t) = true) -> (forall s, ok (Sleep s) = true) ->
  forall st i, emits ok (News.search_keywords W n count st i ks).
Proof.
  intros Hp Hs. induction ks as [|k ks IH]; intros st i; simpl; [apply emits_ret|].
  apply emits_bind; [|intros; apply IH].
  unfold News.search_keyword, News.keyword_failed, News.record_result.
  apply emits_try_then; [|intros|intros; emits_run].
  - apply emits_bind; [now apply search_emits|intros; emits_run].
  - destruct a as [search_result status]. emits_run; apply emits_sleep, Hs.
Qed.

(** X9. Each tool function performs only the external operations it is
    written for, whatever its arguments and whatever the outside world
    answers: the market-data tools only the one fetch of their kind, the
    order tools only [load_markets] and [create_limit_order] (never a
    market order), [get_futures_open_orders] only [load_markets] and
    [fetch_open_orders], the news searches only HTTP POST requests (and,
    for the batch, the sleeps between them), [get_macro_data] only an HTTP
    GET. In particular no tool but the two order tools ever submits an
    order. *)
Theorem tool_footprint (W : World) (c : tool_call) :
  emits (allowed_ops c) (invoke W c).
Proof.
  destruct c; simpl invoke.
  - unfold Market.get_ticker_data. emits_run.
  - unfold Market.get_orderbook_data. emits_run.
  - unfold Market.get_trades_data. emits_run.
  - unfold Market.get_kline_data. emits_run.
  - unfold Market.get_open_interest_data. emits_run.
  - unfold Trade.place_spot_order. cbv zeta.
    change (String.eqb (lower (strip "limit")) "limit") with true. cbv iota.
    emits_run. apply trade_get_exchange_emits. reflexivity.
  - unfold Trade.place_futures_order. cbv zeta.
    change (String.eqb (lower (strip "limit")) "limit") with true. cbv iota.
    emits_run. apply trade_get_exchange_emits. reflexivity.
  - unfold Trade.get_futures_open_orders. emits_run.
    apply trade_get_exchange_emits. reflexivity.
  - apply search_emits. reflexivity.
  - unfold News.batch_search_market_news.
    destruct keywords; [apply emits_ret|].
    destruct (News.valid_keywords_of _); [apply emits_ret|]. cbv zeta.
    apply emits_bind; [apply search_keywords_emits; reflexivity|intros; emits_run].
  - unfold News.get_macro_data. emits_run.
Qed.

(* ------------------------------------------------------------------ *)
(** ** Errors of the exchange tools and what was sent *)

Lemma silent_ret r : silent_unless_tagged (ret r).
Proof. intros tr r' tr' H _. now inversion H. Qed.

Lemma silent_raise e : silent_unless_tagged (raise e).
Proof. intros tr r' tr' H _. discriminate H. Qed.

Lemma silent_tagged m :
  ensures m (fun r => has_field "metadata" r = true) anything ->
  silent_unless_tagged m.
Proof.
  intros Hm tr r tr' H Hno. specialize (Hm tr). rewrite H in Hm. simpl in Hm. congruence.
Qed.

Ltac silent_step :=
  lazymatch goal with
  | |- silent_unless_tagged (ret _) => apply silent_ret
  | |- silent_unless_tagged (raise _) => apply silent_raise
  | |- silent_unless_tagged (try_except _ _) => apply silent_tagged; ensures_run
  | |- silent_unless_tagged (if ?b then _ else _) => destruct b
  | |- silent_unless_tagged (match ?x with _ => _ end) => destruct x
  | |- silent_unless_tagged (let _ := _ in _) => cbv zeta
  end.

Ltac silent_run := repeat silent_step.

(** X10. An error of an exchange tool that carries no [metadata] is a
    validation failure and nothing was sent: whenever [get_ticker_data],
    [get_orderbook_data], [get_kline_data], [get_open_interest_data],
    [place_spot_order], [place_futures_order] or [get_futures_open_orders]
    returns a result without a [metadata] field, no external operation
    was performed during the call. *)
Theorem bare_error_means_nothing_sent (W : World) (c : tool_call)
        (tr0 : trace) (r : pyval) (tr : trace) :
  exchange_tool c = true ->
  invoke W c tr0 = (Ret r, tr) ->
  has_field "metadata" r = false ->
  tr = tr0.
Proof.
  intros Hc. revert tr0 r tr. change (silent_unless_tagged (invoke W c)).
  destruct c; try discriminate Hc; simpl invoke.
  - unfold Market.get_ticker_data. silent_run.
  - unfold Market.get_orderbook_data. silent_run.
  - unfold Market.get_kline_data. silent_run.
  - unfold Market.get_open_interest_data. silent_run.
  - unfold Trade.place_spot_order. silent_run.
  - unfold Trade.place_futures_order. silent_run.
  - unfold Trade.get_futures_open_orders. silent_run.
Qed.

Lemma bare_error_means_nothing_sent_witness :
  snd (invoke Examples.trading (PlaceSpotOrder "BTC/USDT" "hold" 1 50000 "binance") [])
  = [].
Proof.
  apply (bare_error_means_nothing_sent Examples.trading
           (PlaceSpotOrder "BTC/USDT" "hold" 1 50000 "binance") []
           (PDict [("status", PStr "error");
                   ("error_message", PStr "买卖方向必须是'buy'或'sell'")]));
    reflexivity.
Defined.

(** The same for the two tools outside [tool_call]. *)
Lemma symbol_info_silent W s e : silent_unless_tagged (Market.get_symbol_info W s e).
Proof. unfold Market.get_symbol_info. silent_run. Qed.

Lemma spot_open_orders_silent W s e :
  silent_unless_tagged (Trade.get_spot_open_orders W s e).
Proof. unfold Trade.get_spot_open_orders. silent_run. Qed.

Lemma quiet_try_except {A} (body : Eff A) (h : exn -> Eff A) :
  quiet body -> (forall e, quiet (h e)) -> quiet (try_except body h).
Proof.
  intros Hb Hh tr. rewrite snd_try_except by exact Hh. apply Hb.
Qed.


Section MissingCredentials.
Variable W : World.
Variable exchange_name : string.
Let name := upper (lower (strip exchange_name)).
Hypothesis missing :
  is_empty (getenv_or_empty W (name ++ "_API_KEY"))
  || is_empty (getenv_or_empty W (name ++ "_SECRET")) = true.




End MissingCredentials.



(** With the exchange turned down by [_get_exchange], the [try] body
    stops before its first operation. *)
Ltac quiet_unsupported :=
  repeat lazymatch goal with
    | |- quiet (ret _) => apply quiet_ret
    | |- quiet (raise _) => apply quiet_raise
    | |- quiet (bind (lift (Exc _)) _) => intros tr; reflexivity
    | |- quiet (bind (raise _) _) => intros tr; reflexivity
    | |- quiet (try_except _ _) => apply quiet_try_except; [|intros; quiet_run]
    | |- quiet (if ?b then _ else _) => destruct b
    | |- quiet (match ?x with _ => _ end) => destruct x
    | |- quiet (let _ := _ in _) => cbv zeta
    end.

Ltac refused_unsupported :=
  repeat lazymatch goal with
    | |- ensures (ret _) _ _ => apply ensures_ret; reflexivity
    | |- ensures (raise _) _ _ => apply ensures_raise; exact I
    | |- ensures (bind (lift (Exc _)) _) _ _ => intros tr; exact I
    | |- ensures (bind (raise _) _) _ _ => intros tr; exact I
    | |- ensures (try_except _ _) _ _ =>
        apply ensures_try_except; [|intros; ensures_run]
    | |- ensures (if ?b then _ else _) _ _ => destruct b
    | |- ensures (match ?x with _ => _ end) _ _ => destruct x
    | |- ensures (let _ := _ in _) _ _ => cbv zeta
    end.

Ltac turn_down H :=
  cbv zeta; unfold Market._get_exchange, Trade._get_exchange;
  change Trade.SUPPORTED_EXCHANGES with Market.SUPPORTED_EXCHANGES;
  rewrite ?lower_idem, ?H; cbn [negb]; cbv iota.

(** X12. An exchange outside the supported ones is never contacted:
    when the exchange name, stripped of its surrounding whitespace, is
    made of ASCII characters and, lower-cased, is neither binance nor okx,
    every exchange tool that validates its arguments returns an error
    result or raises without performing any external operation; this holds
    for [get_symbol_info] and [get_spot_open_orders] as well. The name is
    taken in ASCII because [str.lower] maps a few letters beyond ASCII to
    ASCII ones (U+212A to k), which [lower] leaves as they are. *)
Theorem unsupported_exchange_nothing_sent (W : World) (c : tool_call) (e : string) :
  exchange_tool c = true ->
  exchange_name_of c = Some e ->
  is_ascii (strip e) = true ->
  mem (lower (strip e)) Market.SUPPORTED_EXCHANGES = false ->
  quiet (invoke W c)
  /\ ensures (invoke W c) (fun r => status_is "error" r = true) anything
  /\ (forall s, quiet (Market.get_symbol_info W s e)
                /\ quiet (Trade.get_spot_open_orders W s e)).
Proof.
  intros Hc He _ H. repeat split.
  - destruct c; try discriminate Hc; inversion He; subst; simpl invoke.
    + unfold Market.get_ticker_data. turn_down H. quiet_unsupported.
    + unfold Market.get_orderbook_data. turn_down H. quiet_unsupported.
    + unfold Market.get_kline_data. turn_down H. quiet_unsupported.
    + unfold Market.get_open_interest_data. turn_down H. quiet_unsupported.
    + unfold Trade.place_spot_order. turn_down H. quiet_unsupported.
    + unfold Trade.place_futures_order. turn_down H. quiet_unsupported.
    + unfold Trade.get_futures_open_orders. turn_down H. quiet_unsupported.
  - destruct c; try discriminate Hc; inversion He; subst; simpl invoke.
    + unfold Market.get_ticker_data. turn_down H. refused_unsupported.
    + unfold Market.get_orderbook_data. turn_down H. refused_unsupported.
    + unfold Market.get_kline_data. turn_down H. refused_unsupported.
    + unfold Market.get_open_interest_data. turn_down H. refused_unsupported.
    + unfold Trade.place_spot_order. turn_down H. refused_unsupported.
    + unfold Trade.place_futures_order. turn_down H. refused_unsupported.
    + unfold Trade.get_futures_open_orders. turn_down H. refused_unsupported.
  - unfold Market.get_symbol_info. turn_down H. quiet_unsupported.
  - unfold Trade.get_spot_open_orders. turn_down H. quiet_unsupported.
Qed.

Lemma unsupported_exchange_nothing_sent_witness :
  quiet (invoke Examples.trading (GetTickerData "BTC/USDT" " Kraken "))
  /\ ensures (invoke Examples.trading (GetTickerData "BTC/USDT" " Kraken "))
             (fun r => status_is "error" r = true) anything
  /\ (forall s, quiet (Market.get_symbol_info Examples.trading s " Kraken ")
                /\ quiet (Trade.get_spot_open_orders Examples.trading s " Kraken ")).
Proof.
  apply (unsupported_exchange_nothing_sent Examples.trading
           (GetTickerData "BTC/USDT" " Kraken ") " Kraken "); reflexivity.
Defined.

(* ------------------------------------------------------------------ *)
(** ** Orders are submitted once *)

Lemma no_operation tr : exists ops, tr = (tr ++ ops)%list /\ order_operations ops.
Proof. exists []. rewrite app_nil_r. split; [reflexivity|left; reflexivity]. Qed.

Lemma only_load_markets tr ex :
  exists ops, (tr ++ [LoadMarkets ex])%list = (tr ++ ops)%list /\ order_operations ops.
Proof. exists [LoadMarkets ex]. split; [reflexivity|right; left; eauto]. Qed.

Lemma spot_order_operations W symbol side amount price exchange_name tr :
  exists ops,
    snd (Trade.place_spot_order W symbol side amount price exchange_name tr)
    = (tr ++ ops)%list
    /\ order_operations ops.
Proof.
  unfold Trade.place_spot_order. cbv zeta.
  destruct (blank symbol); [apply no_operation|].
  destruct (is_empty side || _); [apply no_operation|].
  destruct (Qle_bool amount 0); [apply no_operation|].
  change (is_empty "limit" || negb (mem (lower (strip "limit")) ["limit"; "market"]))
    with false.
  change (String.eqb (lower (strip "limit")) "limit") with true.
  cbv iota. cbn [andb].
  destruct (Qle_bool price 0); [apply no_operation|].
  destruct (blank exchange_name); [apply no_operation|].
  rewrite snd_try_except by (intros e; quiet_run).
  destruct (Trade._get_api_credentials W _) as [[api_key secret] password].
  destruct (is_empty api_key || is_empty secret); [apply no_operation|].
  unfold Trade._get_exchange.
  destruct (negb (mem _ Trade.SUPPORTED_EXCHANGES)); [apply no_operation|].
  cbv zeta. set (ex0 := Trade.new_exchange W _ _ _ _).
  unfold bind at 1 2. unfold exchange_call at 1.
  destruct (exchange_answer W tr (LoadMarkets ex0)) as [markets|e];
    [|apply only_load_markets].
  cbv iota beta. unfold ret at 1. cbv iota beta.
  rewrite snd_bind_quiet by (intros a; quiet_run).
  unfold exchange_call. cbn [snd]. rewrite <- app_assoc.
  eexists. split; [reflexivity|]. right; right. do 7 eexists. reflexivity.
Qed.

Lemma futures_order_operations_from W symbol side amount price exchange_name tr :
  exists ops,
    snd (Trade.place_futures_order W symbol side amount price exchange_name tr)
    = (tr ++ ops)%list
    /\ order_operations ops.
Proof.
  unfold Trade.place_futures_order. cbv zeta.
  destruct (blank symbol); [apply no_operation|].
  destruct (negb (has_char ":" symbol)); [apply no_operation|].
  destruct (is_empty side || _); [apply no_operation|].
  destruct (Qle_bool amount 0); [apply no_operation|].
  change (is_empty "limit" || negb (mem (lower (strip "limit")) ["limit"; "market"]))
    with false.
  change (String.eqb (lower (strip "limit")) "limit") with true.
  cbv iota. cbn [andb].
  destruct (Qle_bool price 0); [apply no_operation|].
  destruct (blank exchange_name); [apply no_operation|].
  rewrite snd_try_except by (intros e; quiet_run).
  destruct (Trade._get_api_credentials W _) as [[api_key secret] password].
  destruct (is_empty api_key || is_empty secret); [apply no_operation|].
  unfold Trade._get_exchange.
  destruct (negb (mem _ Trade.SUPPORTED_EXCHANGES)); [apply no_operation|].
  cbv zeta. set (ex0 := Trade.new_exchange W _ _ _ _).
  unfold bind at 1 2. unfold exchange_call at 1.
  destruct (exchange_answer W tr (LoadMarkets ex0)) as [markets|e];
    [|apply only_load_markets].
  cbv iota beta. unfold ret at 1. cbv iota beta.
  unfold bind at 1. unfold lift at 1. cbn [Trade.with_markets ex_markets].
  destruct (getitem markets (upper (strip symbol))) as [market|e];
    [|apply only_load_markets].
  unfold bind at 1. unfold lift at 1.
  destruct (Trade.contracts_and_price W market amount price) as [[sheet lp]|e];
    [|apply only_load_markets].
  rewrite snd_bind_quiet by (intros a; quiet_run).
  unfold exchange_call. cbn [snd]. rewrite <- app_assoc.
  eexists. split; [reflexivity|]. right; right. exists ex0, markets.
  do 5 eexists. reflexivity.
Qed.

(** X13. An order tool submits at most one order per call and never
    retries: the operations [place_spot_order] and [place_futures_order]
    add to the history are none at all, [load_markets] alone, or
    [load_markets] followed by exactly one [create_limit_order]; nothing
    follows the order, and no market order is ever created, although both
    bodies keep a branch for it. *)
Theorem order_submitted_at_most_once (W : World) (symbol side : string)
        (amount price : Q) (exchange_name : string) (tr : trace) :
  (exists ops,
     snd (Trade.place_spot_order W symbol side amount price exchange_name tr)
     = (tr ++ ops)%list
     /\ order_operations ops)
  /\ (exists ops,
        snd (Trade.place_futures_order W symbol side amount price exchange_name tr)
        = (tr ++ ops)%list
        /\ order_operations ops).
Proof.
  split; [apply spot_order_operations|apply futures_order_operations_from].
Qed.

(* ------------------------------------------------------------------ *)
(** ** An amount below one precision step *)

Lemma floor_digits_zero x d :
  0 <= x -> x * pow10 d < 1 -> floor (x * pow10 d) / pow10 d == 0.
Proof.
  intros H0 H1. unfold floor. rewrite Qfloor_unit; [reflexivity| |exact H1].
  apply Qmult_le_0_compat; [exact H0|apply Qlt_le_weak, pow10_pos].
Qed.

(** X14. [place_futures_order] does not check the contract count it
    computes: with valid arguments, credentials, markets that load and a
    market of contract size [c > 0] whose amount precision is written with
    [d] digits, a requested amount so small that [amount * 10^d < c] is
    floored to 0 contracts, and the limit order for 0 contracts is still
    submitted to the exchange. *)
Theorem small_amount_submits_zero_contracts (W : World) (symbol side : string)
        (amount price : Q) (exchange_name : string)
        (markets market contract_size precision amount_step price_step : pyval)
        (c : Q) (d : nat) :
  let name := lower (strip exchange_name) in
  let api_key := getenv_or_empty W (upper name ++ "_API_KEY") in
  let secret := getenv_or_empty W (upper name ++ "_SECRET") in
  let password := getenv_or_empty W (upper name ++ "_PASSWORD") in
  let ex := Trade.new_exchange W name api_key secret password in
  blank symbol = false ->
  has_char ":" symbol = true ->
  mem (lower (strip side)) ["open_long"; "open_short"; "close_long"; "close_short"] = true ->
  0 < amount -> 0 < price ->
  blank exchange_name = false ->
  mem name Trade.SUPPORTED_EXCHANGES = true ->
  is_empty api_key = false -> is_empty secret = false ->
  exchange_answer W [] (LoadMarkets ex) = Ret markets ->
  getitem markets (upper (strip symbol)) = Ret market ->
  getitem market "contractSize" = Ret contract_size ->
  as_num contract_size = Some c -> 0 < c ->
  getitem market "precision" = Ret precision ->
  getitem precision "amount" = Ret amount_step ->
  getitem precision "price" = Ret price_step ->
  Trade.precision_digits (str W amount_step) = Some d ->
  amount * pow10 d < c ->
  exists contracts limit_price params,
    snd (run (Trade.place_futures_order W symbol side amount price exchange_name))
    = [LoadMarkets ex;
       CreateLimitOrder (Trade.with_markets ex markets) (upper (strip symbol))
         (Trade.new_side (lower (strip side))) contracts limit_price params]
    /\ contracts == 0.
Proof.
  intros name api_key secret password ex Hsym Hcolon Hside Ha Hp Hex Hsup Hkey Hsec
         Hload Hmarket Hcs Hc Hpos Hpr Has Hps Hd Hsmall.
  assert (Hnz : ~ c == 0) by (intros E; rewrite E in Hpos; discriminate Hpos).
  pose proof (contracts_and_price_returns W market amount price contract_size c
                precision amount_step price_step Hcs Hc Hnz Hpr Has Hps) as Hconv.
  destruct (futures_order_submitted W symbol side amount price exchange_name
              markets market _ _ Hsym Hcolon Hside Ha Hp Hex Hsup Hkey Hsec
              Hload Hmarket Hconv) as [params Htr].
  do 3 eexists. split; [exact Htr|].
  rewrite (floor_to_precision_digits _ _ d Hd). apply floor_digits_zero.
  - apply Qle_shift_div_l; [exact Hpos|]. rewrite Qmult_0_l. now apply Qlt_le_weak.
  - setoid_replace (amount / c * pow10 d) with (amount * pow10 d / c)
      by (field; exact Hnz).
    apply Qlt_shift_div_r; [exact Hpos|]. now rewrite Qmult_1_l.
Qed.

(** 0.0001 units on a market with contract size 0.01 and amount
    precision 0.1: an order for 0 contracts. *)
Lemma small_amount_submits_zero_contracts_witness :
  exists contracts limit_price params,
    snd (run (Trade.place_futures_order Examples.trading "BTC/USDT:USDT" "open_long"
                (1 # 10000) 50000 "okx"))
    = [LoadMarkets (Trade.new_exchange Examples.trading "okx" "key" "secret" "phrase");
       CreateLimitOrder
         (Trade.with_markets
            (Trade.new_exchange Examples.trading "okx" "key" "secret" "phrase")
            (PDict [("BTC/USDT:USDT", Examples.swap_market)]))
         "BTC/USDT:USDT" "buy" contracts limit_price params]
    /\ contracts == 0.
Proof.
  apply (small_amount_submits_zero_contracts Examples.trading "BTC/USDT:USDT"
           "open_long" (1 # 10000) 50000 "okx"
           (PDict [("BTC/USDT:USDT", Examples.swap_market)]) Examples.swap_market
           (PNum (1 # 100))
           (PDict [("amount", PNum (1 # 10)); ("price", PNum (1 # 100))])
           (PNum (1 # 10)) (PNum (1 # 100)) (1 # 100) 1);
    reflexivity.
Defined.

(* ------------------------------------------------------------------ *)
(** ** [get_symbol_info] *)

(** X15. What [get_symbol_info] hands back: whenever it returns, the
    result is a success with data and metadata, a validation error without
    metadata or an error with metadata, and the only external operation
    performed during the call is [load_markets]. *)
Theorem symbol_info_envelope (W : World) (symbol exchange_name : string)
        (tr0 : trace) (r : pyval) (tr : trace) :
  Market.get_symbol_info W symbol exchange_name tr0 = (Ret r, tr) ->
  shaped [Success; BareError; ErrorWithMetadata] r = true
  /\ exists ops, tr = (tr0 ++ ops)%list /\ forallb is_load_markets ops = true.
Proof.
  intros H.
  assert (E : ensures (Market.get_symbol_info W symbol exchange_name)
                (fun r => shaped [Success; BareError; ErrorWithMetadata] r = true)
                anything)
    by (unfold Market.get_symbol_info; ensures_run).
  assert (F : emits is_load_markets (Market.get_symbol_info W symbol exchange_name))
    by (unfold Market.get_symbol_info; emits_run).
  specialize (E tr0). specialize (F tr0). rewrite H in E, F. split; [exact E|exact F].
Qed.

Lemma symbol_info_envelope_witness :
  exists r tr,
    Market.get_symbol_info Listing.world "btc/usdt" "binance" [] = (Ret r, tr)
    /\ status_is "success" r = true
    /\ shaped [Success; BareError; ErrorWithMetadata] r = true
    /\ exists ops, tr = ([] ++ ops)%list /\ forallb is_load_markets ops = true.
Proof.
  do 2 eexists. split; [vm_compute; reflexivity|]. split; [reflexivity|].
  eapply (symbol_info_envelope Listing.world "btc/usdt" "binance" []).
  vm_compute. reflexivity.
Defined.

(** *** Inversion of a tool body that has returned *)

Section Inversion.
Context {A B : Type}.

Lemma bind_inv (m : Eff A) (k : A -> Eff B) tr r tr' :
  bind m k tr = (Ret r, tr') ->
  exists a tr1, m tr = (Ret a, tr1) /\ k a tr1 = (Ret r, tr').
Proof.
  unfold bind. destruct (m tr) as [[a|e] tr1]; [eauto|discriminate].
Qed.

Lemma try_except_inv (body : Eff A) (h : exn -> Eff A) tr r tr' :
  try_except body h tr = (Ret r, tr') ->
  body tr = (Ret r, tr')
  \/ exists e tr1, body tr = (Exc e, tr1) /\ h e tr1 = (Ret r, tr').
Proof.
  unfold try_except. destruct (body tr) as [[a|e] tr1]; [now left|right; eauto].
Qed.

Lemma lift_inv (x : res A) tr a tr1 :
  lift x tr = (Ret a, tr1) -> x = Ret a /\ tr1 = tr.
Proof. unfold lift. intros H. now inversion H. Qed.

Lemma ret_inv (x : A) tr a tr1 : ret x tr = (Ret a, tr1) -> a = x /\ tr1 = tr.
Proof. unfold ret. intros H. now inversion H. Qed.
End Inversion.

Lemma exchange_call_inv W c tr a tr1 :
  exchange_call W c tr = (Ret a, tr1) ->
  exchange_answer W tr c = Ret a /\ tr1 = (tr ++ [c])%list.
Proof. unfold exchange_call. intros H. now inversion H. Qed.

Lemma http_call_inv W c tr a tr1 :
  http_call W c tr = (Ret a, tr1) ->
  http_answer W tr c = Ret a /\ tr1 = (tr ++ [c])%list.
Proof. unfold http_call. intros H. now inversion H. Qed.

Lemma time_time_inv W tr a tr1 :
  time_time W tr = (Ret a, tr1) -> a = PNum (clock W tr) /\ tr1 = tr.
Proof. unfold time_time. intros H. now inversion H. Qed.

Ltac inv_step :=
  match goal with
  | H : bind _ _ _ = (Ret _, _) |- _ =>
      let a := fresh "a" in
      let t := fresh "tr" in
      let H1 := fresh "H" in
      apply bind_inv in H; destruct H as (a & t & H1 & H)
  | H : lift _ _ = (Ret _, _) |- _ =>
      let E := fresh "E" in apply lift_inv in H; destruct H as [H E]; subst
  | H : ret _ _ = (Ret _, _) |- _ =>
      let E := fresh "E" in
      let F := fresh "E" in apply ret_inv in H; destruct H as [E F]; subst
  | H : exchange_call _ _ _ = (Ret _, _) |- _ =>
      let E := fresh "E" in apply exchange_call_inv in H; destruct H as [H E]; subst
  | H : http_call _ _ _ = (Ret _, _) |- _ =>
      let E := fresh "E" in apply http_call_inv in H; destruct H as [H E]; subst
  | H : time_time _ _ = (Ret _, _) |- _ =>
      let E := fresh "E" in
      let F := fresh "E" in apply time_time_inv in H; destruct H as [E F]; subst
  | H : (if ?b then _ else _) _ = (Ret _, _) |- _ => destruct b eqn:?
  end.

Ltac inv_body := repeat inv_step.

(** X16. A success of [get_symbol_info] reports the market entry of the
    normalised symbol: the result has status success only if exactly one
    [load_markets] was performed, on the exchange of the stripped,
    lower-cased name, its answer has an entry under the stripped,
    upper-cased symbol, and each of the fields id, base, quote, active,
    type, spot, precision and limits of the data is the field of that
    entry. *)
Theorem symbol_info_success_reports_market (W : World) (symbol exchange_name : string)
        (tr0 : trace) (r : pyval) (tr : trace) :
  Market.get_symbol_info W symbol exchange_name tr0 = (Ret r, tr) ->
  status_is "success" r = true ->
  exists ex markets market,
    tr = (tr0 ++ [LoadMarkets ex])%list
    /\ ex_id ex = lower (strip exchange_name)
    /\ exchange_answer W tr0 (LoadMarkets ex) = Ret markets
    /\ getitem markets (upper (strip symbol)) = Ret market
    /\ (forall k, In k ["id"; "base"; "quote"; "active"; "type"; "spot";
                        "precision"; "limits"] ->
                  exists v, getitem market k = Ret v /\ path ["data"; k] r = Some v)
    /\ path ["metadata"; "symbol"] r = Some (PStr (upper (strip symbol))).
Proof.
  intros H Hs. unfold Market.get_symbol_info in H.
  destruct (blank symbol); [inv_body; discriminate Hs|].
  destruct (blank exchange_name); [inv_body; discriminate Hs|].
  cbv zeta in H. apply try_except_inv in H.
  destruct H as [H|(e & tr1 & _ & H)]; [|inv_body; discriminate Hs].
  inv_body; [discriminate Hs|].
  match goal with
  | G : Market._get_exchange _ _ _ _ = Ret _ |- _ =>
      unfold Market._get_exchange in G;
      destruct (negb (mem _ Market.SUPPORTED_EXCHANGES)); [discriminate G|];
      inversion G; subst; clear G
  end.
  match goal with
  | G : rbind _ _ = Ret _ |- _ => returns_inv G
  end.
  do 3 eexists. split; [reflexivity|]. split; [apply lower_idem|].
  split; [eassumption|]. split; [eassumption|]. split; [|reflexivity].
  intros k Hk. simpl in Hk.
  repeat (destruct Hk as [<-|Hk]; [eexists; split; [eassumption|reflexivity]|]).
  destruct Hk.
Qed.

Lemma symbol_info_success_reports_market_witness :
  exists r tr,
    Market.get_symbol_info Listing.world " btc/usdt " "Binance" [] = (Ret r, tr)
    /\ exists ex markets market,
         tr = [LoadMarkets ex]
         /\ ex_id ex = "binance"
         /\ exchange_answer Listing.world [] (LoadMarkets ex) = Ret markets
         /\ getitem markets "BTC/USDT" = Ret market
         /\ (forall k, In k ["id"; "base"; "quote"; "active"; "type"; "spot";
                             "precision"; "limits"] ->
                       exists v, getitem market k = Ret v
                                 /\ path ["data"; k] r = Some v)
         /\ path ["metadata"; "symbol"] r = Some (PStr "BTC/USDT").
Proof.
  do 2 eexists. split; [vm_compute; reflexivity|].
  apply (symbol_info_success_reports_market Listing.world " btc/usdt " "Binance" []);
    reflexivity.
Defined.

(* ------------------------------------------------------------------ *)
(** ** [get_spot_open_orders] *)

(** X17. What [get_spot_open_orders] hands back: whenever it returns,
    the result is a success, a validation error without metadata or an
    error with metadata, and the only external operations performed during
    the call are [load_markets] and [fetch_open_orders]. A blank symbol is
    no exception: where the futures counterpart raises on it, this tool
    asks for the open orders of every symbol. *)
Theorem spot_open_orders_envelope (W : World) (symbol exchange_name : string)
        (tr0 : trace) (r : pyval) (tr : trace) :
  Trade.get_spot_open_orders W symbol exchange_name tr0 = (Ret r, tr) ->
  shaped [Success; BareError; ErrorWithMetadata] r = true
  /\ exists ops, tr = (tr0 ++ ops)%list /\ forallb lists_orders ops = true.
Proof.
  intros H.
  assert (E : ensures (Trade.get_spot_open_orders W symbol exchange_name)
                (fun r => shaped [Success; BareError; ErrorWithMetadata] r = true)
                anything)
    by (unfold Trade.get_spot_open_orders; ensures_run).
  assert (F : emits lists_orders (Trade.get_spot_open_orders W symbol exchange_name)).
  { unfold Trade.get_spot_open_orders. emits_run.
    apply trade_get_exchange_emits. reflexivity. }
  specialize (E tr0). specialize (F tr0). rewrite H in E, F. split; [exact E|exact F].
Qed.

Lemma spot_open_orders_envelope_witness :
  exists r tr,
    Trade.get_spot_open_orders Listing.world "" "binance" [] = (Ret r, tr)
    /\ status_is "success" r = true
    /\ shaped [Success; BareError; ErrorWithMetadata] r = true
    /\ exists ops, tr = ([] ++ ops)%list /\ forallb lists_orders ops = true.
Proof.
  do 2 eexists. split; [vm_compute; reflexivity|]. split; [reflexivity|].
  eapply (spot_open_orders_envelope Listing.world "" "binance" []).
  vm_compute. reflexivity.
Defined.

Lemma is_empty_upper s : is_empty (upper s) = is_empty s.
Proof. now destruct s. Qed.

(** X18. What [get_spot_open_orders] asks the exchange: with a
    supported exchange name, configured credentials and markets that
    load, it performs [load_markets] and then one [fetch_open_orders],
    for the stripped, upper-cased symbol, or for every symbol when the
    symbol argument is blank. *)
Theorem spot_open_orders_request (W : World) (symbol exchange_name : string)
        (markets : pyval) :
  let name := lower (strip exchange_name) in
  let api_key := getenv_or_empty W (upper name ++ "_API_KEY") in
  let secret := getenv_or_empty W (upper name ++ "_SECRET") in
  let password := getenv_or_empty W (upper name ++ "_PASSWORD") in
  let ex := Trade.new_exchange W name api_key secret password in
  blank exchange_name = false ->
  mem name Trade.SUPPORTED_EXCHANGES = true ->
  is_empty api_key = false -> is_empty secret = false ->
  exchange_answer W [] (LoadMarkets ex) = Ret markets ->
  snd (run (Trade.get_spot_open_orders W symbol exchange_name))
  = [LoadMarkets ex;
     FetchOpenOrders (Trade.with_markets ex markets)
       (if blank symbol then None else Some (upper (strip symbol))) []].
Proof.
  intros name api_key secret password ex Hex Hsup Hkey Hsec Hload.
  unfold run, Trade.get_spot_open_orders. rewrite Hex. cbv zeta.
  rewrite snd_try_except by (intros e; quiet_run).
  unfold Trade._get_api_credentials.
  fold name. fold api_key secret password. rewrite Hkey, Hsec. cbn [orb].
  assert (Hl : lower name = name) by apply lower_idem.
  unfold Trade._get_exchange. rewrite Hl, Hsup.
  cbn [negb]. fold ex.
  unfold bind at 1 2. unfold exchange_call at 1. rewrite Hload. cbv iota beta.
  unfold ret at 1. cbv iota beta.
  rewrite snd_bind_quiet by (intros a; quiet_run).
  unfold blank.
  destruct (is_empty symbol); [reflexivity|].
  destruct (is_empty (strip symbol)) eqn:Es; [reflexivity|].
  cbn [negb andb orb truthy]. rewrite is_empty_upper, Es. reflexivity.
Qed.

Lemma spot_open_orders_request_witness :
  snd (run (Trade.get_spot_open_orders Listing.world "  " "binance"))
  = [LoadMarkets (Trade.new_exchange Listing.world "binance" "key" "secret" "");
     FetchOpenOrders
       (Trade.with_markets (Trade.new_exchange Listing.world "binance" "key" "secret" "")
          (PDict [("BTC/USDT", Listing.spot_market)]))
       None []].
Proof.
  apply (spot_open_orders_request Listing.world "  " "binance"
           (PDict [("BTC/USDT", Listing.spot_market)])); reflexivity.
Defined.

(* ------------------------------------------------------------------ *)
(** ** The depth of [get_orderbook_data] *)

(** Inversion of a tool body that returned a result of status success. *)
Ltac inv_success Hs :=
  repeat (first
    [ inv_step
    | match goal with
      | H : try_except _ _ _ = (Ret _, _) |- _ =>
          let e := fresh "e" in
          let t := fresh "tr" in
          apply try_except_inv in H; destruct H as [H|(e & t & _ & H)]
      end ];
    try discriminate Hs).

Lemma slice_to_length v n l :
  slice_to v n = Ret (PList l) -> (List.length l <= n)%nat.
Proof.
  destruct v; try discriminate; simpl; intros H; inversion H; subst.
  apply firstn_le_length.
Qed.

(** X19. The depth of a successful [get_orderbook_data] is bounded by
    the requested limit: the limit lies between 1 and 100, and the lists
    returned under [bids] and [asks] hold at most [limit] levels each,
    however many the exchange sent. *)
Theorem orderbook_depth_bounded (W : World) (symbol exchange_name : string)
        (limit : Z) (tr0 : trace) (r : pyval) (tr : trace) :
  Market.get_orderbook_data W symbol exchange_name limit tr0 = (Ret r, tr) ->
  status_is "success" r = true ->
  (1 <= limit <= 100)%Z
  /\ (forall side levels,
        In side ["bids"; "asks"] ->
        path ["data"; side] r = Some (PList levels) ->
        (Z.of_nat (List.length levels) <= limit)%Z).
Proof.
  intros H Hs. unfold Market.get_orderbook_data in H.
  inv_success Hs.
  match goal with
  | G : context [slice_to _ _] |- _ => returns_inv G
  end.
  match goal with
  | L : (limit <=? 0)%Z = false, U : (100 <? limit)%Z = false |- _ =>
      apply Z.leb_gt in L; apply Z.ltb_ge in U
  end.
  split; [lia|].
  intros side levels Hin Hp. simpl in Hin.
  destruct Hin as [<-|[<-|[]]]; simpl in Hp; inversion Hp; subst;
    match goal with
    | G : slice_to _ _ = Ret (PList levels) |- _ => apply slice_to_length in G; lia
    end.
Qed.

Lemma orderbook_depth_bounded_witness :
  exists r tr,
    Market.get_orderbook_data Listing.world "BTC/USDT" "binance" 2 [] = (Ret r, tr)
    /\ (1 <= 2 <= 100)%Z
    /\ (forall side levels,
          In side ["bids"; "asks"] ->
          path ["data"; side] r = Some (PList levels) ->
          (Z.of_nat (List.length levels) <= 2)%Z).
Proof.
  do 2 eexists. split; [vm_compute; reflexivity|].
  eapply (orderbook_depth_bounded Listing.world "BTC/USDT" "binance" 2 []);
    vm_compute; reflexivity.
Defined.

(* ------------------------------------------------------------------ *)
(** ** The requests of [search_market_news] *)

Lemma search_trace W keyword page_size tr :
  snd (News.search_market_news W keyword page_size tr)
  = if blank keyword || ((page_size <? 1)%Z || (100 <? page_size)%Z)
    then tr
    else (tr ++ [search_request keyword page_size])%list.
Proof.
  unfold News.search_market_news.
  destruct (blank keyword); [reflexivity|]. cbv zeta. cbn [orb].
  destruct ((page_size <? 1)%Z || (100 <? page_size)%Z); [reflexivity|].
  rewrite snd_try_except by (intros e; quiet_run).
  rewrite snd_bind_quiet; [reflexivity|].
  intros response. quiet_run.
Qed.

(** X20. [search_market_news] sends exactly one request when its
    arguments are valid and none otherwise: with a non-blank keyword and
    a page size within 1..100 the operations of the call are the single
    POST of the stripped keyword, page 1 and the page size, with a
    30-second timeout, whatever the endpoint answers (no retry); with a
    blank keyword or a page size outside 1..100 nothing is sent. *)
Theorem search_sends_one_request (W : World) (keyword : string) (page_size : Z)
        (tr : trace) :
  snd (News.search_market_news W keyword page_size tr)
  = if blank keyword || ((page_size <? 1)%Z || (100 <? page_size)%Z)
    then tr
    else (tr ++ [search_request keyword page_size])%list.
Proof.
  unfold News.search_market_news.
  destruct (blank keyword); [reflexivity|]. cbv zeta. cbn [orb].
  destruct ((page_size <? 1)%Z || (100 <? page_size)%Z); [reflexivity|].
  rewrite snd_try_except by (intros e; quiet_run).
  unfold bind at 1. unfold http_call at 1.
  set (request := HttpPost _ _ _).
  destruct (http_answer W tr request) as [resp|e]; [|reflexivity].
  cbv beta iota.
  match goal with
  | |- snd (?m ?t) = _ => assert (Hq : quiet m) by quiet_run; now rewrite Hq
  end.
Qed.

Lemma search_returns_result W keyword page_size :
  ensures (News.search_market_news W keyword page_size) search_result (fun _ => False).
Proof.
  unfold News.search_market_news, search_result.
  ensures_run;
    first [ left; eexists; reflexivity
          | right; do 4 eexists; reflexivity ].
Qed.

Lemma search_spec W keyword page_size tr :
  blank keyword = false ->
  (page_size <? 1)%Z || (100 <? page_size)%Z = false ->
  exists r,
    News.search_market_news W keyword page_size tr
    = (Ret r, (tr ++ [search_request keyword page_size])%list)
    /\ search_result r.
Proof.
  intros Hk Hn.
  pose proof (search_trace W keyword page_size tr) as T.
  pose proof (search_returns_result W keyword page_size tr) as R.
  rewrite Hk, Hn in T. cbn [orb] in T.
  destruct (News.search_market_news W keyword page_size tr) as [[r|e] tr'];
    simpl in *; [|contradiction].
  subst tr'. eauto.
Qed.

(* ------------------------------------------------------------------ *)
(** ** The loop of [batch_search_market_news] *)

Lemma search_keyword_spec W n count st i k tr :
  blank k = false ->
  (n <? 1)%Z || (100 <? n)%Z = false ->
  exists st',
    News.search_keyword W n count st i k tr
    = (Ret st', (tr ++ search_request k n
                    :: (if (i <? count - 1)%nat then [Sleep (1 # 2)] else []))%list)
    /\ (News.successful_searches st' + News.failed_searches st'
        = S (News.successful_searches st + News.failed_searches st))%nat
    /\ List.length (News.batch_results st') = S (List.length (News.batch_results st)).
Proof.
  intros Hk Hn. destruct (search_spec W k n tr Hk Hn) as (r & E & R).
  unfold News.search_keyword, News.try_then. unfold bind at 1. rewrite E.
  destruct R as [(msg & ->)|(kw & news & rest & meta & ->)];
    cbn -[Nat.ltb Nat.sub];
    unfold try_except, bind, lift, News.record_result;
    destruct (i <? count - 1)%nat; cbn -[Nat.ltb Nat.sub];
    rewrite <- ?app_assoc; eexists; (split; [reflexivity|]);
    cbn [News.successful_searches News.failed_searches News.batch_results];
    rewrite length_app; simpl; split; lia.
Qed.

Lemma search_keywords_spec W n count ks : forall st i tr,
  (forall k, In k ks -> blank k = false) ->
  (n <? 1)%Z || (100 <? n)%Z = false ->
  count = (i + List.length ks)%nat ->
  exists st',
    News.search_keywords W n count st i ks tr
    = (Ret st', (tr ++ batch_operations n ks)%list)
    /\ (News.successful_searches st' + News.failed_searches st'
        = News.successful_searches st + News.failed_searches st + List.length ks)%nat
    /\ List.length (News.batch_results st')
       = (List.length (News.batch_results st) + List.length ks)%nat.
Proof.
  induction ks as [|k ks IH]; intros st i tr Hks Hn Hc.
  - exists st. simpl. rewrite app_nil_r. repeat split; lia.
  - destruct (search_keyword_spec W n count st i k tr (Hks k (or_introl eq_refl)) Hn)
      as (st1 & E1 & S1 & L1).
    cbn [News.search_keywords]. unfold bind. rewrite E1.
    destruct (IH st1 (S i)
                (tr ++ search_request k n
                    :: (if (i <? count - 1)%nat then [Sleep (1 # 2)] else []))%list
                (fun x Hx => Hks x (or_intror Hx)) Hn) as (st2 & E2 & S2 & L2);
      [simpl in Hc; lia|].
    rewrite E2. exists st2. split; [|simpl; split; lia].
    f_equal. rewrite <- app_assoc. f_equal.
    destruct ks as [|k' ks'].
    + simpl in Hc. replace (i <? count - 1)%nat with false
        by (symmetry; apply Nat.ltb_ge; lia). reflexivity.
    + simpl in Hc. replace (i <? count - 1)%nat with true
        by (symmetry; apply Nat.ltb_lt; lia). reflexivity.
Qed.

Lemma valid_keywords_nonblank keywords k :
  In k (News.valid_keywords_of keywords) -> blank k = false.
Proof.
  unfold News.valid_keywords_of. intros Hk. apply in_map_iff in Hk.
  destruct Hk as (k0 & <- & H0). apply filter_In in H0. destruct H0 as (_ & Hb).
  apply negb_true_iff in Hb. now apply blank_strip.
Qed.

Lemma batch_page_size_valid n :
  (batch_page_size n <? 1)%Z || (100 <? batch_page_size n)%Z = false.
Proof.
  unfold batch_page_size.
  destruct ((n <? 1)%Z || (100 <? n)%Z) eqn:E; [reflexivity|exact E].
Qed.

(** X21. [batch_search_market_news] searches its keywords one after the
    other: the operations of a call are one POST for each stripped
    non-blank keyword, in the order given, with the page size of the
    argument (10 when it is outside 1..100), and a sleep of half a second
    between two requests, none after the last; with no valid keyword
    nothing is sent. *)
Theorem batch_requests_in_sequence (W : World) (keywords : list string)
        (page_size_per_keyword : Z) (tr : trace) :
  snd (News.batch_search_market_news W keywords page_size_per_keyword tr)
  = (tr ++ batch_operations (batch_page_size page_size_per_keyword)
             (News.valid_keywords_of keywords))%list.
Proof.
  unfold News.batch_search_market_news.
  destruct keywords as [|k0 ks0]; [simpl; now rewrite app_nil_r|].
  pose proof (valid_keywords_nonblank (k0 :: ks0)) as Hv.
  destruct (News.valid_keywords_of (k0 :: ks0)) as [|v vs];
    [simpl; now rewrite app_nil_r|].
  cbv zeta. fold (batch_page_size page_size_per_keyword).
  rewrite snd_bind_quiet by (intros st; quiet_run).
  destruct (search_keywords_spec W (batch_page_size page_size_per_keyword)
              (List.length (v :: vs)) (v :: vs)
              {| News.batch_results := []; News.successful_searches := 0;
                 News.failed_searches := 0; News.total_news_count := 0 |}
              0%nat tr Hv (batch_page_size_valid _) eq_refl) as (st & E & _).
  now rewrite E.
Qed.

Lemma some_valid_keyword keywords :
  existsb (fun k => negb (blank k)) keywords = true ->
  News.valid_keywords_of keywords <> [].
Proof.
  unfold News.valid_keywords_of. intros H E. apply map_eq_nil in E.
  apply existsb_exists in H. destruct H as (k & Hk & Hb).
  assert (Hin : In k (filter (fun k => negb (blank k)) keywords))
    by (apply filter_In; split; assumption).
  rewrite E in Hin. destruct Hin.
Qed.

Lemma batch_summary_fields count st d :
  News.batch_summary count st = Ret d ->
  lookup "total_keywords" d = Some (of_nat count)
  /\ lookup "successful_searches" d = Some (of_nat (News.successful_searches st))
  /\ lookup "failed_searches" d = Some (of_nat (News.failed_searches st)).
Proof.
  unfold News.batch_summary. intros H. returns_inv H; repeat split.
Qed.

(** X22. The counters of a batch add up: with at least one non-blank
    keyword, [batch_search_market_news] returns a result whose summary
    counts every valid keyword once, as successful or as failed; the
    results list has one entry a keyword; and the status is success when
    no search failed, error when none succeeded and partial_success
    otherwise. *)
Theorem batch_counts_add_up (W : World) (keywords : list string)
        (page_size_per_keyword : Z) (tr : trace) :
  existsb (fun k => negb (blank k)) keywords = true ->
  exists r tr' s f,
    News.batch_search_market_news W keywords page_size_per_keyword tr = (Ret r, tr')
    /\ path ["data"; "summary"; "total_keywords"] r
       = Some (of_nat (List.length (News.valid_keywords_of keywords)))
    /\ path ["data"; "summary"; "successful_searches"] r = Some (of_nat s)
    /\ path ["data"; "summary"; "failed_searches"] r = Some (of_nat f)
    /\ (s + f = List.length (News.valid_keywords_of keywords))%nat
    /\ length_at ["data"; "results"] r
       = Some (List.length (News.valid_keywords_of keywords))
    /\ status_of r = Some (if (f =? 0)%nat then "success"
                           else if (s =? 0)%nat then "error"
                           else "partial_success").
Proof.
  intros Hsome. pose proof (some_valid_keyword keywords Hsome) as Hne.
  unfold News.batch_search_market_news.
  destruct keywords as [|k0 ks0]; [discriminate Hsome|].
  pose proof (valid_keywords_nonblank (k0 :: ks0)) as Hv.
  destruct (News.valid_keywords_of (k0 :: ks0)) as [|v vs]; [contradiction|].
  cbv zeta. fold (batch_page_size page_size_per_keyword).
  destruct (search_keywords_spec W (batch_page_size page_size_per_keyword)
              (List.length (v :: vs)) (v :: vs)
              {| News.batch_results := []; News.successful_searches := 0;
                 News.failed_searches := 0; News.total_news_count := 0 |}
              0%nat tr Hv (batch_page_size_valid _) eq_refl) as (st & E & Hsum & Hlen).
  cbn [News.successful_searches News.failed_searches News.batch_results
       List.length Nat.add] in Hsum, Hlen.
  unfold bind at 1. rewrite E.
  destruct (batch_summary_total (List.length (v :: vs)) st) as [d Hd]; [simpl; lia|].
  destruct (batch_summary_fields _ _ _ Hd) as (F1 & F2 & F3).
  unfold bind, lift, time_time, ret. rewrite Hd.
  set (s := News.successful_searches st) in *.
  set (f := News.failed_searches st) in *.
  assert (Hcount : (s + f = List.length (v :: vs))%nat) by (simpl; lia).
  assert (Hpaths : forall status rest,
             let r := PDict (("status", PStr status) :: rest) in
             lookup "data" rest
             = Some (PDict [("results", PList (News.batch_results st));
                            ("summary", PDict d)]) ->
             path ["data"; "summary"; "total_keywords"] r
             = Some (of_nat (List.length (v :: vs)))
             /\ path ["data"; "summary"; "successful_searches"] r = Some (of_nat s)
             /\ path ["data"; "summary"; "failed_searches"] r = Some (of_nat f)
             /\ (s + f = List.length (v :: vs))%nat
             /\ length_at ["data"; "results"] r = Some (List.length (v :: vs))
             /\ status_of r = Some status).
  { intros status rest r Hdata. unfold length_at, r.
    cbn [path field lookup String.eqb Ascii.eqb Bool.eqb status_of].
    rewrite Hdata. cbn [path field lookup String.eqb Ascii.eqb Bool.eqb].
    rewrite F1, F2, F3, Hlen. repeat split. exact Hcount. }
  destruct (s =? List.length (v :: vs))%nat eqn:Es;
    [|destruct (0 <? s)%nat eqn:Ep].
  - apply Nat.eqb_eq in Es.
    do 2 eexists. exists s, f. split; [reflexivity|].
    replace (f =? 0)%nat with true by (symmetry; apply Nat.eqb_eq; lia).
    now apply Hpaths.
  - apply Nat.eqb_neq in Es. apply Nat.ltb_lt in Ep.
    do 2 eexists. exists s, f. split; [reflexivity|].
    replace (f =? 0)%nat with false by (symmetry; apply Nat.eqb_neq; lia).
    replace (s =? 0)%nat with false by (symmetry; apply Nat.eqb_neq; lia).
    now apply Hpaths.
  - apply Nat.eqb_neq in Es. apply Nat.ltb_ge in Ep.
    do 2 eexists. exists s, f. split; [reflexivity|].
    replace (f =? 0)%nat with false by (symmetry; apply Nat.eqb_neq; lia).
    replace (s =? 0)%nat with true by (symmetry; apply Nat.eqb_eq; lia).
    now apply Hpaths.
Qed.

Lemma batch_counts_add_up_witness :
  exists r tr' s f,
    News.batch_search_market_news Newsroom.world ["BTC"; "  "; " eth "] 5 []
    = (Ret r, tr')
    /\ path ["data"; "summary"; "total_keywords"] r = Some (of_nat 2)
    /\ path ["data"; "summary"; "successful_searches"] r = Some (of_nat s)
    /\ path ["data"; "summary"; "failed_searches"] r = Some (of_nat f)
    /\ (s + f = 2)%nat
    /\ length_at ["data"; "results"] r = Some 2%nat
    /\ status_of r = Some (if (f =? 0)%nat then "success"
                           else if (s =? 0)%nat then "error"
                           else "partial_success").
Proof.
  apply (batch_counts_add_up Newsroom.world ["BTC"; "  "; " eth "] 5 []).
  reflexivity.
Defined.

(* ------------------------------------------------------------------ *)
(** ** How many items the news tools return *)






(* ------------------------------------------------------------------ *)
(** ** [get_latest_market_news] *)

Lemma latest_news_of_quiet W limit fetched : quiet (News.latest_news_of W limit fetched).
Proof.
  unfold News.latest_news_of. apply quiet_try_except; [|intros; quiet_run]. quiet_run.
Qed.

Lemma latest_news_of_envelope W limit fetched :
  ensures (News.latest_news_of W limit fetched)
          (fun r => shaped [Success; BareError] r = true) (fun _ => False).
Proof. unfold News.latest_news_of, News.error_only. ensures_run. Qed.

(** X24. [get_latest_market_news] cannot report an outage of the news
    feed: with a limit within 1..1000, while every request of the polling
    loop fails the tool goes on requesting and sleeping and never returns,
    however many passes it is given; no error result is produced for a
    timeout or a refused connection. *)
Theorem latest_news_never_reports_outage (W : World) (limit : Z) (tr0 : trace) :
  (limit <? 1)%Z || (1000 <? limit)%Z = false ->
  (forall i, exists e,
      News.attempt W "" (tr0 ++ News.failed_passes "" i)%list = Exc e) ->
  forall fuel, News.get_latest_market_news W fuel limit tr0 = None.
Proof.
  intros Hl Hfail fuel. unfold News.get_latest_market_news. rewrite Hl.
  now rewrite (get_market_data_never_gives_up W "" fuel tr0 Hfail).
Qed.

Lemma latest_news_never_reports_outage_witness :
  News.get_latest_market_news Examples.offline 1000 10 [] = None.
Proof.
  apply (latest_news_never_reports_outage Examples.offline 10 []).
  - reflexivity.
  - intros i. eexists. reflexivity.
Defined.

(** X25. [get_latest_market_news] returns as soon as the feed answers:
    with a limit within 1..1000, when the first [k] requests fail and the
    next one is answered, the tool given more than [k] passes returns a
    result (a success, or an error without metadata when the answer
    cannot be shaped), and the operations of the call are the [k] failed
    requests, each followed by a sleep of 5 seconds, and the answered
    request; with a limit outside 1..1000 it returns an error at once,
    without any request. *)
Theorem latest_news_returns_when_feed_answers (W : World) (limit : Z) (tr0 : trace)
        (k fuel : nat) (data : pyval) :
  (forall i, (i < k)%nat ->
     exists e, News.attempt W "" (tr0 ++ News.failed_passes "" i)%list = Exc e) ->
  News.attempt W "" (tr0 ++ News.failed_passes "" k)%list = Ret data ->
  (k < fuel)%nat ->
  exists r,
    News.get_latest_market_news W fuel limit tr0
    = Some (Ret r,
            if (limit <? 1)%Z || (1000 <? limit)%Z then tr0
            else (tr0 ++ News.failed_passes "" k ++ [News.newsflash_request ""])%list)
    /\ shaped [Success; BareError] r = true.
Proof.
  intros Hfail Hok Hfuel. unfold News.get_latest_market_news.
  destruct ((limit <? 1)%Z || (1000 <? limit)%Z).
  - eexists. split; reflexivity.
  - rewrite (get_market_data_enough_fuel W "" k tr0 data fuel Hfail Hok Hfuel).
    pose proof (latest_news_of_quiet W limit (News.tbody_of data)
                  (tr0 ++ News.failed_passes "" k ++ [News.newsflash_request ""])%list) as Q.
    pose proof (latest_news_of_envelope W limit (News.tbody_of data)
                  (tr0 ++ News.failed_passes "" k ++ [News.newsflash_request ""])%list) as S.
    destruct (News.latest_news_of W limit (News.tbody_of data) _) as [[r|e] tr'];
      simpl in Q, S; [|contradiction].
    subst tr'. exists r. split; [reflexivity|exact S].
Qed.

Lemma latest_news_returns_when_feed_answers_witness :
  exists r,
    News.get_latest_market_news Examples.flaky 3 10 []
    = Some (Ret r, (News.failed_passes "" 2 ++ [News.newsflash_request ""])%list)
    /\ shaped [Success; BareError] r = true.
Proof.
  apply (latest_news_returns_when_feed_answers Examples.flaky 10 [] 2 3
           Examples.newsflash_body).
  - intros i Hi. exists (RequestTimeout "read timed out").
    destruct i as [|[|i]]; [reflexivity|reflexivity|lia].
  - reflexivity.
  - lia.
Defined.

Lemma clean_latest_str W s : exists e, News.clean_latest_item W (PStr s) = Exc e.
Proof. eexists. reflexivity. Qed.






(* ------------------------------------------------------------------ *)
(** ** Capabilities of the exchange adapter *)



(* ------------------------------------------------------------------ *)
(** ** The results of [get_trades_data] *)

(** X28. [get_trades_data] never raises and keeps its own result
    layout: every result has a status of success or error, echoes the
    exchange name and the symbol exactly as they were given (neither
    stripped nor re-cased), carries a top-level [timestamp] and never an
    [error_message] or a [metadata] field; [data] comes with success only
    and the failure text, under [error], with error only. *)
Theorem trades_result_layout (W : World) (symbol exchange_name : string) (limit : Z) :
  ensures (Market.get_trades_data W symbol exchange_name limit)
          (fun r =>
             (status_is "success" r || status_is "error" r = true)
             /\ field "exchange" r = Some (PStr exchange_name)
             /\ field "symbol" r = Some (PStr symbol)
             /\ has_field "timestamp" r = true
             /\ has_field "error_message" r = false
             /\ has_field "metadata" r = false
             /\ has_field "data" r = status_is "success" r
             /\ has_field "error" r = status_is "error" r)
          (fun _ => False).
Proof.
  unfold Market.get_trades_data. ensures_run; repeat split.
Qed.

(* ------------------------------------------------------------------ *)
(** ** The validation of [get_futures_closed_orders] *)

(** X29. [get_futures_closed_orders] shares the slip of
    [get_futures_open_orders]: called with a non-blank exchange name and
    an empty or whitespace-only symbol, which its docstring documents as
    the request for all orders, it raises a [TypeError] ahead of its
    [try] block instead of returning a result; and its [try] block is
    only ever entered with the stripped, upper-cased form of a non-blank
    symbol that contains ':', so the branch that fetches the orders of
    every symbol cannot run. *)
Theorem closed_orders_blank_symbol_raises (symbol exchange_name : string) :
  (blank exchange_name = false -> blank symbol = true ->
   Trade.closed_orders_entry symbol exchange_name
   = Exc (TypeError "argument of type 'NoneType' is not iterable"))
  /\ (forall sym ex,
        Trade.closed_orders_entry symbol exchange_name = Ret (Trade.Enter sym ex) ->
        blank symbol = false /\ sym = upper (strip symbol)
        /\ has_char ":" sym = true /\ is_empty sym = false
        /\ ex = lower (strip exchange_name)).
Proof.
  unfold Trade.closed_orders_entry, blank. split.
  - intros -> Hs. destruct (is_empty symbol); [reflexivity|].
    simpl in Hs. rewrite Hs. reflexivity.
  - intros sym ex H.
    destruct (is_empty exchange_name || is_empty (strip exchange_name));
      [discriminate H|].
    destruct (is_empty symbol); [discriminate H|].
    destruct (is_empty (strip symbol)) eqn:Es; [discriminate H|].
    cbn [negb andb] in H.
    destruct (has_char ":" (upper (strip symbol))) eqn:Ec; [|discriminate H].
    cbn [negb] in H. inversion H; subst.
    rewrite is_empty_upper, Es, Ec. repeat split.
Qed.
